(** * finance-app: aggregation helpers, CSV export, AI fallbacks and the
    data context, embedded in Rocq.

    Sources embedded here:
    - [src/pages/ReportsPage.tsx]   (getMonthlyTrend, downloadCSV, and the
      TransactionsPage form schema that follows it in the same file),
    - the Dashboard page            (monthlyTrend),
    - [src/utils/gemini.ts] and its earlier revision
                                    (extractReceiptData,
                                     generateFinancialInsights,
                                     generateFallbackInsights),
    - the DataContext provider      (the nine CRUD operations),
    - the UploadBillPage form       (amount rule, receipt scan),
    - the pages                     (reportData, dashboardData,
                                     analysisData and the submit and
                                     delete handlers).

    Modelling conventions:
    - a JS [Date] is its time value, an integer number of milliseconds since
      the epoch ([Z]); the local time zone is UTC, so the local-time
      accessors of [Date] and of date-fns are the UTC ones;
    - in the aggregations of the pages, amounts are finite numbers with
      exact arithmetic ([Q]) and a division by zero gives the infinities
      and [NaN] of the language ([jsnum]); what is proved there is about
      which amounts are added and in which order, not about rounding;
    - the rule-based insights compare a quotient with thresholds and keep
      a dictionary keyed by free text, so they are embedded a second time
      on binary64 numbers ([PrimFloat.float]) and on the object as the
      language defines it (module [Fallback]);
    - in ReportsPage the body of the component is followed in source
      order, a [const] being uninitialised until its declaration has run;
    - built-ins whose result is not computed here ([JSON.parse],
      [Number.prototype.toString], [toFixed], [toLocaleString], the clock,
      the random generator, the remote model and the remote database) are
      parameters of the sections that use them. *)

From Stdlib Require Import ZArith QArith Qround Qabs Lia Lqa List String Ascii Bool.
From Stdlib Require Import DecimalString DecimalN Sorted Permutation Floats.
From stdpp Require Import gmap strings.
Import ListNotations.

(* ===================================================================== *)
(** * Part I: definitions                                                 *)
(* ===================================================================== *)

(** ** JS dates (ECMAScript time values) and the date-fns helpers used *)

Module JsDate.
Local Open Scope Z_scope.

(** A [Date] is its time value in milliseconds since 1970-01-01T00:00Z. *)
Definition Date := Z.

Definition msPerDay : Z := 86400000.

(** ECMAScript [Day(t)] and [TimeWithinDay(t)]. *)
Definition Day (t : Date) : Z := t / msPerDay.
Definition TimeWithinDay (t : Date) : Z := t mod msPerDay.

(** ECMAScript [DaysInYear], [DayFromYear] and [InLeapYear]. *)
Definition DaysInYear (y : Z) : Z :=
  if negb (y mod 4 =? 0) then 365
  else if negb (y mod 100 =? 0) then 366
  else if negb (y mod 400 =? 0) then 365
  else 366.

Definition DayFromYear (y : Z) : Z :=
  365 * (y - 1970) + (y - 1969) / 4 - (y - 1901) / 100 + (y - 1601) / 400.

Definition InLeapYear (y : Z) : Z := DaysInYear y - 365.

(** The day within the year on which month [m] starts (the table of
    ECMAScript [MonthFromTime]): from March on, one day later in a leap
    year. *)
Definition monthOffset (m leap : Z) : Z :=
  nth (Z.to_nat m) [0; 31; 59; 90; 120; 151; 181; 212; 243; 273; 304; 334] 0
  + (if 2 <=? m then leap else 0).

(** Months are counted from year 0: month [k] is month [k mod 12] (0 =
    January) of year [k / 12].  [monthStartDay k] is the day number (days
    since the epoch, proleptic Gregorian calendar) of the first day of
    month [k]. *)
Definition monthStartDay (k : Z) : Z :=
  let y := k / 12 in
  let m := k mod 12 in
  DayFromYear y + monthOffset m (InLeapYear y).

(** The month that contains day number [day]: an estimate from the mean
    length of a month (146097 days in 4800 months), moved by one month
    where the estimate falls short or long. *)
Definition monthIndexOfDay (day : Z) : Z :=
  let k0 := (4800 * (day + 719468)) / 146097 + 2 in
  if day <? monthStartDay k0 then k0 - 1
  else if monthStartDay (k0 + 1) <=? day then k0 + 1
  else k0.

Definition monthIndex (t : Date) : Z := monthIndexOfDay (Day t).

(** ECMAScript [YearFromTime], [MonthFromTime], [DateFromTime]; with the
    local zone at UTC these are [getFullYear], [getMonth], [getDate]. *)
Definition getFullYear (t : Date) : Z := monthIndex t / 12.
Definition getMonth (t : Date) : Z := monthIndex t mod 12.
Definition getDate (t : Date) : Z := Day t - monthStartDay (monthIndex t) + 1.
Definition getTime (t : Date) : Z := t.

(** ECMAScript [MakeTime], [MakeDay], [MakeDate]. *)
Definition MakeTime (h m s ms : Z) : Z := h * 3600000 + m * 60000 + s * 1000 + ms.

Definition MakeDay (year month date : Z) : Z :=
  let ym := year + month / 12 in
  let mn := month mod 12 in
  monthStartDay (12 * ym + mn) + date - 1.

Definition MakeDate (day time : Z) : Date := day * msPerDay + time.

(** [new Date(year, month, date)]: a year from 0 to 99 means 1900 + year. *)
Definition MakeFullYear (year : Z) : Z :=
  if (0 <=? year) && (year <=? 99) then 1900 + year else year.

Definition newDate (year month date : Z) : Date :=
  MakeDate (MakeDay (MakeFullYear year) month date) (MakeTime 0 0 0 0).

(** [d.setDate(dt)], [d.setHours(h, m, s, ms)], [d.setFullYear(y, m, dt)],
    [d.setMonth(m)] and [d.setMonth(m, dt)], returning the new time value. *)
Definition setDate (d : Date) (dt : Z) : Date :=
  MakeDate (MakeDay (getFullYear d) (getMonth d) dt) (TimeWithinDay d).

Definition setHours (d : Date) (h m s ms : Z) : Date :=
  MakeDate (Day d) (MakeTime h m s ms).

Definition setFullYear (d : Date) (y m dt : Z) : Date :=
  MakeDate (MakeDay y m dt) (TimeWithinDay d).

Definition setMonth (d : Date) (m : Z) : Date :=
  MakeDate (MakeDay (getFullYear d) m (getDate d)) (TimeWithinDay d).

Definition setMonth2 (d : Date) (m dt : Z) : Date :=
  MakeDate (MakeDay (getFullYear d) m dt) (TimeWithinDay d).

(** date-fns [startOfMonth]: [d.setDate(1); d.setHours(0, 0, 0, 0)]. *)
Definition startOfMonth (d : Date) : Date :=
  setHours (setDate d 1) 0 0 0 0.

(** date-fns [endOfMonth]:
    [d.setFullYear(d.getFullYear(), month + 1, 0); d.setHours(23, 59, 59, 999)]. *)
Definition endOfMonth (d : Date) : Date :=
  let month := getMonth d in
  setHours (setFullYear d (getFullYear d) (month + 1) 0) 23 59 59 999.

(** date-fns [startOfYear]: a clean date at time 0, then
    [setFullYear(year, 0, 1); setHours(0, 0, 0, 0)]. *)
Definition startOfYear (d : Date) : Date :=
  setHours (setFullYear 0 (getFullYear d) 0 1) 0 0 0 0.

(** date-fns [endOfYear]:
    [d.setFullYear(year + 1, 0, 0); d.setHours(23, 59, 59, 999)]. *)
Definition endOfYear (d : Date) : Date :=
  let year := getFullYear d in
  setHours (setFullYear d (year + 1) 0 0) 23 59 59 999.

(** date-fns [addMonths] and [subMonths]. *)
Definition addMonths (d : Date) (amount : Z) : Date :=
  let dayOfMonth := getDate d in
  let endOfDesiredMonth := setMonth2 d (getMonth d + amount + 1) 0 in
  let daysInMonth := getDate endOfDesiredMonth in
  if dayOfMonth >=? daysInMonth then endOfDesiredMonth
  else setFullYear d (getFullYear endOfDesiredMonth)
                     (getMonth endOfDesiredMonth) dayOfMonth.

Definition subMonths (d : Date) (amount : Z) : Date := addMonths d (- amount).

(** date-fns [eachMonthOfInterval]: the loop
    [while (currentMonth.getTime() <= endTime)
       { dates.push(currentMonth); currentMonth.setMonth(getMonth() + 1) }]
    run for at most [fuel] iterations.  The loop is entered once per month
    from the month of [start] to the month of [stop], and that count is the
    fuel given to it; with that fuel or more the loop ends on its condition.
    [None] is the [RangeError] thrown for an interval whose start is after
    its end. *)
Fixpoint eachMonthLoop (fuel : nat) (currentMonth : Date) (endTime : Z)
  : list Date :=
  match fuel with
  | O => []
  | S fuel' =>
      if getTime currentMonth <=? endTime
      then currentMonth ::
           eachMonthLoop fuel' (setMonth currentMonth (getMonth currentMonth + 1))
                         endTime
      else []
  end.

Definition eachMonthOfInterval (start stop : Date) : option (list Date) :=
  let endTime := getTime stop in
  if negb (getTime start <=? endTime) then None
  else
    let currentMonth := setDate (setHours start 0 0 0 0) 1 in
    Some (eachMonthLoop (Z.to_nat (monthIndex stop - monthIndex start + 1))
                        currentMonth endTime).

(** Bounded universal check used to settle the calendar facts on one
    400-year cycle by evaluation. *)
Fixpoint all_from (fuel : nat) (z : Z) (P : Z -> bool) : bool :=
  match fuel with
  | O => true
  | S f => P z && all_from f (z + 1) P
  end.

(** A year has [DaysInYear] days. *)
Definition year_ok (y : Z) : bool :=
  DayFromYear (y + 1) =? DayFromYear y + DaysInYear y.

(** A month starts before the next one, and within a few days of the
    start that months of equal length would give. *)
Definition month_ok (k : Z) : bool :=
  let deviation := monthStartDay k + 719468 - (146097 * (k - 2)) / 4800 in
  (monthStartDay k <? monthStartDay (k + 1))
  && (-1 <=? deviation) && (deviation <=? 3).

End JsDate.

(** ** Strings: the array and string built-ins the sources call *)

Module Text.

Definition comma : ascii := ","%char.
Definition newline : ascii := "010"%char.
Definition doubleQuote : ascii := "034"%char.

(** [Array.prototype.join] on an array of strings. *)
Fixpoint join (sep : string) (cells : list string) : string :=
  match cells with
  | [] => ""
  | c :: rest =>
      match rest with
      | [] => c
      | _ :: _ => c +:+ sep +:+ join sep rest
      end
  end.

(** [String.prototype.split] with a one-character separator. *)
Fixpoint split (sep : ascii) (s : string) : list string :=
  match s with
  | EmptyString => [""]
  | String c s' =>
      if Ascii.eqb c sep then "" :: split sep s'
      else match split sep s' with
           | [] => [String c ""]
           | cell :: cells => String c cell :: cells
           end
  end.

(** [s.includes(c)] for a one-character [c]. *)
Fixpoint occurs (c : ascii) (s : string) : bool :=
  match s with
  | EmptyString => false
  | String a s' => Ascii.eqb a c || occurs c s'
  end.

(** White space removed by [String.prototype.trim] (the ASCII part of it:
    tab, line feed, vertical tab, form feed, carriage return, space). *)
Definition isSpace (c : ascii) : bool :=
  let n := nat_of_ascii c in
  (Nat.leb 9 n && Nat.leb n 13) || Nat.eqb n 32.

Fixpoint trimStart (s : string) : string :=
  match s with
  | EmptyString => ""
  | String c s' => if isSpace c then trimStart s' else s
  end.

Definition trim (s : string) : string :=
  String.rev (trimStart (String.rev (trimStart s))).

(** The characters [0] to [9]. *)
Definition isDigit (c : ascii) : bool :=
  let n := nat_of_ascii c in Nat.leb 48 n && Nat.leb n 57.

(** A character that is neither a digit nor the minus sign: in
    particular the comma and the line feed. *)
Definition plainSeparator (c : ascii) : Prop :=
  isDigit c = false /\ Ascii.eqb "-" c = false.

(** The suffix of [s] that starts at the first [c]. *)
Fixpoint fromFirst (c : ascii) (s : string) : option string :=
  match s with
  | EmptyString => None
  | String a s' => if Ascii.eqb a c then Some s else fromFirst c s'
  end.

(** The prefix of [s] that ends at the last [c]. *)
Fixpoint upToLast (c : ascii) (s : string) : option string :=
  match s with
  | EmptyString => None
  | String a s' =>
      match upToLast c s' with
      | Some p => Some (String a p)
      | None => if Ascii.eqb a c then Some (String a "") else None
      end
  end.

(** [text.match(/O[\s\S]*C/)] for one-character delimiters [O] and [C]:
    the greedy match runs from the first [O] to the last [C] after it. *)
Definition matchDelimited (opening closing : ascii) (text : string)
  : option string :=
  match fromFirst opening text with
  | Some (String o rest) =>
      match upToLast closing rest with
      | Some body => Some (String o body)
      | None => None
      end
  | _ => None
  end.

(** Decimal digits of a natural number ([Number.prototype.toString] on a
    non-negative integer). *)
Definition digits (n : N) : string := NilEmpty.string_of_uint (N.to_uint n).

Fixpoint replicate (n : nat) (c : ascii) : string :=
  match n with
  | O => ""
  | S n' => String c (replicate n' c)
  end.

(** [s.padStart(targetLength, c)]. *)
Definition padStart (targetLength : nat) (c : ascii) (s : string) : string :=
  replicate (targetLength - String.length s) c +:+ s.

End Text.

(** ** date-fns [format] for the tokens the sources use, and
       [Date.prototype.toISOString] *)

Module DateFormat.
Import JsDate Text.
Local Open Scope Z_scope.

(** date-fns [addLeadingZeros]. *)
Definition addLeadingZeros (number : Z) (targetLength : nat) : string :=
  let sign := if number <? 0 then "-" else "" in
  sign +:+ padStart targetLength "0"%char (digits (Z.to_N (Z.abs number))).

(** Token [yyyy]: years before 1 are counted as in the BC era. *)
Definition format_yyyy (d : Date) : string :=
  let signedYear := getFullYear d in
  let year := if signedYear >? 0 then signedYear else 1 - signedYear in
  addLeadingZeros year 4.

Definition format_MM (d : Date) : string := addLeadingZeros (getMonth d + 1) 2.
Definition format_dd (d : Date) : string := addLeadingZeros (getDate d) 2.

Definition monthAbbreviations : list string :=
  ["Jan"; "Feb"; "Mar"; "Apr"; "May"; "Jun";
   "Jul"; "Aug"; "Sep"; "Oct"; "Nov"; "Dec"].

(** Token [MMM]. *)
Definition format_MMM (d : Date) : string :=
  nth (Z.to_nat (getMonth d)) monthAbbreviations "".

(** [format(d, "yyyy-MM-dd")] and [format(d, "yyyy-MM")]. *)
Definition format_yyyy_MM_dd (d : Date) : string :=
  format_yyyy d +:+ "-" +:+ format_MM d +:+ "-" +:+ format_dd d.

Definition format_yyyy_MM (d : Date) : string :=
  format_yyyy d +:+ "-" +:+ format_MM d.

(** [d.toISOString()]: a four-digit year from 0 to 9999, otherwise a sign
    and six digits. *)
Definition isoYear (y : Z) : string :=
  if (0 <=? y) && (y <=? 9999) then addLeadingZeros y 4
  else (if y <? 0 then "-" else "+") +:+
       padStart 6 "0"%char (digits (Z.to_N (Z.abs y))).

Definition toISOString (d : Date) : string :=
  let t := TimeWithinDay d in
  isoYear (getFullYear d) +:+ "-" +:+ format_MM d +:+ "-" +:+ format_dd d
  +:+ "T" +:+ addLeadingZeros (t / 3600000) 2
  +:+ ":" +:+ addLeadingZeros ((t / 60000) mod 60) 2
  +:+ ":" +:+ addLeadingZeros ((t / 1000) mod 60) 2
  +:+ "." +:+ addLeadingZeros (t mod 1000) 3 +:+ "Z".

(** [new Date().toISOString().split('T')[0]] at clock value [now]. *)
Definition todayISO (now : Date) : string :=
  hd "" (split "T"%char (toISOString now)).
(** ECMAScript [WeekDay]: day 0 of the epoch was a Thursday. *)
Definition WeekDay (d : Date) : Z := (Day d + 4) mod 7.

Definition weekdayAbbreviations : list string :=
  ["Sun"; "Mon"; "Tue"; "Wed"; "Thu"; "Fri"; "Sat"].

(** [d.toDateString()]: the weekday, the month, the day on two digits and
    the year on four digits or more, with a minus sign for a negative
    year; for instance [Thu Feb 29 2024]. *)
Definition toDateString (d : Date) : string :=
  nth (Z.to_nat (WeekDay d)) weekdayAbbreviations ""
  +:+ " " +:+ format_MMM d
  +:+ " " +:+ addLeadingZeros (getDate d) 2
  +:+ " " +:+ addLeadingZeros (getFullYear d) 4.



End DateFormat.

(** ** JS values, completions and numbers *)

Module Js.

(** A thrown value: [new Error(message)] or an error of a library. *)
Inductive JsError : Type := MkError (message : string).

(** The outcome of running a piece of code: a value or a thrown error. *)
Inductive Completion (A : Type) : Type :=
| Return (a : A)
| Throw (e : JsError).
Arguments Return {A} a.
Arguments Throw {A} e.

Definition bind {A B} (c : Completion A) (k : A -> Completion B)
  : Completion B :=
  match c with
  | Return a => k a
  | Throw e => Throw e
  end.

(** [try { body } catch (error) { handler(error) }]. *)
Definition try_catch {A} (body : Completion A) (handler : JsError -> Completion A)
  : Completion A :=
  match body with
  | Return a => Return a
  | Throw e => handler e
  end.

(** Values that [JSON.parse] builds, and [undefined]. *)
#[warnings="-register-all"]
Inductive JsValue : Type :=
| JUndefined
| JNull
| JBool (b : bool)
| JNum (n : Q)
| JStr (s : string)
| JArr (items : list JsValue)
| JObj (fields : list (string * JsValue)).

(** [ToBoolean]. *)
Definition truthy (v : JsValue) : bool :=
  match v with
  | JUndefined | JNull => false
  | JBool b => b
  | JNum n => negb (Qeq_bool n 0)
  | JStr s => negb (String.eqb s "")
  | JArr _ | JObj _ => true
  end.

(** [a || b]. *)
Definition or_else (a b : JsValue) : JsValue := if truthy a then a else b.

Fixpoint lookupField (key : string) (fields : list (string * JsValue))
  : JsValue :=
  match fields with
  | [] => JUndefined
  | (k, v) :: rest => if String.eqb k key then v else lookupField key rest
  end.

(** Property read [v.key] for the data keys the sources read ([type],
    [title], [vendor], ...): a [TypeError] on [undefined] and [null], the
    field of an object, and [undefined] on every other value. *)
Definition getProp (v : JsValue) (key : string) : Completion JsValue :=
  match v with
  | JUndefined | JNull =>
      Throw (MkError ("Cannot read properties of null or undefined: " +:+ key))
  | JObj fields => Return (lookupField key fields)
  | _ => Return JUndefined
  end.

Definition isNumber (v : JsValue) : bool :=
  match v with JNum _ => true | _ => false end.

Definition isArray (v : JsValue) : bool :=
  match v with JArr _ => true | _ => false end.

(** [array.map(f)] where [f] may throw: the first throw ends the map. *)
Fixpoint mapM {A B} (f : A -> Completion B) (l : list A)
  : Completion (list B) :=
  match l with
  | [] => Return []
  | a :: rest =>
      bind (f a) (fun b => bind (mapM f rest) (fun bs => Return (b :: bs)))
  end.

(** Results of arithmetic on finite numbers: a finite number, or what a
    division by zero gives. *)
Inductive jsnum : Type :=
| Fin (q : Q)
| PosInf
| NegInf
| NaN.

Definition Qlt_bool (a b : Q) : bool := negb (Qle_bool b a).

(** [a / b] on finite numbers. *)
Definition js_div (a b : Q) : jsnum :=
  if Qeq_bool b 0 then
    if Qlt_bool 0 a then PosInf
    else if Qlt_bool a 0 then NegInf
    else NaN
  else Fin (a / b).

(** [x * c] for a finite [c]. *)
Definition js_mul (x : jsnum) (c : Q) : jsnum :=
  match x with
  | Fin q => Fin (q * c)
  | PosInf => if Qlt_bool 0 c then PosInf else if Qlt_bool c 0 then NegInf else NaN
  | NegInf => if Qlt_bool 0 c then NegInf else if Qlt_bool c 0 then PosInf else NaN
  | NaN => NaN
  end.

(** [x > c], [x < c], [x >= c] for a finite [c]; every comparison with
    [NaN] is false. *)
Definition js_gt (x : jsnum) (c : Q) : bool :=
  match x with
  | Fin q => Qlt_bool c q
  | PosInf => true
  | NegInf | NaN => false
  end.

Definition js_lt (x : jsnum) (c : Q) : bool :=
  match x with
  | Fin q => Qlt_bool q c
  | NegInf => true
  | PosInf | NaN => false
  end.

Definition js_ge (x : jsnum) (c : Q) : bool :=
  match x with
  | Fin q => Qle_bool c q
  | PosInf => true
  | NegInf | NaN => false
  end.
(** [x + y]. *)
Definition js_add (x y : jsnum) : jsnum :=
  match x, y with
  | NaN, _ | _, NaN => NaN
  | Fin a, Fin b => Fin (a + b)
  | PosInf, NegInf | NegInf, PosInf => NaN
  | PosInf, _ | _, PosInf => PosInf
  | NegInf, _ | _, NegInf => NegInf
  end.

(** [x / c] for a finite [c] (a zero divisor being [+0]). *)
Definition js_quot (x : jsnum) (c : Q) : jsnum :=
  match x with
  | Fin q => js_div q c
  | PosInf => if Qlt_bool c 0 then NegInf else PosInf
  | NegInf => if Qlt_bool c 0 then PosInf else NegInf
  | NaN => NaN
  end.

(** [b > 0 ? (a / b) * 100 : 0], the guarded percentage of the pages. *)
Definition percentOf (a b : Q) : jsnum :=
  if Qlt_bool 0 b then js_mul (js_div a b) 100 else Fin 0.



End Js.

(** ** The data model of the DataContext *)

Module Model.
Import JsDate.

Inductive TransactionType : Type := income | expense.

Definition TransactionType_eqb (a b : TransactionType) : bool :=
  match a, b with
  | income, income | expense, expense => true
  | _, _ => false
  end.

Definition typeName (t : TransactionType) : string :=
  match t with income => "income" | expense => "expense" end.

Record Account : Type := {
  acc_id : string;
  acc_name : string;
  acc_type : string;
  acc_balance : Q;
  acc_createdAt : Date
}.

Record Transaction : Type := {
  tx_id : string;
  tx_accountId : string;
  tx_type : TransactionType;
  tx_amount : Q;
  tx_category : string;
  tx_description : string;
  tx_date : Date;
  tx_notes : option string;
  tx_receiptUrl : option string;
  tx_createdAt : Date
}.

(** [list.filter(t => t.type === ty)]. *)
Definition ofType (ty : TransactionType) (l : list Transaction)
  : list Transaction :=
  List.filter (fun t => TransactionType_eqb (tx_type t) ty) l.

(** [list.reduce((sum, t) => sum + t.amount, 0)]. *)
Definition sumAmounts (l : list Transaction) : Q :=
  fold_left (fun sum t => (sum + tx_amount t)%Q) l 0%Q.

(** [t.date >= periodStart && t.date <= periodEnd]. *)
Definition dateBetween (periodStart periodEnd : Date) (t : Transaction) : bool :=
  (getTime (tx_date t) >=? getTime periodStart)%Z
  && (getTime (tx_date t) <=? getTime periodEnd)%Z.
Record Investment : Type := {
  inv_id : string;
  inv_name : string;
  inv_type : string;
  inv_quantity : Q;
  inv_buyPrice : Q;
  inv_currentPrice : Q;
  inv_createdAt : Date
}.



End Model.

(** ** ReportsPage: the yearly trend and the CSV export *)

Module ReportsPage.
Import JsDate Text DateFormat Model.

Inductive ReportType : Type := monthly | yearly.

(** One point of the trend chart: [{ month, income, expenses, net }]. *)
Record TrendPoint : Type := {
  tp_month : string;
  tp_income : Q;
  tp_expenses : Q;
  tp_net : Q
}.

(** The body of the loop of [getMonthlyTrend] for month number [i]. *)
Definition monthPoint (transactions : list Transaction) (year : Date) (i : Z)
  : TrendPoint :=
  let monthDate := newDate (getFullYear year) i 1 in
  let monthStart := startOfMonth monthDate in
  let monthEnd := endOfMonth monthDate in
  let monthTransactions := List.filter (dateBetween monthStart monthEnd) transactions in
  let income := sumAmounts (ofType Model.income monthTransactions) in
  let expenses := sumAmounts (ofType Model.expense monthTransactions) in
  {| tp_month := format_MMM monthDate;
     tp_income := income;
     tp_expenses := expenses;
     tp_net := (income - expenses)%Q |}.

(** [getMonthlyTrend]: [for (let i = 0; i < 12; i++) months.push(...)]. *)
Definition getMonthlyTrend (transactions : list Transaction) (year : Date)
  : list TrendPoint :=
  map (fun i : nat => monthPoint transactions year (Z.of_nat i)) (seq 0 12).

(** The period of the report: the month or the year of [selectedPeriod]. *)
Definition periodStart (reportType : ReportType) (selectedPeriod : Date) : Date :=
  match reportType with
  | monthly => startOfMonth selectedPeriod
  | yearly => startOfYear selectedPeriod
  end.

Definition periodEnd (reportType : ReportType) (selectedPeriod : Date) : Date :=
  match reportType with
  | monthly => endOfMonth selectedPeriod
  | yearly => endOfYear selectedPeriod
  end.

(** What [downloadCSV] does: an error toast, or a file offered for
    download followed by a success toast. *)
Inductive ExportOutcome : Type :=
| ToastError (message : string)
| Downloaded (filename content : string) (successToast : string).

Definition csvHeader : list string :=
  ["Date"; "Type"; "Amount"; "Category"; "Description"; "Account"].

(** [account?.name || "Unknown"] for
    [account = accounts.find(a => a.id === t.accountId)]. *)
Definition accountName (accounts : list Account) (t : Transaction) : string :=
  match find (fun a => String.eqb (acc_id a) (tx_accountId t)) accounts with
  | Some account =>
      if String.eqb (acc_name account) "" then "Unknown" else acc_name account
  | None => "Unknown"
  end.

Section CsvExport.
(** [Number.prototype.toString], applied by [join] to the amount. *)
Variable Number_toString : Q -> string.

Definition csvRow (accounts : list Account) (t : Transaction) : list string :=
  [ format_yyyy_MM_dd (tx_date t);
    typeName (tx_type t);
    Number_toString (tx_amount t);
    tx_category t;
    tx_description t;
    accountName accounts t ].

Definition csvContent (accounts : list Account)
           (periodTransactions : list Transaction) : string :=
  join (String newline "")
       (map (join ",") (csvHeader :: map (csvRow accounts) periodTransactions)).

Definition downloadCSV (accounts : list Account)
           (transactions : list Transaction)
           (reportType : ReportType) (selectedPeriod : Date)
  : ExportOutcome :=
  if Nat.eqb (length transactions) 0 then
    ToastError "No transactions to export"
  else
    let periodTransactions :=
      List.filter (dateBetween (periodStart reportType selectedPeriod)
                          (periodEnd reportType selectedPeriod))
             transactions in
    if Nat.eqb (length periodTransactions) 0 then
      ToastError "No transactions in selected period to export"
    else
      Downloaded
        ("transactions-" +:+ format_yyyy_MM selectedPeriod +:+ ".csv")
        (csvContent accounts periodTransactions)
        "CSV downloaded successfully!".
End CsvExport.

End ReportsPage.

(** ** Dashboard: the trend of the last six months *)

Module Dashboard.
Import JsDate Text DateFormat Model.

(** One point of the chart: [{ month, income, expenses, savings }]. *)
Record TrendPoint : Type := {
  tp_month : string;
  tp_income : Q;
  tp_expenses : Q;
  tp_savings : Q
}.

(** The function mapped over [months]. *)
Definition monthPoint (transactions : list Transaction) (month : Date)
  : TrendPoint :=
  let monthStart := startOfMonth month in
  let monthEnd := endOfMonth month in
  let monthTransactions := List.filter (dateBetween monthStart monthEnd) transactions in
  let income := sumAmounts (ofType Model.income monthTransactions) in
  let expenses := sumAmounts (ofType Model.expense monthTransactions) in
  {| tp_month := format_MMM month;
     tp_income := income;
     tp_expenses := expenses;
     tp_savings := (income - expenses)%Q |}.

(** [monthlyTrend] of the dashboard at clock value [currentMonth];
    [None] when [eachMonthOfInterval] throws. *)
Definition monthlyTrend (transactions : list Transaction) (currentMonth : Date)
  : option (list TrendPoint) :=
  match eachMonthOfInterval (subMonths currentMonth 5) currentMonth with
  | Some months => Some (map (monthPoint transactions) months)
  | None => None
  end.

End Dashboard.

(** ** utils/gemini.ts: receipt extraction and financial insights *)

Module Gemini.
Import JsDate Text DateFormat Js Model.

(** [AnalysisInsight] as it exists at run time: the fields hold whatever
    values the code puts there. *)
Record AnalysisInsight : Type := {
  ins_type : JsValue;
  ins_title : JsValue;
  ins_message : JsValue;
  ins_recommendation : JsValue
}.

(** The three members of the declared union
    ['positive' | 'warning' | 'info']. *)
Definition declaredTypes : list JsValue :=
  [JStr "positive"; JStr "warning"; JStr "info"].

(** What the remote model call gives: getting the model, preparing the
    parts or [generateContent] throws; [result.response] is missing;
    [response.text()] throws; or there is a text. *)
Inductive ModelOutcome : Type :=
| CallFails (e : JsError)
| NoResponse
| TextFails (e : JsError)
| Text (text : string).

(** [acc[key]] and [acc[key] = v] on an object used as a dictionary.  The
    keys are kept in insertion order, which is the order of
    [Object.entries] for keys that are not array indices, as category
    names are. *)
Fixpoint getKey (key : string) (acc : list (string * Q)) : option Q :=
  match acc with
  | [] => None
  | (k, v) :: rest => if String.eqb k key then Some v else getKey key rest
  end.

Fixpoint setKey (key : string) (v : Q) (acc : list (string * Q))
  : list (string * Q) :=
  match acc with
  | [] => [(key, v)]
  | (k, w) :: rest =>
      if String.eqb k key then (k, v) :: rest else (k, w) :: setKey key v rest
  end.

(** [acc[t.category] = (acc[t.category] || 0) + t.amount; return acc]. *)
Definition addToCategory (acc : list (string * Q)) (t : Transaction)
  : list (string * Q) :=
  let current := match getKey (tx_category t) acc with
                 | Some v => if Qeq_bool v 0 then 0%Q else v
                 | None => 0%Q
                 end in
  setKey (tx_category t) (current + tx_amount t)%Q acc.

(** [transactions.filter(t => t.type === 'expense').reduce(..., {})]. *)
Definition categoryBreakdown (transactions : list Transaction)
  : list (string * Q) :=
  fold_left addToCategory (ofType expense transactions) [].

(** [entries.sort(([, a], [, b]) => b - a)]: a stable sort, larger
    amounts first. *)
Fixpoint insertEntry (e : string * Q) (sorted : list (string * Q))
  : list (string * Q) :=
  match sorted with
  | [] => [e]
  | f :: rest =>
      if Qlt_bool 0 (snd f - snd e) then f :: insertEntry e rest
      else e :: sorted
  end.

Definition sortEntries (entries : list (string * Q)) : list (string * Q) :=
  fold_right insertEntry [] entries.

(** [Object.entries(categories).sort(...)[0]]. *)
Definition topEntry (categories : list (string * Q)) : option (string * Q) :=
  hd_error (sortEntries categories).

Definition totalIncome (transactions : list Transaction) : Q :=
  sumAmounts (ofType income transactions).

Definition totalExpenses (transactions : list Transaction) : Q :=
  sumAmounts (ofType expense transactions).

Section WithBuiltins.
(** [JSON.parse]. *)
Variable JSON_parse : string -> Completion JsValue.
(** [x.toFixed(1)] and [x.toLocaleString()]. *)
Variable toFixed1 : jsnum -> string.
Variable toLocaleString : Q -> string.
(** [Math.random()] and the clock read by [new Date()]. *)
Variable random : Q.
Variable now : Date.

(** *** Current revision *)

(** From the call to the checked [text]. *)
Definition responseText (outcome : ModelOutcome) : Completion string :=
  match outcome with
  | CallFails e => Throw e
  | NoResponse => Throw (MkError "No response from Gemini API")
  | TextFails e => Throw e
  | Text text =>
      if String.eqb text "" || String.eqb (trim text) ""
      then Throw (MkError "Empty response from Gemini API")
      else Return text
  end.

(** The object returned by the [catch] block of [extractReceiptData]. *)
Definition placeholderReceipt : JsValue :=
  JObj [ ("vendor", JStr "Sample Store");
         ("amount", JNum (inject_Z (Qfloor (random * 1000)) + 100)%Q);
         ("date", JStr (todayISO now));
         ("category", JStr "Shopping") ].

(** The validated object built from the parsed data. *)
Definition cleanReceipt (extractedData : JsValue) : Completion JsValue :=
  bind (getProp extractedData "vendor") (fun vendor =>
  bind (getProp extractedData "amount") (fun amount =>
  bind (getProp extractedData "date") (fun date =>
  bind (getProp extractedData "category") (fun category =>
  bind (getProp extractedData "items") (fun items =>
  Return (JObj [ ("vendor", or_else vendor JNull);
                 ("amount", if isNumber amount then amount else JNull);
                 ("date", or_else date JNull);
                 ("category", or_else category (JStr "Others"));
                 ("items", if isArray items then items else JArr []) ])))))).

Definition extractReceiptData (outcome : ModelOutcome) : Completion JsValue :=
  try_catch
    (bind (responseText outcome) (fun text =>
       match matchDelimited "{" "}" text with
       | Some jsonMatch =>
           bind (JSON_parse jsonMatch) (fun extractedData =>
             cleanReceipt extractedData)
       | None => Throw (MkError "No valid JSON found in response")
       end))
    (fun error => Return placeholderReceipt).

(** The savings rate of [generateFallbackInsights]:
    [totalIncome > 0 ? ((totalIncome - totalExpenses) / totalIncome) * 100 : 0]. *)
Definition savingsRate (transactions : list Transaction) : jsnum :=
  if Qlt_bool 0 (totalIncome transactions)
  then js_mul (js_div (totalIncome transactions - totalExpenses transactions)
                      (totalIncome transactions)) 100
  else Fin 0.

Definition gettingStarted : AnalysisInsight :=
  {| ins_type := JStr "info";
     ins_title := JStr "Getting Started";
     ins_message :=
       JStr "Start adding transactions to get personalized financial insights.";
     ins_recommendation :=
       JStr "Add your income and expense transactions to see detailed analysis." |}.

Definition excellentSavings (rate : jsnum) : AnalysisInsight :=
  {| ins_type := JStr "positive";
     ins_title := JStr "Excellent Savings Rate";
     ins_message :=
       JStr ("Your savings rate is " +:+ toFixed1 rate +:+
             "%. You're doing great at managing your finances!");
     ins_recommendation :=
       JStr "Consider investing your surplus savings for better returns." |}.

Definition lowSavings (rate : jsnum) : AnalysisInsight :=
  {| ins_type := JStr "warning";
     ins_title := JStr "Low Savings Rate";
     ins_message :=
       JStr ("Your savings rate is " +:+ toFixed1 rate +:+
             "%. This is below the recommended 20%.");
     ins_recommendation :=
       JStr "Review your expenses and identify areas where you can cut back." |}.

Definition overspending (transactions : list Transaction) : AnalysisInsight :=
  {| ins_type := JStr "warning";
     ins_title := JStr "Spending More Than Earning";
     ins_message :=
       JStr ("You're spending ₹" +:+
             toLocaleString
               (Qabs (totalIncome transactions - totalExpenses transactions)) +:+
             " more than you earn.");
     ins_recommendation :=
       JStr "Urgently review your expenses and create a budget to avoid debt." |}.

Definition topSpending (transactions : list Transaction)
           (entry : string * Q) : AnalysisInsight :=
  let category := fst entry in
  let amount := snd entry in
  let percentage :=
    toFixed1 (js_mul (js_div amount (totalExpenses transactions)) 100) in
  {| ins_type := JStr "info";
     ins_title := JStr "Top Spending Category";
     ins_message :=
       JStr (category +:+ " accounts for " +:+ percentage +:+
             "% of your expenses (₹" +:+ toLocaleString amount +:+ ").");
     ins_recommendation :=
       JStr "Monitor this category closely and look for optimization opportunities." |}.

Definition moreDataNeeded : AnalysisInsight :=
  {| ins_type := JStr "info";
     ins_title := JStr "More Data Needed";
     ins_message :=
       JStr "Add more transactions to get better financial insights and patterns.";
     ins_recommendation :=
       JStr "Try to record all your income and expenses for comprehensive analysis." |}.

(** The three blocks of [generateFallbackInsights], each giving the
    insights it pushes. *)
Definition savingsInsights (transactions : list Transaction)
  : list AnalysisInsight :=
  let rate := savingsRate transactions in
  if js_gt rate 20 then [excellentSavings rate]
  else if js_lt rate 10 && js_ge rate 0 then [lowSavings rate]
  else if js_lt rate 0 then [overspending transactions]
  else [].

Definition categoryInsights (transactions : list Transaction)
  : list AnalysisInsight :=
  match topEntry (categoryBreakdown transactions) with
  | Some entry =>
      if Qlt_bool 0 (totalExpenses transactions)
      then [topSpending transactions entry]
      else []
  | None => []
  end.

Definition frequencyInsights (transactions : list Transaction)
  : list AnalysisInsight :=
  if Nat.ltb (length transactions) 5 then [moreDataNeeded] else [].

Definition generateFallbackInsights (transactions : list Transaction)
  : list AnalysisInsight :=
  if Nat.eqb (length transactions) 0 then [gettingStarted]
  else savingsInsights transactions
       ++ categoryInsights transactions
       ++ frequencyInsights transactions.

(** The function mapped over the parsed insights. *)
Definition normalizeInsight (insight : JsValue) : Completion AnalysisInsight :=
  bind (getProp insight "type") (fun type =>
  bind (getProp insight "title") (fun title =>
  bind (getProp insight "message") (fun message =>
  bind (getProp insight "recommendation") (fun recommendation =>
  Return {| ins_type := or_else type (JStr "info");
            ins_title := or_else title (JStr "Financial Insight");
            ins_message := or_else message (JStr "No message available");
            ins_recommendation := or_else recommendation JUndefined |})))).

(** The inner [try] of [generateFinancialInsights]: parse, check, map. *)
Definition parseInsights (jsonMatch : string)
  : Completion (list AnalysisInsight) :=
  try_catch
    (bind (JSON_parse jsonMatch) (fun insights =>
       match insights with
       | JArr items => mapM normalizeInsight items
       | _ => Throw (MkError "Invalid insights format - not an array")
       end))
    (fun parseError => Throw (MkError "Failed to parse insights JSON")).

Definition generateFinancialInsights (transactions : list Transaction)
           (accounts : list Account) (outcome : ModelOutcome)
  : Completion (list AnalysisInsight) :=
  try_catch
    (bind (responseText outcome) (fun text =>
       match matchDelimited "[" "]" text with
       | Some jsonMatch => parseInsights jsonMatch
       | None => Throw (MkError "No valid JSON array found in response")
       end))
    (fun error => Return (generateFallbackInsights transactions)).

End WithBuiltins.

End Gemini.

(** ** utils/gemini.ts, earlier revision *)

Module GeminiLegacy.
Import JsDate Text DateFormat Js Model Gemini.

Section WithBuiltins.
Variable JSON_parse : string -> Completion JsValue.
Variable random : Q.
Variable now : Date.

(** [const response = await result.response; const text = response.text()]:
    no check of the response or of the text. *)
Definition responseText (outcome : ModelOutcome) : Completion string :=
  match outcome with
  | CallFails e => Throw e
  | NoResponse =>
      Throw (MkError "Cannot read properties of null or undefined: text")
  | TextFails e => Throw e
  | Text text => Return text
  end.

Definition extractReceiptData (outcome : ModelOutcome) : Completion JsValue :=
  try_catch
    (bind (responseText outcome) (fun text =>
       match matchDelimited "{" "}" text with
       | Some jsonMatch => JSON_parse jsonMatch
       | None => Throw (MkError "No valid JSON found in response")
       end))
    (fun error => Return (placeholderReceipt random now)).

End WithBuiltins.

End GeminiLegacy.

(** ** utils/gemini.ts: the rule-based insights on IEEE 754 numbers

    [generateFallbackInsights] and the [catch] block of the earlier
    revision once more, with the amounts as the binary64 numbers that they
    are at run time and with the dictionary of the categories as the
    object that it is: rounding, overflow, [NaN], the keys that [{}]
    inherits from [Object.prototype] and the order of [Object.entries]
    are those of the language. *)

Module Fallback.
Import Text Js Model.
Import Gemini(AnalysisInsight, Build_AnalysisInsight,
              ins_type, ins_title, ins_message, ins_recommendation).
#[local] Open Scope float_scope.

(** The fields of a transaction that the function reads. *)
Record Transaction : Type := {
  type : TransactionType;
  amount : float;
  category : string
}.

(** [transactions.filter(t => t.type === ty)]. *)
Definition ofType (ty : TransactionType) (transactions : list Transaction)
  : list Transaction :=
  List.filter (fun t => TransactionType_eqb (type t) ty) transactions.

(** [list.reduce((sum, t) => sum + t.amount, 0)]. *)
Definition sumAmounts (l : list Transaction) : float :=
  fold_left (fun sum t => sum + amount t) l 0.

Definition totalIncome (transactions : list Transaction) : float :=
  sumAmounts (ofType income transactions).

Definition totalExpenses (transactions : list Transaction) : float :=
  sumAmounts (ofType expense transactions).

(** [totalIncome > 0 ? ((totalIncome - totalExpenses) / totalIncome) * 100 : 0]. *)
Definition savingsRate (transactions : list Transaction) : float :=
  if 0 <? totalIncome transactions
  then ((totalIncome transactions - totalExpenses transactions)
        / totalIncome transactions) * 100
  else 0.

(** *** The object used as a dictionary *)

(** What a property of [expenseCategories] holds: a number, or the string
    that [+] gives when the value read under the key was not a number. *)
Inductive Value : Type :=
| Num (x : float)
| Str (s : string).

(** The properties that [{}] inherits from [Object.prototype] and that
    hold a function; [__proto__], which it inherits too, is an accessor. *)
Definition inheritedFunctions : list string :=
  [ "constructor"; "hasOwnProperty"; "isPrototypeOf"; "propertyIsEnumerable";
    "toLocaleString"; "toString"; "valueOf";
    "__defineGetter__"; "__defineSetter__";
    "__lookupGetter__"; "__lookupSetter__" ].

(** The own properties of the object, in the order of their creation. *)
Fixpoint getOwn (key : string) (own : list (string * Value)) : option Value :=
  match own with
  | [] => None
  | (k, v) :: rest => if String.eqb k key then Some v else getOwn key rest
  end.

Fixpoint setOwn (key : string) (v : Value) (own : list (string * Value))
  : list (string * Value) :=
  match own with
  | [] => [(key, v)]
  | (k, w) :: rest =>
      if String.eqb k key then (k, v) :: rest else (k, w) :: setOwn key v rest
  end.

(** [ToBoolean] of a number: false for [+0], [-0] and [NaN]. *)
Definition truthyNumber (x : float) : bool := negb (x =? 0) && negb (is_nan x).

(** An array index: the canonical decimal form of an integer from 0 to
    2^32 - 2. *)
Definition arrayIndex (key : string) : option N :=
  match NilEmpty.uint_of_string key with
  | Some d =>
      let n := N.of_uint d in
      if String.eqb (digits n) key && (n <? 4294967295)%N then Some n else None
  | None => None
  end.

Fixpoint insertIndexed (e : N * (string * Value))
         (sorted : list (N * (string * Value))) : list (N * (string * Value)) :=
  match sorted with
  | [] => [e]
  | f :: rest =>
      if (fst e <? fst f)%N then e :: sorted else f :: insertIndexed e rest
  end.

(** [Object.entries(o)]: the own properties whose key is an array index,
    in ascending order of the index, and then the others in the order of
    their creation. *)
Definition Object_entries (own : list (string * Value))
  : list (string * Value) :=
  let indexed :=
    flat_map (fun e => match arrayIndex (fst e) with
                       | Some n => [(n, e)]
                       | None => []
                       end) own in
  map snd (fold_right insertIndexed [] indexed)
  ++ List.filter (fun e => match arrayIndex (fst e) with
                           | Some _ => false
                           | None => true
                           end) own.

(** [ToNumber] of a value of the dictionary.  A string of the dictionary
    starts with the text of a built-in function, so it is no numeric
    literal and converts to [NaN]. *)
Definition toNumber (v : Value) : float :=
  match v with
  | Num x => x
  | Str _ => nan
  end.

(** The comparator [([, a], [, b]) => b - a]. *)
Definition compareFn (x y : string * Value) : float :=
  toNumber (snd y) - toNumber (snd x).

(** [entries.sort(compareFn)]: a stable sort, an entry moving behind a
    later one only when the comparator is positive on the two.  (On
    values that are numbers other than [NaN] the comparator is consistent
    and this is the order that the language defines; with a [NaN] the
    language leaves the order to the implementation.) *)
Fixpoint insertEntry (e : string * Value) (sorted : list (string * Value))
  : list (string * Value) :=
  match sorted with
  | [] => [e]
  | f :: rest =>
      if 0 <? compareFn e f then f :: insertEntry e rest else e :: sorted
  end.

Definition sortEntries (entries : list (string * Value))
  : list (string * Value) :=
  fold_right insertEntry [] entries.

Section WithBuiltins.
(** [x.toFixed(1)], [x.toLocaleString()] and [Number.prototype.toString]. *)
Variable toFixed1 : float -> string.
Variable toLocaleString : float -> string.
Variable Number_toString : float -> string.
(** The text that the built-in function [Object.prototype[key]] converts
    to, which the implementation chooses. *)
Variable Function_toString : string -> string.

(** [acc[t.category] = (acc[t.category] || 0) + t.amount; return acc].
    An own property is read and written as it is.  Without one, the read
    goes to [Object.prototype]: under [__proto__] it gives that object,
    [+] makes a string of it, and the assignment calls the inherited
    setter, which ignores a string, so no property is created; under the
    name of an inherited function it gives the function, [+] makes a
    string of it, and the assignment creates the property with that
    string; under every other key it gives [undefined]. *)
Definition addToCategory (acc : list (string * Value)) (t : Transaction)
  : list (string * Value) :=
  let key := category t in
  match getOwn key acc with
  | Some (Num v) =>
      setOwn key (Num ((if truthyNumber v then v else 0) + amount t)) acc
  | Some (Str s) =>
      if String.eqb s "" then setOwn key (Num (0 + amount t)) acc
      else setOwn key (Str (s +:+ Number_toString (amount t))) acc
  | None =>
      if String.eqb key "__proto__" then acc
      else if existsb (String.eqb key) inheritedFunctions then
        setOwn key (Str (Function_toString key +:+ Number_toString (amount t))) acc
      else setOwn key (Num (0 + amount t)) acc
  end.

(** [transactions.filter(t => t.type === 'expense').reduce(..., {})]. *)
Definition expenseCategories (transactions : list Transaction)
  : list (string * Value) :=
  fold_left addToCategory (ofType expense transactions) [].

(** [Object.entries(expenseCategories).sort(([, a], [, b]) => b - a)[0]]. *)
Definition topExpenseEntry (transactions : list Transaction)
  : option (string * Value) :=
  hd_error (sortEntries (Object_entries (expenseCategories transactions))).

(** [amount.toLocaleString()] on a value of the dictionary: a string is
    returned as it is. *)
Definition localeString (v : Value) : string :=
  match v with
  | Num x => toLocaleString x
  | Str s => s
  end.

(** *** Current revision *)

(** The savings-rate block. *)
Definition savingsInsights (transactions : list Transaction)
  : list AnalysisInsight :=
  let savingsRate := savingsRate transactions in
  if 20 <? savingsRate then
    [ {| ins_type := JStr "positive";
         ins_title := JStr "Excellent Savings Rate";
         ins_message :=
           JStr ("Your savings rate is " +:+ toFixed1 savingsRate +:+
                 "%. You're doing great at managing your finances!");
         ins_recommendation :=
           JStr "Consider investing your surplus savings for better returns." |} ]
  else if (savingsRate <? 10) && (0 <=? savingsRate) then
    [ {| ins_type := JStr "warning";
         ins_title := JStr "Low Savings Rate";
         ins_message :=
           JStr ("Your savings rate is " +:+ toFixed1 savingsRate +:+
                 "%. This is below the recommended 20%.");
         ins_recommendation :=
           JStr "Review your expenses and identify areas where you can cut back." |} ]
  else if savingsRate <? 0 then
    [ {| ins_type := JStr "warning";
         ins_title := JStr "Spending More Than Earning";
         ins_message :=
           JStr ("You're spending ₹" +:+
                 toLocaleString
                   (abs (totalIncome transactions - totalExpenses transactions)) +:+
                 " more than you earn.");
         ins_recommendation :=
           JStr "Urgently review your expenses and create a budget to avoid debt." |} ]
  else [].

(** The category block. *)
Definition categoryInsights (transactions : list Transaction)
  : list AnalysisInsight :=
  match topExpenseEntry transactions with
  | Some (category, amount) =>
      if 0 <? totalExpenses transactions then
        let percentage :=
          toFixed1 ((toNumber amount / totalExpenses transactions) * 100) in
        [ {| ins_type := JStr "info";
             ins_title := JStr "Top Spending Category";
             ins_message :=
               JStr (category +:+ " accounts for " +:+ percentage +:+
                     "% of your expenses (₹" +:+ localeString amount +:+ ").");
             ins_recommendation :=
               JStr "Monitor this category closely and look for optimization opportunities." |} ]
      else []
  | None => []
  end.

(** The block on the number of transactions. *)
Definition frequencyInsights (transactions : list Transaction)
  : list AnalysisInsight :=
  if Nat.ltb (length transactions) 5 then
    [ {| ins_type := JStr "info";
         ins_title := JStr "More Data Needed";
         ins_message :=
           JStr "Add more transactions to get better financial insights and patterns.";
         ins_recommendation :=
           JStr "Try to record all your income and expenses for comprehensive analysis." |} ]
  else [].

Definition generateFallbackInsights (transactions : list Transaction)
  : list AnalysisInsight :=
  if Nat.eqb (length transactions) 0 then
    [ {| ins_type := JStr "info";
         ins_title := JStr "Getting Started";
         ins_message :=
           JStr "Start adding transactions to get personalized financial insights.";
         ins_recommendation :=
           JStr "Add your income and expense transactions to see detailed analysis." |} ]
  else savingsInsights transactions
       ++ categoryInsights transactions
       ++ frequencyInsights transactions.

(** *** Earlier revision: the [catch] block of [generateFinancialInsights] *)

(** [transactions.length > 0 ? ((income - expenses) / income) * 100 : 0]. *)
Definition legacySavingsRate (transactions : list Transaction) : float :=
  if Nat.ltb 0 (length transactions)
  then ((totalIncome transactions - totalExpenses transactions)
        / totalIncome transactions) * 100
  else 0.

Definition legacySavingsInsights (transactions : list Transaction)
  : list AnalysisInsight :=
  let savingsRate := legacySavingsRate transactions in
  if 20 <? savingsRate then
    [ {| ins_type := JStr "positive";
         ins_title := JStr "Excellent Savings Rate";
         ins_message :=
           JStr ("Your savings rate is " +:+ toFixed1 savingsRate +:+
                 "%. You're doing great at managing your finances!");
         ins_recommendation :=
           JStr "Consider investing your surplus savings for better returns." |} ]
  else if savingsRate <? 10 then
    [ {| ins_type := JStr "warning";
         ins_title := JStr "Low Savings Rate";
         ins_message :=
           JStr ("Your savings rate is " +:+ toFixed1 savingsRate +:+
                 "%. This is below the recommended 20%.");
         ins_recommendation :=
           JStr "Review your expenses and identify areas where you can cut back." |} ]
  else [].

Definition legacyCategoryInsights (transactions : list Transaction)
  : list AnalysisInsight :=
  if Nat.ltb 0 (length transactions) then
    match topExpenseEntry transactions with
    | Some topExpenseCategory =>
        [ {| ins_type := JStr "info";
             ins_title := JStr "Top Spending Category";
             ins_message :=
               JStr ("Your highest spending category is " +:+
                     fst topExpenseCategory +:+ " with ₹" +:+
                     localeString (snd topExpenseCategory) +:+ ".");
             ins_recommendation :=
               JStr "Monitor this category closely and look for optimization opportunities." |} ]
    | None => []
    end
  else [].

Definition legacyFallbackInsights (transactions : list Transaction)
  : list AnalysisInsight :=
  legacySavingsInsights transactions ++ legacyCategoryInsights transactions.

End WithBuiltins.

End Fallback.

(** ** Form validation: the amount rules of the two transaction forms *)

Module Forms.

(** The values of a transaction form at submission.  [amount] is the
    number read from the numeric input, [None] when the input is empty or
    holds no number. *)
Record TransactionFormData : Type := {
  accountId : string;
  type : string;
  amount : option Q;
  category : string;
  description : string;
  date : string;
  notes : string
}.

(** A validation error: the field, and the message configured for the rule
    ([None] for the default message of the library). *)
Definition FieldError : Type := (string * option string)%type.

(** [yup.string().required(message)]. *)
Definition requiredString (field message value : string) : list FieldError :=
  if String.eqb value "" then [(field, Some message)] else [].

(** TransactionsPage: the [schema] passed to [yupResolver], which keeps
    the first error of each field.  For the type, [oneOf] is declared
    before [required], so a text that is neither of the two, the empty
    text included, is reported with the default message of [oneOf]. *)
Definition schemaErrors (data : TransactionFormData) : list FieldError :=
  requiredString "accountId" "Account is required" (accountId data)
  ++ (if String.eqb (type data) "income" || String.eqb (type data) "expense"
      then []
      else [("type", None)])
  ++ (match amount data with
      | None => [("amount", None)]
      | Some value =>
          if Js.Qlt_bool 0 value then []
          else [("amount", Some "Amount must be positive")]
      end)
  ++ requiredString "category" "Category is required" (category data)
  ++ requiredString "description" "Description is required" (description data)
  ++ requiredString "date" "Date is required" (date data).

(** UploadBillPage: the rules given to [register]; the amount has
    [required] and [min: { value: 0.01, message: "Amount must be positive" }]. *)
Definition registerErrors (data : TransactionFormData) : list FieldError :=
  requiredString "accountId" "Account is required" (accountId data)
  ++ (match amount data with
      | None => [("amount", Some "Amount is required")]
      | Some value =>
          if Js.Qlt_bool value (1 # 100)
          then [("amount", Some "Amount must be positive")]
          else []
      end)
  ++ requiredString "category" "Category is required" (category data)
  ++ requiredString "description" "Description is required" (description data)
  ++ requiredString "date" "Date is required" (date data).

(** [handleSubmit(onSubmit)]: [onSubmit] runs only when there is no error. *)
Inductive Submission : Type :=
| Rejected (errors : list FieldError)
| Submitted (data : TransactionFormData).

Definition handleSubmit (validate : TransactionFormData -> list FieldError)
           (data : TransactionFormData) : Submission :=
  match validate data with
  | [] => Submitted data
  | errors => Rejected errors
  end.

Definition submitManual : TransactionFormData -> Submission :=
  handleSubmit schemaErrors.

Definition submitUpload : TransactionFormData -> Submission :=
  handleSubmit registerErrors.

End Forms.

(** ** contexts/DataContext: the document store and the CRUD operations *)

Module DataContext.
Import Js JsDate.

(** A field of a stored document. *)
Inductive FieldValue : Type :=
| FString (s : string)
| FNumber (n : Q)
| FTimestamp (d : Date)
| FBool (b : bool)
| FNull.

(** A document, and an object built from one, map field names to values;
    a collection maps document ids to documents; the database maps
    collection names to collections. *)
Abbreviation Doc := (gmap string FieldValue).
Abbreviation Collection := (gmap string (gmap string FieldValue)).
Abbreviation Database := (gmap string (gmap string (gmap string FieldValue))).

(** The calls made to the database SDK. *)
Inductive Request : Type :=
| AddDoc (collectionName : string) (data : Doc)
| UpdateDoc (collectionName id : string) (updates : Doc)
| DeleteDoc (collectionName id : string).

Definition requestCollection (r : Request) : string :=
  match r with
  | AddDoc c _ | UpdateDoc c _ _ | DeleteDoc c _ => c
  end.

Inductive Toast : Type :=
| ToastSuccess (message : string)
| ToastError (message : string).

Record User : Type := { uid : string }.

(** The state held by the provider. *)
Record AppState : Type := {
  accounts : list Doc;
  transactions : list Doc;
  investments : list Doc;
  loading : bool
}.

(** Everything an operation can read or change: the remote database, the
    provider state, the toasts shown and the SDK calls made so far. *)
Record World : Type := {
  db : Database;
  state : AppState;
  toasts : list Toast;
  requests : list Request
}.

(** Code that runs in a world and may throw. *)
Definition M (A : Type) : Type := World -> Completion A * World.

Definition ret {A} (a : A) : M A := fun w => (Return a, w).
Definition throw {A} (e : JsError) : M A := fun w => (Throw e, w).

Definition bindM {A B} (m : M A) (k : A -> M B) : M B :=
  fun w =>
    match m w with
    | (Return a, w') => k a w'
    | (Throw e, w') => (Throw e, w')
    end.

Definition tryCatch {A} (body : M A) (handler : JsError -> M A) : M A :=
  fun w =>
    match body w with
    | (Return a, w') => (Return a, w')
    | (Throw e, w') => handler e w'
    end.

(** [m1; m2]: run [m2] after [m1] unless [m1] throws. *)
Definition andThen {A B} (m1 : M A) (m2 : M B) : M B := bindM m1 (fun _ => m2).

Definition collection (database : Database) (name : string) : Collection :=
  default ∅ (database !! name).

Definition toast (t : Toast) : M unit :=
  fun w => (Return tt, {| db := db w; state := state w;
                          toasts := toasts w ++ [t];
                          requests := requests w |}).

Section Backend.
(** The verdict of the backend on a request (network, permissions):
    [Some e] when the SDK call throws [e]. *)
Variable rejects : World -> Request -> option JsError.
(** The id that [addDoc] gives to a new document of a collection. *)
Variable freshId : Collection -> string.
(** The documents that a listener receives for its query over a
    collection (filtered by [userId], ordered), paired with their ids. *)
Variable queryDocs : string -> string -> Collection -> list (string * Doc).
(** The clock read by [new Date()]. *)
Variable now : Date.

(** The effect of an accepted request on the database; updating a
    missing document throws. *)
Definition applyRequest (r : Request) (database : Database)
  : Completion Database :=
  match r with
  | AddDoc c data =>
      let docs := collection database c in
      Return (<[c := <[freshId docs := data]> docs]> database)
  | UpdateDoc c id updates =>
      let docs := collection database c in
      match docs !! id with
      | Some old => Return (<[c := <[id := updates ∪ old]> docs]> database)
      | None => Throw (MkError "No document to update")
      end
  | DeleteDoc c id =>
      let docs := collection database c in
      Return (<[c := delete id docs]> database)
  end.

(** [{ id: doc.id, ...doc.data(), createdAt: doc.data().createdAt?.toDate() || new Date() }],
    for a [createdAt] that is a timestamp or is missing. *)
Definition fromSnapshot (entry : string * Doc) : Doc :=
  let data := snd entry in
  let createdAt := match data !! "createdAt" with
                   | Some (FTimestamp d) => FTimestamp d
                   | _ => FTimestamp now
                   end in
  <["createdAt" := createdAt]> (data ∪ {["id" := FString (fst entry)]}).

(** [{ ..., date: doc.data().date?.toDate() || new Date(), createdAt: ... }]. *)
Definition transactionFromSnapshot (entry : string * Doc) : Doc :=
  let data := snd entry in
  let date := match data !! "date" with
              | Some (FTimestamp d) => FTimestamp d
              | _ => FTimestamp now
              end in
  <["date" := date]> (fromSnapshot entry).

(** The [onSnapshot] callbacks, run when the collection they listen to
    changes; there are listeners only while a user is signed in. *)
Definition onCollectionChange (user : option User) (name : string)
           (database : Database) (s : AppState) : AppState :=
  match user with
  | None => s
  | Some u =>
      let docs := queryDocs name (uid u) (collection database name) in
      if String.eqb name "accounts" then
        {| accounts := map fromSnapshot docs;
           transactions := transactions s;
           investments := investments s;
           loading := loading s |}
      else if String.eqb name "transactions" then
        {| accounts := accounts s;
           transactions := map transactionFromSnapshot docs;
           investments := investments s;
           loading := false |}
      else if String.eqb name "investments" then
        {| accounts := accounts s;
           transactions := transactions s;
           investments := map fromSnapshot docs;
           loading := loading s |}
      else s
  end.

(** One call of [addDoc], [updateDoc] or [deleteDoc]: the call is
    recorded; when it goes through, the database changes and the listener
    of the collection runs. *)
Definition sdkCall (user : option User) (r : Request) : M unit :=
  fun w =>
    let called := requests w ++ [r] in
    match rejects w r with
    | Some e =>
        (Throw e, {| db := db w; state := state w; toasts := toasts w;
                     requests := called |})
    | None =>
        match applyRequest r (db w) with
        | Return database =>
            (Return tt,
             {| db := database;
                state := onCollectionChange user (requestCollection r)
                                            database (state w);
                toasts := toasts w;
                requests := called |})
        | Throw e =>
            (Throw e, {| db := db w; state := state w; toasts := toasts w;
                         requests := called |})
        end
    end.

(** [{ ...data, userId: user.uid, createdAt: new Date() }]. *)
Definition withOwner (u : User) (data : Doc) : Doc :=
  <["createdAt" := FTimestamp now]> (<["userId" := FString (uid u)]> data).

(** The shape shared by the nine operations:
    [try { await call; toast.success(ok) } catch (error) { toast.error(ko); throw error }]. *)
Definition guarded (user : option User) (r : Request) (ok ko : string)
  : M unit :=
  tryCatch (andThen (sdkCall user r) (toast (ToastSuccess ok)))
           (fun error => andThen (toast (ToastError ko)) (throw error)).

Definition addAccount (user : option User) (account : Doc) : M unit :=
  match user with
  | None => ret tt
  | Some u =>
      guarded user (AddDoc "accounts" (withOwner u account))
              "Account added successfully!" "Failed to add account"
  end.

Definition updateAccount (user : option User) (id : string) (updates : Doc)
  : M unit :=
  guarded user (UpdateDoc "accounts" id updates)
          "Account updated successfully!" "Failed to update account".

Definition deleteAccount (user : option User) (id : string) : M unit :=
  guarded user (DeleteDoc "accounts" id)
          "Account deleted successfully!" "Failed to delete account".

Definition addTransaction (user : option User) (transaction : Doc) : M unit :=
  match user with
  | None => ret tt
  | Some u =>
      guarded user (AddDoc "transactions" (withOwner u transaction))
              "Transaction added successfully!" "Failed to add transaction"
  end.

Definition updateTransaction (user : option User) (id : string)
           (updates : Doc) : M unit :=
  guarded user (UpdateDoc "transactions" id updates)
          "Transaction updated successfully!" "Failed to update transaction".

Definition deleteTransaction (user : option User) (id : string) : M unit :=
  guarded user (DeleteDoc "transactions" id)
          "Transaction deleted successfully!" "Failed to delete transaction".

Definition addInvestment (user : option User) (investment : Doc) : M unit :=
  match user with
  | None => ret tt
  | Some u =>
      guarded user (AddDoc "investments" (withOwner u investment))
              "Investment added successfully!" "Failed to add investment"
  end.

Definition updateInvestment (user : option User) (id : string)
           (updates : Doc) : M unit :=
  guarded user (UpdateDoc "investments" id updates)
          "Investment updated successfully!" "Failed to update investment".

Definition deleteInvestment (user : option User) (id : string) : M unit :=
  guarded user (DeleteDoc "investments" id)
          "Investment deleted successfully!" "Failed to delete investment".

(** The nine operations offered by the context, as one type. *)
Inductive CrudOp : Type :=
| OpAddAccount (account : Doc)
| OpUpdateAccount (id : string) (updates : Doc)
| OpDeleteAccount (id : string)
| OpAddTransaction (transaction : Doc)
| OpUpdateTransaction (id : string) (updates : Doc)
| OpDeleteTransaction (id : string)
| OpAddInvestment (investment : Doc)
| OpUpdateInvestment (id : string) (updates : Doc)
| OpDeleteInvestment (id : string).

Definition run (user : option User) (op : CrudOp) : M unit :=
  match op with
  | OpAddAccount account => addAccount user account
  | OpUpdateAccount id updates => updateAccount user id updates
  | OpDeleteAccount id => deleteAccount user id
  | OpAddTransaction transaction => addTransaction user transaction
  | OpUpdateTransaction id updates => updateTransaction user id updates
  | OpDeleteTransaction id => deleteTransaction user id
  | OpAddInvestment investment => addInvestment user investment
  | OpUpdateInvestment id updates => updateInvestment user id updates
  | OpDeleteInvestment id => deleteInvestment user id
  end.

End Backend.

End DataContext.

(** ** The words of the specification, as reference definitions *)

Module Spec.
Import JsDate Model.

(** "Dated within" the calendar month number [k] (month [k mod 12] of year
    [k / 12]). *)
Definition datedInMonth (k : Z) (t : Transaction) : bool :=
  (monthIndex (tx_date t) =? k)%Z.

(** "Dated within" the calendar year [y]. *)
Definition datedInYear (y : Z) (t : Transaction) : bool :=
  (getFullYear (tx_date t) =? y)%Z.

(** "The sum of the amounts of the [ty]-type transactions dated within
    month [k]". *)
Definition monthTotal (ty : TransactionType) (k : Z)
           (transactions : list Transaction) : Q :=
  sumAmounts
    (List.filter (fun t => datedInMonth k t && TransactionType_eqb (tx_type t) ty)
                 transactions).

(** The months [k], [k + 1], ..., [k + n - 1], each given by its first
    instant. *)
Definition monthsFrom (k : Z) (n : nat) : list Date :=
  map (fun i : nat => (monthStartDay (k + Z.of_nat i) * msPerDay)%Z) (seq 0 n).

(** "The transaction's date falls within the selected period". *)
Definition inSelectedPeriod (reportType : ReportsPage.ReportType)
           (selectedPeriod : Date) (t : Transaction) : bool :=
  match reportType with
  | ReportsPage.monthly => datedInMonth (monthIndex selectedPeriod) t
  | ReportsPage.yearly => datedInYear (getFullYear selectedPeriod) t
  end.

(** "The resolved account name": the name of the first loaded account
    that has the account id of the transaction, and [Unknown] when no
    loaded account has it or when that name is empty. *)
Fixpoint resolvedAccountName (accounts : list Account) (accountId : string)
  : string :=
  match accounts with
  | [] => "Unknown"
  | account :: others =>
      if String.eqb (acc_id account) accountId then
        match acc_name account with
        | EmptyString => "Unknown"
        | name => name
        end
      else resolvedAccountName others accountId
  end.

(** "Each row containing that transaction's date, type, amount, category,
    description, and resolved account name": the six cells with a comma
    between them, the amount as [Number_toString] prints it. *)
Definition rowLine (Number_toString : Q -> string) (accounts : list Account)
           (t : Transaction) : string :=
  DateFormat.format_yyyy_MM_dd (tx_date t) +:+ ","
  +:+ match tx_type t with income => "income" | expense => "expense" end +:+ ","
  +:+ Number_toString (tx_amount t) +:+ ","
  +:+ tx_category t +:+ ","
  +:+ tx_description t +:+ ","
  +:+ resolvedAccountName accounts (tx_accountId t).

(** "A header row followed by one row per transaction": the text that
    holds the line [first] and then the lines [rest], each on a new
    line. *)
Fixpoint linesText (first : string) (rest : list string) : string :=
  match rest with
  | [] => first
  | next :: others => first +:+ String Text.newline (linesText next others)
  end.

(** "Obtaining a parseable JSON object from the model response": the
    response has a text, the text has a brace-delimited match, and
    [JSON.parse] accepts the match. *)
Definition parsedReceipt (JSON_parse : string -> Js.Completion Js.JsValue)
           (outcome : Gemini.ModelOutcome) : option Js.JsValue :=
  match outcome with
  | Gemini.Text text =>
      match Text.matchDelimited "{" "}" text with
      | Some jsonMatch =>
          match JSON_parse jsonMatch with
          | Js.Return value => Some value
          | Js.Throw _ => None
          end
      | None => None
      end
  | _ => None
  end.

(** The field [key] of a parsed insight, [undefined] when it is missing
    or when the insight is not an object. *)
Definition fieldOf (insight : Js.JsValue) (key : string) : Js.JsValue :=
  match insight with
  | Js.JObj fields => Js.lookupField key fields
  | _ => Js.JUndefined
  end.

(** "Missing fields filled by default substitution". *)
Definition withDefaults (insight : Js.JsValue) : Gemini.AnalysisInsight :=
  {| Gemini.ins_type :=
       if Js.truthy (fieldOf insight "type") then fieldOf insight "type"
       else Js.JStr "info";
     Gemini.ins_title :=
       if Js.truthy (fieldOf insight "title") then fieldOf insight "title"
       else Js.JStr "Financial Insight";
     Gemini.ins_message :=
       if Js.truthy (fieldOf insight "message") then fieldOf insight "message"
       else Js.JStr "No message available";
     Gemini.ins_recommendation :=
       if Js.truthy (fieldOf insight "recommendation")
       then fieldOf insight "recommendation"
       else Js.JUndefined |}.

(** [null] and [undefined], on which a property read throws. *)
Definition nullish (v : Js.JsValue) : bool :=
  match v with
  | Js.JNull | Js.JUndefined => true
  | _ => false
  end.

(** "The underlying database SDK call" of an operation: none for an add
    operation while no user is signed in. *)
Definition sdkRequest (now : Date) (user : option DataContext.User)
           (op : DataContext.CrudOp) : option DataContext.Request :=
  match op, user with
  | DataContext.OpAddAccount account, Some u =>
      Some (DataContext.AddDoc "accounts" (DataContext.withOwner now u account))
  | DataContext.OpAddTransaction transaction, Some u =>
      Some (DataContext.AddDoc "transactions"
              (DataContext.withOwner now u transaction))
  | DataContext.OpAddInvestment investment, Some u =>
      Some (DataContext.AddDoc "investments"
              (DataContext.withOwner now u investment))
  | DataContext.OpAddAccount _, None
  | DataContext.OpAddTransaction _, None
  | DataContext.OpAddInvestment _, None => None
  | DataContext.OpUpdateAccount id updates, _ =>
      Some (DataContext.UpdateDoc "accounts" id updates)
  | DataContext.OpDeleteAccount id, _ =>
      Some (DataContext.DeleteDoc "accounts" id)
  | DataContext.OpUpdateTransaction id updates, _ =>
      Some (DataContext.UpdateDoc "transactions" id updates)
  | DataContext.OpDeleteTransaction id, _ =>
      Some (DataContext.DeleteDoc "transactions" id)
  | DataContext.OpUpdateInvestment id updates, _ =>
      Some (DataContext.UpdateDoc "investments" id updates)
  | DataContext.OpDeleteInvestment id, _ =>
      Some (DataContext.DeleteDoc "investments" id)
  end.

(** "The SDK call": it throws the error of the backend when the backend
    rejects the request, and otherwise applies the request, which throws
    for an update of a missing document and else gives the new database. *)
Definition sdkCompletion
           (rejects : DataContext.World -> DataContext.Request -> option Js.JsError)
           (freshId : gmap string (gmap string DataContext.FieldValue) -> string)
           (w : DataContext.World) (r : DataContext.Request)
  : Js.Completion (gmap string (gmap string (gmap string DataContext.FieldValue))) :=
  match rejects w r with
  | Some e => Js.Throw e
  | None => DataContext.applyRequest freshId r (DataContext.db w)
  end.

(** The toasts of each operation. *)
Definition entityName (op : DataContext.CrudOp) : string * string :=
  match op with
  | DataContext.OpAddAccount _ | DataContext.OpUpdateAccount _ _
  | DataContext.OpDeleteAccount _ => ("Account", "account")
  | DataContext.OpAddTransaction _ | DataContext.OpUpdateTransaction _ _
  | DataContext.OpDeleteTransaction _ => ("Transaction", "transaction")
  | DataContext.OpAddInvestment _ | DataContext.OpUpdateInvestment _ _
  | DataContext.OpDeleteInvestment _ => ("Investment", "investment")
  end.

Definition verbs (op : DataContext.CrudOp) : string * string :=
  match op with
  | DataContext.OpAddAccount _ | DataContext.OpAddTransaction _
  | DataContext.OpAddInvestment _ => ("added", "add")
  | DataContext.OpUpdateAccount _ _ | DataContext.OpUpdateTransaction _ _
  | DataContext.OpUpdateInvestment _ _ => ("updated", "update")
  | DataContext.OpDeleteAccount _ | DataContext.OpDeleteTransaction _
  | DataContext.OpDeleteInvestment _ => ("deleted", "delete")
  end.

Definition successToast (op : DataContext.CrudOp) : DataContext.Toast :=
  DataContext.ToastSuccess
    (fst (entityName op) +:+ " " +:+ fst (verbs op) +:+ " successfully!").

Definition errorToast (op : DataContext.CrudOp) : DataContext.Toast :=
  DataContext.ToastError
    ("Failed to " +:+ snd (verbs op) +:+ " " +:+ snd (entityName op)).

(** "No account is modified": the accounts collection of the database and
    the accounts held by the provider are the same in both worlds. *)
Definition accountsUntouched (before after : DataContext.World) : Prop :=
  DataContext.db after !! "accounts" = DataContext.db before !! "accounts"
  /\ DataContext.accounts (DataContext.state after)
     = DataContext.accounts (DataContext.state before).

End Spec.

(** ** Sample instances of the built-ins, for the worked examples *)

Module Samples.
Import Text Js.
Local Open Scope Z_scope.

(** The digits after the decimal point of [r / den], for [0 <= r < den],
    at most [fuel] of them. *)
Fixpoint fractionDigits (fuel : nat) (r den : Z) : string :=
  match fuel with
  | O => ""
  | S fuel' =>
      if r =? 0 then ""
      else digits (Z.to_N ((10 * r) / den))
           +:+ fractionDigits fuel' ((10 * r) mod den) den
  end.

(** A decimal printer for finite numbers: sign, integer part and up to 17
    fraction digits.  On integers and short terminating decimals it prints
    what [Number.prototype.toString] prints. *)
Definition decimalString (q : Q) : string :=
  let a := Z.abs (Qnum q) in
  let d := Z.pos (Qden q) in
  (if Qnum q <? 0 then "-" else "")
  +:+ digits (Z.to_N (a / d))
  +:+ (if a mod d =? 0 then "" else "." +:+ fractionDigits 17 (a mod d) d).

(** A parser that knows one text: it gives [value] for [text] and throws
    a [SyntaxError] on every other input. *)
Definition parseOnly (text : string) (value : JsValue) (input : string)
  : Completion JsValue :=
  if String.eqb input text then Return value
  else Throw (MkError "SyntaxError: Unexpected token").

(** Two accounts and three transactions: a salary and a grocery bill in
    March 2024, a rent payment in April 2024. *)
Definition sampleAccounts : list Model.Account :=
  [ {| Model.acc_id := "a1"; Model.acc_name := "Savings";
       Model.acc_type := "bank"; Model.acc_balance := 5000%Q;
       Model.acc_createdAt := 1704067200000 |};
    {| Model.acc_id := "a2"; Model.acc_name := "";
       Model.acc_type := "cash"; Model.acc_balance := 0%Q;
       Model.acc_createdAt := 1704067200000 |} ].

Definition sampleSalary : Model.Transaction :=
  {| Model.tx_id := "t1"; Model.tx_accountId := "a1";
     Model.tx_type := Model.income; Model.tx_amount := 1000%Q;
     Model.tx_category := "Salary"; Model.tx_description := "March salary";
     Model.tx_date := 1709893800000;
     Model.tx_notes := None; Model.tx_receiptUrl := None;
     Model.tx_createdAt := 1709893800000 |}.

Definition sampleGroceries : Model.Transaction :=
  {| Model.tx_id := "t2"; Model.tx_accountId := "a2";
     Model.tx_type := Model.expense; Model.tx_amount := (301 # 2)%Q;
     Model.tx_category := "Food & Dining"; Model.tx_description := "Groceries";
     Model.tx_date := 1710498600000;
     Model.tx_notes := None; Model.tx_receiptUrl := None;
     Model.tx_createdAt := 1710498600000 |}.

Definition sampleRent : Model.Transaction :=
  {| Model.tx_id := "t3"; Model.tx_accountId := "a9";
     Model.tx_type := Model.expense; Model.tx_amount := 700%Q;
     Model.tx_category := "Bills & Utilities"; Model.tx_description := "Rent";
     Model.tx_date := 1712140200000;
     Model.tx_notes := None; Model.tx_receiptUrl := None;
     Model.tx_createdAt := 1712140200000 |}.

(** A description with a comma in it. *)
Definition sampleDinner : Model.Transaction :=
  {| Model.tx_id := "t4"; Model.tx_accountId := "a1";
     Model.tx_type := Model.expense; Model.tx_amount := 80%Q;
     Model.tx_category := "Food & Dining";
     Model.tx_description := "Dinner, with tip";
     Model.tx_date := 1710498600000;
     Model.tx_notes := None; Model.tx_receiptUrl := None;
     Model.tx_createdAt := 1710498600000 |}.

Definition sampleTransactions : list Model.Transaction :=
  [sampleRent; sampleGroceries; sampleSalary].

(** A response of the model: the JSON text of an array with one insight
    of type [danger], and the value that [JSON.parse] gives for it. *)
Definition quoted (s : string) : string :=
  String doubleQuote s +:+ String doubleQuote "".

Definition dangerText : string :=
  "Here you go: [{" +:+ quoted "type" +:+ ":" +:+ quoted "danger" +:+ "}]".

Definition dangerJson : string :=
  "[{" +:+ quoted "type" +:+ ":" +:+ quoted "danger" +:+ "}]".

Definition dangerValue : JsValue :=
  JArr [JObj [("type", JStr "danger")]].

(** A response with one complete insight and one that has only a title. *)
Definition tipsJson : string :=
  "[{" +:+ quoted "type" +:+ ":" +:+ quoted "warning" +:+ ","
       +:+ quoted "title" +:+ ":" +:+ quoted "Dining" +:+ ","
       +:+ quoted "message" +:+ ":" +:+ quoted "Eating out a lot" +:+ "},{"
       +:+ quoted "title" +:+ ":" +:+ quoted "Tip" +:+ "}]".

Definition tipsValue : JsValue :=
  JArr [ JObj [("type", JStr "warning"); ("title", JStr "Dining");
               ("message", JStr "Eating out a lot")];
         JObj [("title", JStr "Tip")] ].

(** A world with an empty database, before any toast or SDK call, and a
    backend that accepts every request. *)
Definition emptyWorld : DataContext.World :=
  {| DataContext.db := ∅;
     DataContext.state :=
       {| DataContext.accounts := []; DataContext.transactions := [];
          DataContext.investments := []; DataContext.loading := true |};
     DataContext.toasts := [];
     DataContext.requests := [] |}.

Definition acceptAll (w : DataContext.World) (r : DataContext.Request)
  : option JsError := None.

Definition firstId (docs : gmap string (gmap string DataContext.FieldValue))
  : string := "doc1".

Definition allDocs (name userId : string)
           (docs : gmap string (gmap string DataContext.FieldValue))
  : list (string * gmap string DataContext.FieldValue) := map_to_list docs.

(** A form with every field filled in and the amount still at zero, and
    the same form with an amount of 150.5. *)
Definition zeroAmountForm : Forms.TransactionFormData :=
  {| Forms.accountId := "a1"; Forms.type := "expense";
     Forms.amount := Some 0%Q; Forms.category := "Shopping";
     Forms.description := "Shoes"; Forms.date := "2024-03-15";
     Forms.notes := "" |}.

Definition filledForm : Forms.TransactionFormData :=
  {| Forms.accountId := "a1"; Forms.type := "expense";
     Forms.amount := Some (301 # 2)%Q; Forms.category := "Shopping";
     Forms.description := "Shoes"; Forms.date := "2024-03-15";
     Forms.notes := "" |}.

(** The year 50: a selected period on 15 June 0050 and an income of 100
    dated 10 March 0050 (time values built with [MakeDay], which takes the
    year as it is). *)
Definition june50 : JsDate.Date :=
  JsDate.MakeDate (JsDate.MakeDay 50 5 15) 0.

Definition incomeMarch50 : Model.Transaction :=
  {| Model.tx_id := "t50"; Model.tx_accountId := "a1";
     Model.tx_type := Model.income; Model.tx_amount := 100%Q;
     Model.tx_category := "Salary"; Model.tx_description := "Stipend";
     Model.tx_date := JsDate.MakeDate (JsDate.MakeDay 50 2 10) 0;
     Model.tx_notes := None; Model.tx_receiptUrl := None;
     Model.tx_createdAt := JsDate.MakeDate (JsDate.MakeDay 50 2 10) 0 |}.

(** A selected period in March 2024. *)
Definition sampleMarch : JsDate.Date := 1710000000000.

(** A clock value: 2024-02-29T12:34:56.789Z. *)
Definition sampleNow : JsDate.Date := 1709210096789.

(** Printers for the numbers shown in messages. *)
Definition showJsnum (x : jsnum) : string :=
  match x with
  | Fin q => decimalString q
  | PosInf => "Infinity"
  | NegInf => "-Infinity"
  | NaN => "NaN"
  end.

(** *** Printers for binary64 numbers *)

(** The exact value of a finite number. *)
Definition exactValue (x : PrimFloat.float) : option Q :=
  match FloatOps.Prim2SF x with
  | SpecFloat.S754_zero _ => Some 0%Q
  | SpecFloat.S754_finite s m e =>
      let size := if 0 <=? e then inject_Z (Z.pos m * 2 ^ e)
                  else (inject_Z (Z.pos m) / inject_Z (2 ^ (- e)))%Q in
      Some (if s then (- size)%Q else size)
  | SpecFloat.S754_infinity _ | SpecFloat.S754_nan => None
  end.

(** What is printed for the values that are not finite. *)
Definition notFinite (x : PrimFloat.float) : string :=
  if PrimFloat.is_nan x then "NaN"
  else if PrimFloat.ltb x 0 then "-Infinity" else "Infinity".

(** The decimal expansion of a number, up to 17 fraction digits.  On
    integers and short terminating decimals it prints what
    [Number.prototype.toString] prints. *)
Definition showNumber (x : PrimFloat.float) : string :=
  match exactValue x with
  | Some q => decimalString (Qred q)
  | None => notFinite x
  end.

(** [x.toFixed(1)] for a number below 10^21 in size: the sign, and the
    integer [n] nearest to ten times the size (the larger one of two),
    printed with its last digit after the point. *)
Definition toFixed1 (x : PrimFloat.float) : string :=
  match exactValue x with
  | Some q =>
      let n := Qfloor ((Qabs q * 10 + (1 # 2))%Q) in
      (if PrimFloat.ltb x 0 then "-" else "")
      +:+ digits (Z.to_N (n / 10)) +:+ "." +:+ digits (Z.to_N (n mod 10))
  | None => notFinite x
  end.

(** The text of a built-in function. *)
Definition nativeFunction (name : string) : string :=
  "function " +:+ name +:+ "() { [native code] }".

(** A salary of 1000 and a grocery bill of 250. *)
Definition salary1000 : Fallback.Transaction :=
  {| Fallback.type := Model.income; Fallback.amount := 1000%float;
     Fallback.category := "Salary" |}.

Definition groceries250 : Fallback.Transaction :=
  {| Fallback.type := Model.expense; Fallback.amount := 250%float;
     Fallback.category := "Food & Dining" |}.

(** A refund entered as an expense with a negative amount. *)
Definition refund5 : Fallback.Transaction :=
  {| Fallback.type := Model.expense; Fallback.amount := (-5)%float;
     Fallback.category := "Shopping" |}.




End Samples.

(** ** ReportsPage: the data of the report *)

Module Report.
Import JsDate Text DateFormat Js Model ReportsPage.

(** One point of the daily chart: [{ date, income, expenses, net }]. *)
Record DayPoint : Type := {
  dp_date : string;
  dp_income : Q;
  dp_expenses : Q;
  dp_net : Q
}.

(** The body of the loop of [getDailyTrend] for the day [current]. *)
Definition dayPoint (transactions : list Transaction) (current : Date)
  : DayPoint :=
  let dayTransactions :=
    List.filter (fun t => String.eqb (toDateString (tx_date t))
                                     (toDateString current))
                transactions in
  let income := sumAmounts (ofType Model.income dayTransactions) in
  let expenses := sumAmounts (ofType Model.expense dayTransactions) in
  {| dp_date := format_dd current;
     dp_income := income;
     dp_expenses := expenses;
     dp_net := (income - expenses)%Q |}.

(** [while (current <= end) { days.push(...); current.setDate(current.getDate() + 1) }],
    run for at most [fuel] iterations. *)
Fixpoint dailyLoop (fuel : nat) (transactions : list Transaction)
         (current stop : Date) : list DayPoint :=
  match fuel with
  | O => []
  | S fuel' =>
      if (getTime current <=? getTime stop)%Z
      then dayPoint transactions current ::
           dailyLoop fuel' transactions
                     (setDate current (getDate current + 1)%Z) stop
      else []
  end.

(** [getDailyTrend(transactions, start, end)].  The loop is entered once
    per day from the day of [start] to the day of [stop] at most, and
    that count is the fuel given to it. *)
Definition getDailyTrend (transactions : list Transaction) (start stop : Date)
  : list DayPoint :=
  dailyLoop (Z.to_nat (Day stop - Day start + 1)) transactions start stop.

(** A row of [categoryData], of [accountBreakdown] and of [trendData]. *)
Record CategoryRow : Type := {
  cr_name : string;
  cr_value : Q;
  cr_percentage : string
}.

Record AccountRow : Type := {
  ar_account : string;
  ar_income : Q;
  ar_expenses : Q;
  ar_net : Q
}.

Inductive TrendRow : Type :=
| DayRow (point : DayPoint)
| MonthRow (point : TrendPoint).

Record ReportData : Type := {
  rd_totalIncome : Q;
  rd_totalExpenses : Q;
  rd_netSavings : Q;
  rd_transactionCount : nat;
  rd_categoryData : list CategoryRow;
  rd_accountBreakdown : list AccountRow;
  rd_trendData : list TrendRow;
  rd_periodStart : Date;
  rd_periodEnd : Date
}.

Section WithBuiltins.
(** [x.toFixed(1)] and the clock read by [new Date()]. *)
Variable toFixed1 : jsnum -> string.
Variable now : Date.

(** The function mapped over [Object.entries(expenseCategories)]. *)
Definition categoryRow (totalExpenses : Q) (entry : string * Q) : CategoryRow :=
  {| cr_name := fst entry;
     cr_value := snd entry;
     cr_percentage :=
       if Qlt_bool 0 totalExpenses
       then toFixed1 (js_mul (js_div (snd entry) totalExpenses) 100)
       else "0" |}.

(** The function mapped over [accounts]. *)
Definition accountRow (periodTransactions : list Transaction)
           (account : Account) : AccountRow :=
  let accountTransactions :=
    List.filter (fun t => String.eqb (tx_accountId t) (acc_id account))
                periodTransactions in
  let accountIncome := sumAmounts (ofType Model.income accountTransactions) in
  let accountExpenses := sumAmounts (ofType Model.expense accountTransactions) in
  {| ar_account := acc_name account;
     ar_income := accountIncome;
     ar_expenses := accountExpenses;
     ar_net := (accountIncome - accountExpenses)%Q |}.

(** The [const] bindings of the body of [ReportsPage] that the callback
    given to [useMemo] reads.  A [const] is uninitialised from the start
    of the body until its declaration has run; [None] is that state. *)
Record Bindings : Type := {
  b_getDailyTrend :
    option (list Transaction -> Date -> Date -> list DayPoint);
  b_getMonthlyTrend :
    option (list Transaction -> Date -> list TrendPoint)
}.

(** Reading the binding [name]: a [ReferenceError] while it is
    uninitialised. *)
Definition readBinding {A} (name : string) (binding : option A) : Completion A :=
  match binding with
  | Some value => Return value
  | None =>
      Throw (MkError ("Cannot access '" +:+ name +:+ "' before initialization"))
  end.

(** The callback given to [useMemo], run with the bindings [scope]. *)
Definition reportDataCallback (scope : Bindings) (accounts : list Account)
           (transactions : list Transaction)
           (reportType : ReportType) (selectedPeriod : Date)
  : Completion ReportData :=
  if Nat.eqb (length accounts) 0 || Nat.eqb (length transactions) 0 then
    Return {| rd_totalIncome := 0;
              rd_totalExpenses := 0;
              rd_netSavings := 0;
              rd_transactionCount := 0;
              rd_categoryData := [];
              rd_accountBreakdown := [];
              rd_trendData := [];
              rd_periodStart := now;
              rd_periodEnd := now |}
  else
    let periodStart := periodStart reportType selectedPeriod in
    let periodEnd := periodEnd reportType selectedPeriod in
    let periodTransactions :=
      List.filter (dateBetween periodStart periodEnd) transactions in
    let totalIncome := sumAmounts (ofType Model.income periodTransactions) in
    let totalExpenses := sumAmounts (ofType Model.expense periodTransactions) in
    let netSavings := (totalIncome - totalExpenses)%Q in
    let expenseCategories := Gemini.categoryBreakdown periodTransactions in
    let categoryData := map (categoryRow totalExpenses) expenseCategories in
    let accountBreakdown := map (accountRow periodTransactions) accounts in
    bind
      match reportType with
      | monthly =>
          bind (readBinding "getDailyTrend" (b_getDailyTrend scope))
               (fun getDailyTrend =>
                  Return (map DayRow
                            (getDailyTrend periodTransactions periodStart periodEnd)))
      | yearly =>
          bind (readBinding "getMonthlyTrend" (b_getMonthlyTrend scope))
               (fun getMonthlyTrend =>
                  Return (map MonthRow (getMonthlyTrend transactions selectedPeriod)))
      end
      (fun trendData =>
         Return {| rd_totalIncome := totalIncome;
                   rd_totalExpenses := totalExpenses;
                   rd_netSavings := netSavings;
                   rd_transactionCount := length periodTransactions;
                   rd_categoryData := categoryData;
                   rd_accountBreakdown := accountBreakdown;
                   rd_trendData := trendData;
                   rd_periodStart := periodStart;
                   rd_periodEnd := periodEnd |}).

(** [const reportData = useMemo(() => { ... }, [...])] in a render that
    computes it (the first one, and each one after a change of the
    accounts, the transactions, the report type or the period).  The
    statement stands in the body of the component before
    [const getDailyTrend = ...] and [const getMonthlyTrend = ...], and
    [useMemo] calls the callback at once, so the callback runs while the
    two bindings are uninitialised. *)
Definition reportData (accounts : list Account)
           (transactions : list Transaction)
           (reportType : ReportType) (selectedPeriod : Date)
  : Completion ReportData :=
  reportDataCallback {| b_getDailyTrend := None; b_getMonthlyTrend := None |}
                     accounts transactions reportType selectedPeriod.

End WithBuiltins.

End Report.

(** ** Dashboard: the figures of the cards and charts *)

Module DashboardData.
Import JsDate Text DateFormat Js Model.

(** A slice of the pie chart: [{ name, value }]. *)
Record CategorySlice : Type := {
  sl_name : string;
  sl_value : Q
}.

Record Summary : Type := {
  totalBalance : Q;
  monthlyIncome : Q;
  monthlyExpenses : Q;
  monthlySavings : Q;
  categoryData : list CategorySlice;
  monthlyTrend : list Dashboard.TrendPoint;
  totalInvestmentValue : Q;
  investmentGainLoss : Q
}.

(** [dashboardData] at clock value [currentMonth]; [None] when
    [eachMonthOfInterval] throws. *)
Definition dashboardData (accounts : list Account)
           (transactions : list Transaction) (investments : list Investment)
           (currentMonth : Date) : option Summary :=
  let totalBalance :=
    fold_left (fun sum account => (sum + acc_balance account)%Q) accounts 0%Q in
  let monthStart := startOfMonth currentMonth in
  let monthEnd := endOfMonth currentMonth in
  let currentMonthTransactions :=
    List.filter (dateBetween monthStart monthEnd) transactions in
  let monthlyIncome := sumAmounts (ofType income currentMonthTransactions) in
  let monthlyExpenses := sumAmounts (ofType expense currentMonthTransactions) in
  let monthlySavings := (monthlyIncome - monthlyExpenses)%Q in
  let categoryExpenses := Gemini.categoryBreakdown currentMonthTransactions in
  let categoryData :=
    map (fun entry => {| sl_name := fst entry; sl_value := snd entry |})
        categoryExpenses in
  match Dashboard.monthlyTrend transactions currentMonth with
  | None => None
  | Some monthlyTrend =>
      let totalInvestmentValue :=
        fold_left (fun sum inv => (sum + inv_quantity inv * inv_currentPrice inv)%Q)
                  investments 0%Q in
      let totalInvestmentCost :=
        fold_left (fun sum inv => (sum + inv_quantity inv * inv_buyPrice inv)%Q)
                  investments 0%Q in
      let investmentGainLoss := (totalInvestmentValue - totalInvestmentCost)%Q in
      Some {| totalBalance := totalBalance;
              monthlyIncome := monthlyIncome;
              monthlyExpenses := monthlyExpenses;
              monthlySavings := monthlySavings;
              categoryData := categoryData;
              monthlyTrend := monthlyTrend;
              totalInvestmentValue := totalInvestmentValue;
              investmentGainLoss := investmentGainLoss |}
  end.

End DashboardData.

(** ** AnalysisPage: the figures of the analysis and the insights *)

Module AnalysisPage.
Import JsDate Text DateFormat Js Model Gemini.

(** A point of [monthlyData] and a row of [topCategories]. *)
Record MonthSummary : Type := {
  ms_month : string;
  ms_income : Q;
  ms_expenses : Q;
  ms_savings : Q;
  ms_savingsRate : jsnum
}.

Record CategoryShare : Type := {
  sh_category : string;
  sh_amount : Q;
  sh_percentage : jsnum
}.

Record Analysis : Type := {
  currentIncome : Q;
  currentExpenses : Q;
  incomeChange : jsnum;
  expenseChange : jsnum;
  monthlyData : list MonthSummary;
  topCategories : list CategoryShare;
  averageMonthlyExpenses : jsnum;
  averageSavingsRate : jsnum
}.

(** The function mapped over [last6Months]. *)
Definition monthSummary (transactions : list Transaction) (month : Date)
  : MonthSummary :=
  let monthStart := startOfMonth month in
  let monthEnd := endOfMonth month in
  let monthTransactions :=
    List.filter (dateBetween monthStart monthEnd) transactions in
  let income := sumAmounts (ofType Model.income monthTransactions) in
  let expenses := sumAmounts (ofType Model.expense monthTransactions) in
  {| ms_month := format_MMM month;
     ms_income := income;
     ms_expenses := expenses;
     ms_savings := (income - expenses)%Q;
     ms_savingsRate := percentOf (income - expenses) income |}.

(** [analysisData] at clock value [currentMonth]; [None] when
    [eachMonthOfInterval] throws. *)
Definition analysisData (transactions : list Transaction) (currentMonth : Date)
  : option Analysis :=
  let lastMonth := subMonths currentMonth 1 in
  match eachMonthOfInterval (subMonths currentMonth 5) currentMonth with
  | None => None
  | Some last6Months =>
      let currentMonthTransactions :=
        List.filter (dateBetween (startOfMonth currentMonth)
                                 (endOfMonth currentMonth)) transactions in
      let lastMonthTransactions :=
        List.filter (dateBetween (startOfMonth lastMonth) (endOfMonth lastMonth))
                    transactions in
      let currentIncome := sumAmounts (ofType income currentMonthTransactions) in
      let currentExpenses := sumAmounts (ofType expense currentMonthTransactions) in
      let lastIncome := sumAmounts (ofType income lastMonthTransactions) in
      let lastExpenses := sumAmounts (ofType expense lastMonthTransactions) in
      let incomeChange := percentOf (currentIncome - lastIncome) lastIncome in
      let expenseChange := percentOf (currentExpenses - lastExpenses) lastExpenses in
      let monthlyData := map (monthSummary transactions) last6Months in
      let categoryExpenses := categoryBreakdown currentMonthTransactions in
      let topCategories :=
        map (fun entry =>
               {| sh_category := fst entry;
                  sh_amount := snd entry;
                  sh_percentage := percentOf (snd entry) currentExpenses |})
            (firstn 5 (sortEntries categoryExpenses)) in
      let months := inject_Z (Z.of_nat (length monthlyData)) in
      let averageMonthlyExpenses :=
        if Nat.ltb 0 (length monthlyData)
        then js_div (fold_left (fun sum month => (sum + ms_expenses month)%Q)
                               monthlyData 0%Q)
                    months
        else Fin 0 in
      let averageSavingsRate :=
        if Nat.ltb 0 (length monthlyData)
        then js_quot (fold_left (fun sum month => js_add sum (ms_savingsRate month))
                                monthlyData (Fin 0))
                     months
        else Fin 0 in
      Some {| currentIncome := currentIncome;
              currentExpenses := currentExpenses;
              incomeChange := incomeChange;
              expenseChange := expenseChange;
              monthlyData := monthlyData;
              topCategories := topCategories;
              averageMonthlyExpenses := averageMonthlyExpenses;
              averageSavingsRate := averageSavingsRate |}
  end.

(** The state of the page that [generateInsights] changes, and the toasts
    it shows. *)
Record PageState : Type := {
  insights : list AnalysisInsight;
  loadingInsights : bool
}.

Section WithBuiltins.
Variable JSON_parse : string -> Completion JsValue.
Variable toFixed1 : jsnum -> string.
Variable toLocaleString : Q -> string.

(** [generateInsights]: the guard, then
    [try { setInsights(await generateFinancialInsights(...)); toast.success(...) }
     catch { toast.error(...) } finally { setLoadingInsights(false) }]. *)
Definition generateInsights (transactions : list Transaction)
           (accounts : list Account) (outcome : ModelOutcome)
           (page : PageState) : PageState * list DataContext.Toast :=
  if Nat.eqb (length transactions) 0 then
    (page,
     [DataContext.ToastError "Add some transactions first to get AI insights"])
  else
    match generateFinancialInsights JSON_parse toFixed1 toLocaleString
                                    transactions accounts outcome with
    | Return aiInsights =>
        ({| insights := aiInsights; loadingInsights := false |},
         [DataContext.ToastSuccess "AI insights generated successfully!"])
    | Throw error =>
        ({| insights := insights page; loadingInsights := false |},
         [DataContext.ToastError "Failed to generate insights"])
    end.

End WithBuiltins.

End AnalysisPage.

(** ** The pages that write: the submit and delete handlers *)

Module PageHandlers.
Import Js JsDate DataContext.

(** The state kept by a page with a form: whether the form is shown, the
    id of the entity being edited if any, and the values in the form. *)
Record FormPage (F : Type) : Type := {
  showForm : bool;
  editing : option string;
  formValues : F
}.
Arguments showForm {F} _.
Arguments editing {F} _.
Arguments formValues {F} _.

(** The state kept by UploadBillPage. *)
Record UploadPage (F : Type) : Type := {
  selectedFile : option string;
  preview : option string;
  extractedData : option JsValue;
  extractionError : option string;
  uploadValues : F
}.
Arguments selectedFile {F} _.
Arguments preview {F} _.
Arguments extractedData {F} _.
Arguments extractionError {F} _.
Arguments uploadValues {F} _.

Section Backend.
Variable rejects : World -> Request -> option JsError.
Variable freshId : Collection -> string.
Variable queryDocs : string -> string -> Collection -> list (string * Doc).
Variable now : Date.

Section Form.
(** The values of the form, their defaults (what [reset()] puts back) and
    the object that [onSubmit] builds from the validated values (the
    values themselves, with the numbers and the date converted). *)
Variable F : Type.
Variable defaults : F.
Variable toDoc : F -> Doc.

(** The shape shared by [onSubmit] of TransactionsPage and of
    InvestmentsPage and by [onSubmitAccount] of SettingsPage:
    [try { if (editing) { await update(editing.id, data); setEditing(null) }
           else { await add(data) }
           reset(); setShowForm(false) }
     catch (error) { }]. *)
Definition submit (update : string -> Doc -> M unit) (add : Doc -> M unit)
           (data : F) (page : FormPage F) : M (FormPage F) :=
  tryCatch
    (bindM (match editing page with
            | Some id =>
                andThen (update id (toDoc data))
                        (ret {| showForm := showForm page;
                                editing := None;
                                formValues := formValues page |})
            | None => andThen (add (toDoc data)) (ret page)
            end)
           (fun page' =>
              ret {| showForm := false;
                     editing := editing page';
                     formValues := defaults |}))
    (fun error => ret page).

(** TransactionsPage: [onSubmit]. *)
Definition onSubmitTransaction (user : option User) :=
  submit (updateTransaction rejects freshId queryDocs now user)
         (addTransaction rejects freshId queryDocs now user).

(** SettingsPage: [onSubmitAccount]. *)
Definition onSubmitAccount (user : option User) :=
  submit (updateAccount rejects freshId queryDocs now user)
         (addAccount rejects freshId queryDocs now user).

(** InvestmentsPage: [onSubmit]. *)
Definition onSubmitInvestment (user : option User) :=
  submit (updateInvestment rejects freshId queryDocs now user)
         (addInvestment rejects freshId queryDocs now user).

(** UploadBillPage: [onSubmit], which adds the transaction, clears the
    page and shows a toast of its own. *)
Definition onSubmitUpload (user : option User) (data : F)
           (page : UploadPage F) : M (UploadPage F) :=
  tryCatch
    (andThen (addTransaction rejects freshId queryDocs now user (toDoc data))
       (andThen (toast (ToastSuccess "Transaction added successfully!"))
          (ret {| selectedFile := None;
                  preview := None;
                  extractedData := None;
                  extractionError := None;
                  uploadValues := defaults |})))
    (fun error => ret page).

End Form.

(** The shape shared by [handleDelete] of TransactionsPage and of
    InvestmentsPage and by [handleDeleteAccount] of SettingsPage:
    [if (window.confirm(...)) { try { await delete(id) } catch (error) { } }]. *)
Definition confirmThenDelete (delete : string -> M unit) (confirmed : bool)
           (id : string) : M unit :=
  if confirmed then tryCatch (delete id) (fun error => ret tt) else ret tt.

(** SettingsPage: the question asked by [handleDeleteAccount]. *)
Definition deleteAccountQuestion : string :=
  "Are you sure you want to delete this account? This will also delete all associated transactions.".

Definition handleDeleteAccount (user : option User) :=
  confirmThenDelete (deleteAccount rejects freshId queryDocs now user).

Definition handleDeleteTransaction (user : option User) :=
  confirmThenDelete (deleteTransaction rejects freshId queryDocs now user).

Definition handleDeleteInvestment (user : option User) :=
  confirmThenDelete (deleteInvestment rejects freshId queryDocs now user).

End Backend.

End PageHandlers.

(** ** UploadBillPage: scanning a receipt into the form *)

Module UploadBillPage.
Import JsDate Text DateFormat Js Gemini.

(** [s.toLowerCase()], for the letters A to Z. *)
Definition lowerChar (c : ascii) : ascii :=
  let n := nat_of_ascii c in
  if Nat.leb 65 n && Nat.leb n 90 then ascii_of_nat (n + 32) else c.

Fixpoint toLowerCase (s : string) : string :=
  match s with
  | EmptyString => EmptyString
  | String c s' => String (lowerChar c) (toLowerCase s')
  end.

(** The object [categoryMapping] of [handleExtractData]. *)
Definition categoryMapping : list (string * string) :=
  [ ("groceries", "Food & Dining");
    ("food", "Food & Dining");
    ("transportation", "Transportation");
    ("shopping", "Shopping");
    ("entertainment", "Entertainment");
    ("utilities", "Bills & Utilities");
    ("bills", "Bills & Utilities");
    ("healthcare", "Healthcare");
    ("education", "Education");
    ("travel", "Travel");
    ("other-expense", "Others");
    ("housing", "Bills & Utilities");
    ("insurance", "Bills & Utilities");
    ("gifts", "Shopping");
    ("personal", "Others") ].

(** [categoryMapping[key]] for a key other than the two lower-case names
    that every object inherits ([constructor] and [__proto__]). *)
Definition mapped (key : string) : JsValue :=
  match find (fun entry => String.eqb (fst entry) key) categoryMapping with
  | Some entry => JStr (snd entry)
  | None => JUndefined
  end.

(** The object returned by [scanReceiptWithGemini]. *)
Record ExtractedData : Type := {
  merchantName : JsValue;
  amount : JsValue;
  date : JsValue;
  category : JsValue;
  description : JsValue
}.

(** The four fields of the form that [handleExtractData] sets. *)
Record FormValues : Type := {
  amountField : JsValue;
  dateField : JsValue;
  categoryField : JsValue;
  descriptionField : JsValue
}.

Record PageState : Type := {
  uploading : bool;
  extractedData : option ExtractedData;
  extractionError : option string;
  form : FormValues
}.

(** [v > 0] for the values that the amount of a receipt takes: a number,
    [null] or [undefined]. *)
Definition positive (v : JsValue) : bool :=
  match v with
  | JNum n => Qlt_bool 0 n
  | _ => false
  end.

Section WithBuiltins.
Variable JSON_parse : string -> Completion JsValue.
Variable random : Q.
Variable now : Date.
(** [items.join(", ")] on the elements of an array. *)
Variable Array_join : list JsValue -> string.
(** [new Date(value)], [None] for an invalid date. *)
Variable Date_of : JsValue -> option Date.

(** [data.items?.join(", ")]. *)
Definition joinedItems (items : JsValue) : Completion JsValue :=
  match items with
  | JUndefined | JNull => Return JUndefined
  | JArr elements => Return (JStr (Array_join elements))
  | _ => Throw (MkError "data.items.join is not a function")
  end.

(** [scanReceiptWithGemini]; an error caught is thrown again with its
    message. *)
Definition scanReceiptWithGemini (outcome : ModelOutcome)
  : Completion ExtractedData :=
  try_catch
    (bind (extractReceiptData JSON_parse random now outcome) (fun data =>
     bind (getProp data "vendor") (fun vendor =>
     bind (getProp data "amount") (fun amount =>
     bind (getProp data "date") (fun date =>
     bind (getProp data "category") (fun category =>
     bind (getProp data "items") (fun items =>
     bind (joinedItems items) (fun joined =>
     Return {| merchantName := or_else vendor JUndefined;
               amount := or_else amount JUndefined;
               date := or_else date JUndefined;
               category := or_else category JUndefined;
               description := or_else joined (or_else vendor JUndefined) |}))))))))
    (fun error => match error with MkError message => Throw (MkError message) end).

Definition setAmount (data : ExtractedData) (values : FormValues) : FormValues :=
  if truthy (amount data) && positive (amount data)
  then {| amountField := amount data;
          dateField := dateField values;
          categoryField := categoryField values;
          descriptionField := descriptionField values |}
  else values.

Definition setDateValue (data : ExtractedData) (values : FormValues) : FormValues :=
  if truthy (date data) then
    match Date_of (date data) with
    | Some dateObj =>
        {| amountField := amountField values;
           dateField := JStr (todayISO dateObj);
           categoryField := categoryField values;
           descriptionField := descriptionField values |}
    | None => values
    end
  else values.

(** [data.category.toLowerCase()] throws on a value that is not a string. *)
Definition setCategory (data : ExtractedData) (values : FormValues)
  : Completion FormValues :=
  if truthy (category data) then
    match category data with
    | JStr name =>
        Return {| amountField := amountField values;
                  dateField := dateField values;
                  categoryField := or_else (mapped (toLowerCase name))
                                           (category data);
                  descriptionField := descriptionField values |}
    | _ => Throw (MkError "data.category.toLowerCase is not a function")
    end
  else Return values.

Definition setDescription (data : ExtractedData) (values : FormValues)
  : FormValues :=
  if truthy (description data) || truthy (merchantName data)
  then {| amountField := amountField values;
          dateField := dateField values;
          categoryField := categoryField values;
          descriptionField :=
            or_else (description data) (or_else (merchantName data) (JStr "")) |}
  else values.

(** The [catch] and [finally] blocks of [handleExtractData], run on the
    state reached when the error was thrown. *)
Definition extractionFailed (error : JsError) (reached : PageState)
  : PageState * list DataContext.Toast :=
  match error with
  | MkError errorMessage =>
      ({| uploading := false;
          extractedData := extractedData reached;
          extractionError := Some errorMessage;
          form := form reached |},
       [DataContext.ToastError errorMessage])
  end.

(** [handleExtractData].  The object returned by the scan has five keys,
    so the check of [Object.keys(data).length] passes. *)
Definition handleExtractData (selectedFile : option string)
           (outcome : ModelOutcome) (page : PageState)
  : PageState * list DataContext.Toast :=
  match selectedFile with
  | None => (page, [DataContext.ToastError "Please select a file first"])
  | Some file =>
      let started := {| uploading := true;
                        extractedData := extractedData page;
                        extractionError := None;
                        form := form page |} in
      match scanReceiptWithGemini outcome with
      | Throw error => extractionFailed error started
      | Return data =>
          let dated := setDateValue data (setAmount data (form started)) in
          let reached := {| uploading := true;
                            extractedData := Some data;
                            extractionError := None;
                            form := dated |} in
          match setCategory data dated with
          | Throw error => extractionFailed error reached
          | Return categorised =>
              ({| uploading := false;
                  extractedData := Some data;
                  extractionError := None;
                  form := setDescription data categorised |},
               [DataContext.ToastSuccess "Receipt data extracted successfully!"])
          end
      end
  end.

End WithBuiltins.

End UploadBillPage.

(** ** Reference definitions for the properties of the aggregations *)

Module Reference.
Import JsDate Model.

(** The sum of a list of amounts, written from the right. *)
Definition amountsTotal (l : list Transaction) : Q :=
  fold_right (fun t s => (tx_amount t + s)%Q) 0%Q l.

(** "The expenses of category [c]" and their total. *)
Definition expensesOf (c : string) (transactions : list Transaction)
  : list Transaction :=
  List.filter (fun t => String.eqb (tx_category t) c) (ofType expense transactions).

Definition categoryTotal (c : string) (transactions : list Transaction) : Q :=
  sumAmounts (expensesOf c transactions).

(** The value held for a key, 0 when the key is missing. *)
Definition valueOf (c : string) (acc : list (string * Q)) : Q :=
  match Gemini.getKey c acc with
  | Some v => v
  | None => 0%Q
  end.

(** Larger amounts first. *)
Definition largerFirst (a b : string * Q) : Prop := (snd b <= snd a)%Q.

(** Reading back a run of decimal digits. *)
Definition parseDigits (s : string) : option N :=
  option_map N.of_uint (NilEmpty.uint_of_string s).

(** "Dated on" day number [day] (days since the epoch), and "the sum of
    the amounts of the [ty]-type transactions dated on that day". *)
Definition datedOnDay (day : Z) (t : Transaction) : bool :=
  (Day (tx_date t) =? day)%Z.

Definition dayTotal (ty : TransactionType) (day : Z)
           (transactions : list Transaction) : Q :=
  sumAmounts
    (List.filter (fun t => datedOnDay day t && TransactionType_eqb (tx_type t) ty)
                 transactions).

(** The three kinds of entity that the pages edit, with the handler and
    the operations of each. *)
Inductive Entity : Type := AccountEntity | TransactionEntity | InvestmentEntity.

Definition updateOp (entity : Entity) (id : string)
           (data : gmap string DataContext.FieldValue) : DataContext.CrudOp :=
  match entity with
  | AccountEntity => DataContext.OpUpdateAccount id data
  | TransactionEntity => DataContext.OpUpdateTransaction id data
  | InvestmentEntity => DataContext.OpUpdateInvestment id data
  end.

Definition addOp (entity : Entity)
           (data : gmap string DataContext.FieldValue) : DataContext.CrudOp :=
  match entity with
  | AccountEntity => DataContext.OpAddAccount data
  | TransactionEntity => DataContext.OpAddTransaction data
  | InvestmentEntity => DataContext.OpAddInvestment data
  end.

Definition deleteOp (entity : Entity) (id : string) : DataContext.CrudOp :=
  match entity with
  | AccountEntity => DataContext.OpDeleteAccount id
  | TransactionEntity => DataContext.OpDeleteTransaction id
  | InvestmentEntity => DataContext.OpDeleteInvestment id
  end.

(** The operation that a submission stands for: an update of the entity
    being edited, or else an addition. *)
Definition submitOp {F} (entity : Entity)
           (toDoc : F -> gmap string DataContext.FieldValue) (data : F)
           (page : PageHandlers.FormPage F) : DataContext.CrudOp :=
  match PageHandlers.editing page with
  | Some id => updateOp entity id (toDoc data)
  | None => addOp entity (toDoc data)
  end.

(** The form closed and put back to its defaults, nothing being edited. *)
Definition closedForm {F} (defaults : F) : PageHandlers.FormPage F :=
  {| PageHandlers.showForm := false;
     PageHandlers.editing := None;
     PageHandlers.formValues := defaults |}.

(** A key that an object does not inherit: neither [__proto__] nor the
    name of a function of [Object.prototype].  On such keys an object
    used as a dictionary holds what was stored under them. *)
Definition ordinaryKey (key : string) : bool :=
  negb (String.eqb key "__proto__")
  && negb (existsb (String.eqb key) Fallback.inheritedFunctions).

(** Numbers in an order in which none is followed by a larger one. *)
Definition descending (l : list Q) : Prop :=
  StronglySorted (fun x y => (y <= x)%Q) l.

(** [null], or a value that passes [p]. *)
Definition nullOr (p : Js.JsValue -> bool) (v : Js.JsValue) : bool :=
  match v with
  | Js.JNull => true
  | _ => p v
  end.

(** The shape of a receipt as the callers of [extractReceiptData] read
    it: the keys [vendor], [amount], [date], [category] in this order,
    then [items] or nothing; the vendor and the date are [null] or
    truthy, the amount is [null] or a number, the category is truthy and
    the items are an array. *)
Definition receiptShape (v : Js.JsValue) : bool :=
  match v with
  | Js.JObj ((k1, vendor) :: (k2, amount) :: (k3, date) :: (k4, category) :: rest) =>
      String.eqb k1 "vendor" && String.eqb k2 "amount"
      && String.eqb k3 "date" && String.eqb k4 "category"
      && nullOr Js.truthy vendor && nullOr Js.isNumber amount
      && nullOr Js.truthy date && Js.truthy category
      && match rest with
         | [] => true
         | [(k5, items)] => String.eqb k5 "items" && Js.isArray items
         | _ => false
         end
  | _ => false
  end.

(** An insight as the interface declares it: a declared type and three
    strings. *)
Definition isString (v : Js.JsValue) : bool :=
  match v with Js.JStr _ => true | _ => false end.

Definition declaredInsight (i : Gemini.AnalysisInsight) : Prop :=
  In (Gemini.ins_type i) Gemini.declaredTypes
  /\ isString (Gemini.ins_title i) = true
  /\ isString (Gemini.ins_message i) = true
  /\ isString (Gemini.ins_recommendation i) = true.



End Reference.

(* ===================================================================== *)
(** * Part II: properties                                                 *)
(* ===================================================================== *)

Module JsDateFacts.
Import JsDate.
Local Open Scope Z_scope.

Lemma all_from_spec (P : Z -> bool) (fuel : nat) (z0 : Z) :
  all_from fuel z0 P = true ->
  forall z, z0 <= z < z0 + Z.of_nat fuel -> P z = true.
Proof.
  revert z0. induction fuel as [|f IH]; intros z0 Hall z Hz.
  - simpl in Hz. lia.
  - simpl in Hall. apply andb_prop in Hall. destruct Hall as [Hz0 Hrest].
    destruct (Z.eq_dec z z0) as [->|Hne]; [exact Hz0|].
    apply (IH (z0 + 1) Hrest). lia.
Qed.

(** One 400-year cycle has 4800 months and 146097 days. *)
Lemma DayFromYear_shift (y e : Z) :
  DayFromYear (y + 400 * e) = DayFromYear y + 146097 * e.
Proof.
  unfold DayFromYear.
  replace (y + 400 * e - 1969) with (y - 1969 + (100 * e) * 4) by ring.
  replace (y + 400 * e - 1901) with (y - 1901 + (4 * e) * 100) by ring.
  replace (y + 400 * e - 1601) with (y - 1601 + e * 400) by ring.
  rewrite !Z.div_add by lia. ring.
Qed.

Lemma InLeapYear_shift (y e : Z) : InLeapYear (y + 400 * e) = InLeapYear y.
Proof.
  unfold InLeapYear, DaysInYear.
  replace ((y + 400 * e) mod 4) with (y mod 4)
    by (replace (y + 400 * e) with (y + (100 * e) * 4) by ring;
        rewrite Z_mod_plus_full; reflexivity).
  replace ((y + 400 * e) mod 100) with (y mod 100)
    by (replace (y + 400 * e) with (y + (4 * e) * 100) by ring;
        rewrite Z_mod_plus_full; reflexivity).
  replace ((y + 400 * e) mod 400) with (y mod 400)
    by (replace (y + 400 * e) with (y + e * 400) by ring;
        rewrite Z_mod_plus_full; reflexivity).
  reflexivity.
Qed.

Lemma cycle_years_ok : all_from (Z.to_nat 400) 0 year_ok = true.
Proof. vm_compute. reflexivity. Qed.

(** [DayFromYear] counts the days of the years. *)
Lemma DayFromYear_next (y : Z) :
  DayFromYear (y + 1) = DayFromYear y + DaysInYear y.
Proof.
  remember (y / 400) as e eqn:He. remember (y mod 400) as r eqn:Hr.
  assert (Hy : y = r + 400 * e) by (rewrite Hr, He, Z.mod_eq by lia; ring).
  assert (Hrange : 0 <= r < 0 + Z.of_nat (Z.to_nat 400)).
  { rewrite Z2Nat.id by lia. rewrite Hr.
    pose proof (Z.mod_pos_bound y 400 ltac:(lia)). lia. }
  pose proof (all_from_spec _ _ _ cycle_years_ok r Hrange) as Hok.
  unfold year_ok in Hok. apply Z.eqb_eq in Hok.
  pose proof (InLeapYear_shift r e) as Hleap. unfold InLeapYear in Hleap.
  rewrite Hy. replace (r + 400 * e + 1) with (r + 1 + 400 * e) by ring.
  rewrite !DayFromYear_shift. lia.
Qed.

(** January starts the year. *)
Lemma monthStartDay_january (y : Z) : monthStartDay (12 * y) = DayFromYear y.
Proof.
  unfold monthStartDay. cbv zeta.
  rewrite Z.mul_comm, Z.div_mul, Z.mod_mul by lia.
  replace (monthOffset 0 (InLeapYear y)) with 0 by reflexivity. lia.
Qed.

Lemma monthStartDay_shift (k e : Z) :
  monthStartDay (k + 4800 * e) = monthStartDay k + 146097 * e.
Proof.
  unfold monthStartDay. cbv zeta.
  replace (k + 4800 * e) with (k + (400 * e) * 12) by ring.
  rewrite Z.div_add by lia. rewrite Z_mod_plus_full.
  rewrite DayFromYear_shift, InLeapYear_shift. ring.
Qed.

Lemma cycle_months_ok :
  all_from (Z.to_nat 4800) 0 month_ok = true.
Proof. vm_compute. reflexivity. Qed.

Lemma month_ok_all (k : Z) : month_ok k = true.
Proof.
  remember (k / 4800) as e eqn:He. remember (k mod 4800) as r eqn:Hr.
  assert (Hk : k = r + 4800 * e).
  { rewrite Hr, He, Z.mod_eq by lia. ring. }
  assert (Hrange : 0 <= r < 0 + Z.of_nat (Z.to_nat 4800)).
  { rewrite Z2Nat.id by lia. rewrite Hr.
    pose proof (Z.mod_pos_bound k 4800 ltac:(lia)). lia. }
  pose proof (all_from_spec _ _ _ cycle_months_ok r Hrange) as Hok.
  unfold month_ok in *. cbv zeta in *.
  rewrite Hk. replace (r + 4800 * e + 1) with (r + 1 + 4800 * e) by ring.
  rewrite !monthStartDay_shift.
  replace (146097 * (r + 4800 * e - 2))
    with (146097 * (r - 2) + (146097 * e) * 4800) by ring.
  rewrite Z.div_add by lia.
  apply andb_prop in Hok. destruct Hok as [Hok H3].
  apply andb_prop in Hok. destruct Hok as [H1 H2].
  apply Z.ltb_lt in H1. apply Z.leb_le in H2. apply Z.leb_le in H3.
  apply andb_true_intro. split; [apply andb_true_intro; split|].
  - apply Z.ltb_lt. lia.
  - apply Z.leb_le. lia.
  - apply Z.leb_le. lia.
Qed.

Lemma monthStartDay_step (k : Z) : monthStartDay k < monthStartDay (k + 1).
Proof.
  pose proof (month_ok_all k) as H. unfold month_ok in H. cbv zeta in H.
  apply andb_prop in H. destruct H as [H _].
  apply andb_prop in H. destruct H as [H _].
  apply Z.ltb_lt in H. exact H.
Qed.

Lemma monthStartDay_near (k : Z) :
  -1 <= monthStartDay k + 719468 - (146097 * (k - 2)) / 4800 <= 3.
Proof.
  pose proof (month_ok_all k) as H. unfold month_ok in H. cbv zeta in H.
  apply andb_prop in H. destruct H as [H H3].
  apply andb_prop in H. destruct H as [_ H2].
  apply Z.leb_le in H2. apply Z.leb_le in H3. split; assumption.
Qed.

(** Every day lies in the month that [monthIndexOfDay] gives it. *)
Lemma monthIndexOfDay_bounds (d : Z) :
  monthStartDay (monthIndexOfDay d) <= d < monthStartDay (monthIndexOfDay d + 1).
Proof.
  unfold monthIndexOfDay. cbv zeta.
  remember ((4800 * (d + 719468)) / 146097) as j0 eqn:Hj0.
  pose proof (Z.div_mod (4800 * (d + 719468)) 146097 ltac:(lia)) as Hdm.
  pose proof (Z.mod_pos_bound (4800 * (d + 719468)) 146097 ltac:(lia)) as Hm.
  rewrite <- Hj0 in Hdm.
  pose proof (monthStartDay_near (j0 + 2 - 1)) as Hlow.
  pose proof (monthStartDay_near (j0 + 2 + 1 + 1)) as Hhigh.
  pose proof (Z.div_mod (146097 * (j0 + 2 - 1 - 2)) 4800 ltac:(lia)) as Hd1.
  pose proof (Z.mod_pos_bound (146097 * (j0 + 2 - 1 - 2)) 4800 ltac:(lia)) as Hm1.
  pose proof (Z.div_mod (146097 * (j0 + 2 + 1 + 1 - 2)) 4800 ltac:(lia)) as Hd2.
  pose proof (Z.mod_pos_bound (146097 * (j0 + 2 + 1 + 1 - 2)) 4800 ltac:(lia)) as Hm2.
  destruct (d <? monthStartDay (j0 + 2)) eqn:E1.
  - apply Z.ltb_lt in E1.
    replace (j0 + 2 - 1 + 1) with (j0 + 2) by ring. lia.
  - apply Z.ltb_ge in E1.
    destruct (monthStartDay (j0 + 2 + 1) <=? d) eqn:E2.
    + apply Z.leb_le in E2. lia.
    + apply Z.leb_gt in E2. lia.
Qed.

Lemma monthStartDay_mono (k1 k2 : Z) :
  k1 <= k2 -> monthStartDay k1 <= monthStartDay k2.
Proof.
  intros H. pattern k2. apply (Zlt_lower_bound_rec _ k1); [|exact H].
  intros x IH Hx.
  destruct (Z.eq_dec x k1) as [->|Hne]; [lia|].
  assert (Hprev : monthStartDay k1 <= monthStartDay (x - 1)) by (apply IH; lia).
  pose proof (monthStartDay_step (x - 1)) as Hs.
  replace (x - 1 + 1) with x in Hs by ring. lia.
Qed.

Lemma monthStartDay_lt (k1 k2 : Z) :
  k1 < k2 -> monthStartDay k1 < monthStartDay k2.
Proof.
  intros H. pose proof (monthStartDay_step k1).
  pose proof (monthStartDay_mono (k1 + 1) k2 ltac:(lia)). lia.
Qed.

(** The month of a day is the only month whose day range contains it. *)
Lemma monthIndexOfDay_unique (d k : Z) :
  monthStartDay k <= d < monthStartDay (k + 1) -> monthIndexOfDay d = k.
Proof.
  intros [Hlo Hhi].
  pose proof (monthIndexOfDay_bounds d) as [Blo Bhi].
  destruct (Z.lt_trichotomy (monthIndexOfDay d) k) as [Hlt|[Heq|Hgt]]; [|exact Heq|].
  - pose proof (monthStartDay_mono (monthIndexOfDay d + 1) k ltac:(lia)). lia.
  - pose proof (monthStartDay_mono (k + 1) (monthIndexOfDay d) ltac:(lia)). lia.
Qed.

Lemma monthIndexOfDay_iff (d k : Z) :
  monthIndexOfDay d = k <-> monthStartDay k <= d < monthStartDay (k + 1).
Proof.
  split; [intros <-; apply monthIndexOfDay_bounds | apply monthIndexOfDay_unique].
Qed.

(** *** Time values *)

Lemma msPerDay_pos : 0 < msPerDay.
Proof. unfold msPerDay. lia. Qed.

Lemma TimeWithinDay_bounds (t : Date) : 0 <= TimeWithinDay t < msPerDay.
Proof. unfold TimeWithinDay. apply Z.mod_pos_bound, msPerDay_pos. Qed.

Lemma Day_MakeDate (day time : Z) :
  0 <= time < msPerDay -> Day (MakeDate day time) = day.
Proof.
  intros H. unfold Day, MakeDate.
  rewrite Z.add_comm, Z.div_add by (unfold msPerDay; lia).
  rewrite Z.div_small by exact H. reflexivity.
Qed.

(** A time lies on day [n] exactly when it is in that day's range. *)
Lemma Day_le_iff (t n : Z) : n <= Day t <-> n * msPerDay <= t.
Proof.
  unfold Day, msPerDay.
  pose proof (Z.mod_pos_bound t 86400000 ltac:(lia)) as Hm.
  rewrite Z.mod_eq in Hm by lia.
  split; intros H; lia.
Qed.

Lemma Day_lt_iff (t n : Z) : Day t < n <-> t <= n * msPerDay - 1.
Proof.
  pose proof (Day_le_iff t n) as H. lia.
Qed.

Lemma MakeDay_index (y m dt : Z) :
  MakeDay y m dt = monthStartDay (12 * y + m) + dt - 1.
Proof.
  unfold MakeDay. cbv zeta.
  replace (12 * (y + m / 12) + m mod 12) with (12 * y + m); [reflexivity|].
  rewrite (Z.div_mod m 12) at 1 by lia. ring.
Qed.

Lemma year_month_index (t : Date) :
  12 * getFullYear t + getMonth t = monthIndex t.
Proof.
  unfold getFullYear, getMonth. symmetry. apply Z.div_mod. lia.
Qed.

Lemma getMonth_range (t : Date) : 0 <= getMonth t < 12.
Proof. unfold getMonth. apply Z.mod_pos_bound. lia. Qed.

(** The month of a time value, by range. *)
Lemma monthIndex_iff (t k : Z) :
  monthIndex t = k <->
  monthStartDay k * msPerDay <= t <= monthStartDay (k + 1) * msPerDay - 1.
Proof.
  unfold monthIndex. rewrite monthIndexOfDay_iff.
  rewrite Day_le_iff. rewrite Day_lt_iff. reflexivity.
Qed.

Lemma monthIndex_le_iff (t k : Z) :
  k <= monthIndex t <-> monthStartDay k * msPerDay <= t.
Proof.
  rewrite <- Day_le_iff.
  pose proof (monthIndexOfDay_bounds (Day t)) as [Blo Bhi].
  fold (monthIndex t) in Blo, Bhi.
  split; intros H.
  - pose proof (monthStartDay_mono k (monthIndex t) H). lia.
  - destruct (Z_le_gt_dec k (monthIndex t)) as [Hle|Hgt]; [exact Hle|].
    pose proof (monthStartDay_mono (monthIndex t + 1) k ltac:(lia)). lia.
Qed.

Lemma monthIndex_lt_iff (t k : Z) :
  monthIndex t < k <-> t <= monthStartDay k * msPerDay - 1.
Proof.
  pose proof (monthIndex_le_iff t k). lia.
Qed.

Lemma monthIndex_month_start (k : Z) :
  monthIndex (monthStartDay k * msPerDay) = k.
Proof.
  apply monthIndex_iff. pose proof (monthStartDay_step k). unfold msPerDay.
  lia.
Qed.

Lemma startOfMonth_eq (d : Date) :
  startOfMonth d = monthStartDay (monthIndex d) * msPerDay.
Proof.
  unfold startOfMonth, setHours, setDate.
  rewrite Day_MakeDate by apply TimeWithinDay_bounds.
  rewrite MakeDay_index, year_month_index.
  unfold MakeDate, MakeTime, msPerDay, Date. lia.
Qed.

Lemma endOfMonth_eq (d : Date) :
  endOfMonth d = monthStartDay (monthIndex d + 1) * msPerDay - 1.
Proof.
  unfold endOfMonth, setHours, setFullYear. cbv zeta.
  rewrite Day_MakeDate by apply TimeWithinDay_bounds.
  rewrite MakeDay_index.
  replace (12 * getFullYear d + (getMonth d + 1)) with (monthIndex d + 1)
    by (rewrite <- year_month_index; ring).
  unfold MakeDate, MakeTime, msPerDay, Date. lia.
Qed.

(** The range test of the sources selects the calendar month. *)
Lemma between_month (t d : Date) :
  startOfMonth d <= t <= endOfMonth d <-> monthIndex t = monthIndex d.
Proof.
  rewrite startOfMonth_eq, endOfMonth_eq. symmetry. apply monthIndex_iff.
Qed.

Lemma startOfYear_eq (d : Date) :
  startOfYear d = monthStartDay (12 * getFullYear d) * msPerDay.
Proof.
  unfold startOfYear, setHours, setFullYear.
  rewrite Day_MakeDate by apply TimeWithinDay_bounds.
  rewrite MakeDay_index. rewrite !Z.add_0_r.
  unfold MakeDate, MakeTime, msPerDay, Date. lia.
Qed.

Lemma endOfYear_eq (d : Date) :
  endOfYear d = monthStartDay (12 * (getFullYear d + 1)) * msPerDay - 1.
Proof.
  unfold endOfYear, setHours, setFullYear. cbv zeta.
  rewrite Day_MakeDate by apply TimeWithinDay_bounds.
  rewrite MakeDay_index. rewrite !Z.add_0_r.
  unfold MakeDate, MakeTime, msPerDay, Date. lia.
Qed.

(** The range test of the sources selects the calendar year. *)
Lemma between_year (t d : Date) :
  startOfYear d <= t <= endOfYear d <-> getFullYear t = getFullYear d.
Proof.
  rewrite startOfYear_eq, endOfYear_eq.
  rewrite <- monthIndex_le_iff, <- monthIndex_lt_iff.
  unfold getFullYear. set (Y := monthIndex d / 12).
  pose proof (Z.div_mod (monthIndex t) 12 ltac:(lia)) as Hdm.
  pose proof (Z.mod_pos_bound (monthIndex t) 12 ltac:(lia)) as Hm.
  split; intros H; lia.
Qed.

Lemma newDate_first (y i : Z) :
  newDate y i 1 = monthStartDay (12 * MakeFullYear y + i) * msPerDay.
Proof.
  unfold newDate. rewrite MakeDay_index. unfold MakeDate, MakeTime, msPerDay, Date. lia.
Qed.

Lemma monthIndex_newDate (y i : Z) :
  monthIndex (newDate y i 1) = 12 * MakeFullYear y + i.
Proof. rewrite newDate_first. apply monthIndex_month_start. Qed.

Lemma getFullYear_newDate (y i : Z) :
  0 <= i < 12 -> getFullYear (newDate y i 1) = MakeFullYear y.
Proof.
  intros Hi. unfold getFullYear. rewrite monthIndex_newDate.
  rewrite Z.mul_comm, Z.div_add_l by lia. rewrite Z.div_small by lia. ring.
Qed.

Lemma getMonth_newDate (y i : Z) :
  0 <= i < 12 -> getMonth (newDate y i 1) = i.
Proof.
  intros Hi. unfold getMonth. rewrite monthIndex_newDate.
  rewrite Z.add_comm, Z.mul_comm, Z_mod_plus_full. apply Z.mod_small. exact Hi.
Qed.

Lemma MakeFullYear_id (y : Z) : ~ (0 <= y <= 99) -> MakeFullYear y = y.
Proof.
  intros H. unfold MakeFullYear.
  destruct (0 <=? y) eqn:E1; destruct (y <=? 99) eqn:E2; simpl; try reflexivity.
  apply Z.leb_le in E1. apply Z.leb_le in E2. lia.
Qed.

(** The epoch, a leap day, and the century rule. *)
Example epoch_is_january_1970 :
  getFullYear 0 = 1970 /\ getMonth 0 = 0 /\ getDate 0 = 1.
Proof. repeat split; reflexivity. Qed.

Example leap_day_2024 :
  getFullYear 1709210096789 = 2024 /\ getMonth 1709210096789 = 1
  /\ getDate 1709210096789 = 29
  /\ startOfMonth 1709210096789 = 1706745600000
  /\ endOfMonth 1709210096789 = 1709251199999.
Proof. repeat split; reflexivity. Qed.

Example century_rule :
  DaysInYear 1900 = 365 /\ DaysInYear 2000 = 366 /\ DaysInYear 2024 = 366
  /\ DaysInYear 2023 = 365.
Proof. repeat split; reflexivity. Qed.

(** *** Month arithmetic of date-fns *)

Lemma monthIndex_MakeDate (k n time : Z) :
  0 <= time < msPerDay ->
  monthStartDay k <= n < monthStartDay (k + 1) ->
  monthIndex (MakeDate n time) = k.
Proof.
  intros Ht Hn. unfold monthIndex. rewrite Day_MakeDate by exact Ht.
  apply monthIndexOfDay_unique. exact Hn.
Qed.

Lemma monthIndex_mono (t1 t2 : Date) :
  t1 <= t2 -> monthIndex t1 <= monthIndex t2.
Proof.
  intros H. apply monthIndex_le_iff.
  pose proof (proj1 (monthIndex_le_iff t1 (monthIndex t1)) ltac:(lia)). lia.
Qed.

Lemma getDate_range (d : Date) :
  1 <= getDate d <= monthStartDay (monthIndex d + 1) - monthStartDay (monthIndex d).
Proof.
  unfold getDate. pose proof (monthIndexOfDay_bounds (Day d)) as H.
  fold (monthIndex d) in H. lia.
Qed.

Lemma monthIndex_addMonths (d : Date) (amount : Z) :
  monthIndex (addMonths d amount) = monthIndex d + amount.
Proof.
  unfold addMonths. cbv zeta.
  remember (monthIndex d) as k eqn:Hk.
  remember (setMonth2 d (getMonth d + amount + 1) 0) as E eqn:HeqE.
  assert (HE : E = MakeDate (monthStartDay (k + amount + 1) - 1) (TimeWithinDay d)).
  { rewrite HeqE. unfold setMonth2. rewrite MakeDay_index.
    replace (12 * getFullYear d + (getMonth d + amount + 1)) with (k + amount + 1)
      by (rewrite Hk, <- year_month_index; ring).
    f_equal. lia. }
  clear HeqE.
  pose proof (monthStartDay_step (k + amount)) as Hstep.
  pose proof (TimeWithinDay_bounds d) as Htw.
  assert (HDE : Day E = monthStartDay (k + amount + 1) - 1).
  { rewrite HE. apply Day_MakeDate. exact Htw. }
  assert (HkE : monthIndex E = k + amount).
  { rewrite HE. apply monthIndex_MakeDate; [exact Htw|]. lia. }
  assert (HgE : getDate E = monthStartDay (k + amount + 1) - monthStartDay (k + amount)).
  { unfold getDate. rewrite HkE, HDE. lia. }
  destruct (getDate d >=? getDate E) eqn:Hcmp; [exact HkE|].
  rewrite Z.geb_leb in Hcmp. apply Z.leb_gt in Hcmp.
  unfold setFullYear. rewrite MakeDay_index, year_month_index, HkE.
  apply monthIndex_MakeDate; [exact Htw|].
  pose proof (getDate_range d) as Hd.
  lia.
Qed.

Lemma monthStart_fields (k : Z) :
  let cur := monthStartDay k * msPerDay in
  monthIndex cur = k /\ getDate cur = 1 /\ TimeWithinDay cur = 0.
Proof.
  cbv zeta. pose proof (monthIndex_month_start k) as Hk.
  assert (HD : Day (monthStartDay k * msPerDay) = monthStartDay k).
  { unfold Day. apply Z.div_mul. unfold msPerDay. lia. }
  repeat split.
  - exact Hk.
  - unfold getDate. rewrite Hk, HD. ring.
  - unfold TimeWithinDay. apply Z.mod_mul. unfold msPerDay. lia.
Qed.

(** One turn of the loop of [eachMonthOfInterval] moves to the next month. *)
Lemma setMonth_next (k : Z) :
  let cur := monthStartDay k * msPerDay in
  setMonth cur (getMonth cur + 1) = monthStartDay (k + 1) * msPerDay.
Proof.
  cbv zeta. destruct (monthStart_fields k) as (Hk & Hd & Ht).
  remember (monthStartDay k * msPerDay) as cur eqn:Hcur.
  pose proof (year_month_index cur) as Hym. rewrite Hk in Hym.
  unfold setMonth. rewrite MakeDay_index, Hd, Ht.
  replace (12 * getFullYear cur + (getMonth cur + 1)) with (k + 1) by lia.
  unfold MakeDate, Date. lia.
Qed.

Lemma monthsFrom_cons (k : Z) (n : nat) :
  Spec.monthsFrom k (S n) = monthStartDay k * msPerDay :: Spec.monthsFrom (k + 1) n.
Proof.
  unfold Spec.monthsFrom. cbn [seq map]. rewrite <- seq_shift, map_map.
  f_equal.
  - f_equal. f_equal. lia.
  - apply map_ext. intros i. f_equal. f_equal. lia.
Qed.

(** With fuel for every month up to the month of [endTime], the loop
    lists exactly those months: it stops on its condition. *)
Lemma eachMonthLoop_months (fuel : nat) (k endTime : Z) :
  monthIndex endTime - k + 1 <= Z.of_nat fuel ->
  eachMonthLoop fuel (monthStartDay k * msPerDay) endTime
  = Spec.monthsFrom k (Z.to_nat (monthIndex endTime - k + 1)).
Proof.
  revert k. induction fuel as [|fuel IH]; intros k Hfuel.
  - simpl. replace (Z.to_nat (monthIndex endTime - k + 1)) with O by lia.
    reflexivity.
  - simpl. unfold getTime.
    destruct (monthStartDay k * msPerDay <=? endTime) eqn:Hcond.
    + apply Z.leb_le in Hcond. apply monthIndex_le_iff in Hcond.
      rewrite (setMonth_next k). rewrite IH by lia.
      replace (Z.to_nat (monthIndex endTime - k + 1))
        with (S (Z.to_nat (monthIndex endTime - (k + 1) + 1))) by lia.
      rewrite monthsFrom_cons. reflexivity.
    + apply Z.leb_gt in Hcond.
      assert (monthIndex endTime < k) by (apply monthIndex_lt_iff; lia).
      replace (Z.to_nat (monthIndex endTime - k + 1)) with O by lia.
      reflexivity.
Qed.

Lemma eachMonthOfInterval_months (start stop : Date) :
  start <= stop ->
  eachMonthOfInterval start stop
  = Some (Spec.monthsFrom (monthIndex start)
            (Z.to_nat (monthIndex stop - monthIndex start + 1))).
Proof.
  intros Hle. unfold eachMonthOfInterval, getTime. cbv zeta.
  apply Z.leb_le in Hle. rewrite Hle. simpl. f_equal.
  assert (Hcur : setDate (setHours start 0 0 0 0) 1
                 = monthStartDay (monthIndex start) * msPerDay).
  { assert (Hk : monthIndex (setHours start 0 0 0 0) = monthIndex start).
    { unfold setHours, monthIndex. rewrite Day_MakeDate; [reflexivity|].
      unfold MakeTime, msPerDay. lia. }
    unfold setDate. rewrite MakeDay_index, year_month_index, Hk.
    unfold setHours, TimeWithinDay, MakeDate, MakeTime.
    replace (Day start * msPerDay + (0 * 3600000 + 0 * 60000 + 0 * 1000 + 0))
      with (Day start * msPerDay) by lia.
    rewrite Z.mod_mul by (unfold msPerDay; lia). unfold Date. lia. }
  rewrite Hcur. apply eachMonthLoop_months. lia.
Qed.

(** The six months of the dashboard: the current month and the five
    before it. *)
Lemma dashboard_months (now : Date) :
  eachMonthOfInterval (subMonths now 5) now
  = Some (Spec.monthsFrom (monthIndex now - 5) 6).
Proof.
  assert (Hk : monthIndex (subMonths now 5) = monthIndex now - 5).
  { unfold subMonths. rewrite monthIndex_addMonths. lia. }
  assert (Hle : subMonths now 5 <= now).
  { destruct (Z_le_gt_dec (subMonths now 5) now) as [H|H]; [exact H|].
    pose proof (monthIndex_mono now (subMonths now 5) ltac:(lia)). lia. }
  rewrite (eachMonthOfInterval_months _ _ Hle), Hk.
  replace (Z.to_nat (monthIndex now - (monthIndex now - 5) + 1)) with 6%nat by lia.
  reflexivity.
Qed.

End JsDateFacts.

(** ** Numbers: the comparisons *)

Module JsFacts.
Import Js.

Lemma Qlt_bool_iff (a b : Q) : Qlt_bool a b = true <-> (a < b)%Q.
Proof.
  unfold Qlt_bool. rewrite negb_true_iff. split; intros H.
  - apply Qnot_le_lt. intros Hle. apply Qle_bool_iff in Hle. congruence.
  - destruct (Qle_bool b a) eqn:E; [|reflexivity].
    apply Qle_bool_iff in E. lra.
Qed.

Lemma Qlt_bool_false_iff (a b : Q) : Qlt_bool a b = false <-> (b <= a)%Q.
Proof.
  unfold Qlt_bool. rewrite negb_false_iff. apply Qle_bool_iff.
Qed.

End JsFacts.

(** ** Aggregation: the trend helpers *)

Module TrendFacts.
Import JsDate JsDateFacts DateFormat Model.
Local Open Scope Z_scope.

Lemma filter_twice {A} (f g : A -> bool) (l : list A) :
  List.filter f (List.filter g l) = List.filter (fun x => g x && f x) l.
Proof.
  induction l as [|x l IH]; [reflexivity|].
  simpl. destruct (g x); simpl; [destruct (f x)|]; rewrite IH; reflexivity.
Qed.

(** The range test between the bounds of a month is the test of the
    calendar month. *)
Lemma dateBetween_month (d : Date) (t : Transaction) :
  dateBetween (startOfMonth d) (endOfMonth d) t
  = Spec.datedInMonth (monthIndex d) t.
Proof.
  unfold dateBetween, Spec.datedInMonth, getTime.
  pose proof (between_month (tx_date t) d) as H.
  rewrite Z.geb_leb.
  destruct (monthIndex (tx_date t) =? monthIndex d) eqn:E.
  - apply Z.eqb_eq in E. apply H in E. destruct E as [E1 E2].
    apply Z.leb_le in E1. apply Z.leb_le in E2. rewrite E1, E2. reflexivity.
  - apply Z.eqb_neq in E.
    destruct (startOfMonth d <=? tx_date t) eqn:E1; [|reflexivity].
    destruct (tx_date t <=? endOfMonth d) eqn:E2; [|reflexivity].
    apply Z.leb_le in E1. apply Z.leb_le in E2.
    exfalso. apply E. apply H. split; assumption.
Qed.

Lemma dateBetween_year (d : Date) (t : Transaction) :
  dateBetween (startOfYear d) (endOfYear d) t
  = Spec.datedInYear (getFullYear d) t.
Proof.
  unfold dateBetween, Spec.datedInYear, getTime.
  pose proof (between_year (tx_date t) d) as H.
  rewrite Z.geb_leb.
  destruct (getFullYear (tx_date t) =? getFullYear d) eqn:E.
  - apply Z.eqb_eq in E. apply H in E. destruct E as [E1 E2].
    apply Z.leb_le in E1. apply Z.leb_le in E2. rewrite E1, E2. reflexivity.
  - apply Z.eqb_neq in E.
    destruct (startOfYear d <=? tx_date t) eqn:E1; [|reflexivity].
    destruct (tx_date t <=? endOfYear d) eqn:E2; [|reflexivity].
    apply Z.leb_le in E1. apply Z.leb_le in E2.
    exfalso. apply E. apply H. split; assumption.
Qed.

(** Filtering by the date range of a month and then by type, and summing,
    gives the total of that type for the month. *)
Lemma month_total (ty : TransactionType) (d : Date) (l : list Transaction) :
  sumAmounts (ofType ty (List.filter (dateBetween (startOfMonth d) (endOfMonth d)) l))
  = Spec.monthTotal ty (monthIndex d) l.
Proof.
  unfold ofType, Spec.monthTotal. rewrite filter_twice. f_equal.
  apply List.filter_ext. intros t. rewrite dateBetween_month. reflexivity.
Qed.

Lemma format_MMM_month_start (k : Z) :
  format_MMM (monthStartDay k * msPerDay)
  = nth (Z.to_nat (k mod 12)) monthAbbreviations ""%string.
Proof.
  unfold format_MMM, getMonth. rewrite monthIndex_month_start. reflexivity.
Qed.

(** [getMonthlyTrend]: twelve points, point [i] for month [i] of the year
    that [new Date(year.getFullYear(), i, 1)] denotes. *)
Lemma getMonthlyTrend_months (transactions : list Transaction) (year : Date) :
  ReportsPage.getMonthlyTrend transactions year
  = map (fun i : nat =>
           let k := 12 * MakeFullYear (getFullYear year) + Z.of_nat i in
           let income := Spec.monthTotal income k transactions in
           let expenses := Spec.monthTotal expense k transactions in
           {| ReportsPage.tp_month := nth i monthAbbreviations ""%string;
              ReportsPage.tp_income := income;
              ReportsPage.tp_expenses := expenses;
              ReportsPage.tp_net := (income - expenses)%Q |})
        (seq 0 12).
Proof.
  unfold ReportsPage.getMonthlyTrend. apply map_ext_in. intros i Hi.
  apply in_seq in Hi. unfold ReportsPage.monthPoint. cbv zeta.
  rewrite !month_total, monthIndex_newDate.
  f_equal. unfold format_MMM. rewrite getMonth_newDate by lia.
  rewrite Nat2Z.id. reflexivity.
Qed.

(** In particular, for a year outside 0..99 the points are the months of
    the year of [year]. *)
Lemma getMonthlyTrend_regular_year (transactions : list Transaction) (year : Date) :
  ~ (0 <= getFullYear year <= 99) ->
  ReportsPage.getMonthlyTrend transactions year
  = map (fun i : nat =>
           let k := 12 * getFullYear year + Z.of_nat i in
           let income := Spec.monthTotal income k transactions in
           let expenses := Spec.monthTotal expense k transactions in
           {| ReportsPage.tp_month := nth i monthAbbreviations ""%string;
              ReportsPage.tp_income := income;
              ReportsPage.tp_expenses := expenses;
              ReportsPage.tp_net := (income - expenses)%Q |})
        (seq 0 12).
Proof.
  intros Hy. rewrite getMonthlyTrend_months, (MakeFullYear_id _ Hy). reflexivity.
Qed.

(** The dashboard: six points, for the current month and the five months
    before it, oldest first. *)
Lemma dashboard_monthlyTrend_months (transactions : list Transaction) (now : Date) :
  Dashboard.monthlyTrend transactions now
  = Some (map (fun i : nat =>
                 let k := monthIndex now - 5 + Z.of_nat i in
                 let income := Spec.monthTotal income k transactions in
                 let expenses := Spec.monthTotal expense k transactions in
                 {| Dashboard.tp_month :=
                      nth (Z.to_nat (k mod 12)) monthAbbreviations ""%string;
                    Dashboard.tp_income := income;
                    Dashboard.tp_expenses := expenses;
                    Dashboard.tp_savings := (income - expenses)%Q |})
              (seq 0 6)).
Proof.
  unfold Dashboard.monthlyTrend. rewrite dashboard_months.
  unfold Spec.monthsFrom. rewrite map_map. f_equal.
  apply map_ext. intros i. unfold Dashboard.monthPoint. cbv zeta.
  rewrite !month_total, monthIndex_month_start, format_MMM_month_start.
  reflexivity.
Qed.

(** The function taken out of the page, at the year 50.  The selected
    period is in the year 50 and the list holds one income of 100 dated
    March of that year, so the total of the income dated in March 50 is
    100.  [getMonthlyTrend] builds its months with [new Date(50, i, 1)],
    which is a date of 1950: its twelve points are those of 1950, and the
    point of March has income 0. *)
Example getMonthlyTrend_two_digit_year :
  getFullYear Samples.june50 = 50
  /\ getFullYear (tx_date Samples.incomeMarch50) = 50
  /\ getMonth (tx_date Samples.incomeMarch50) = 2
  /\ Spec.monthTotal income (12 * 50 + 2) [Samples.incomeMarch50] = (0 + 100)%Q
  /\ map ReportsPage.tp_income
         (ReportsPage.getMonthlyTrend [Samples.incomeMarch50] Samples.june50)
     = repeat 0%Q 12
  /\ getFullYear (newDate (getFullYear Samples.june50) 2 1) = 1950
  /\ List.filter (dateBetween (startOfYear Samples.june50)
                              (endOfYear Samples.june50))
                 [Samples.incomeMarch50]
     = [Samples.incomeMarch50].
Proof. vm_compute. repeat split; reflexivity. Qed.

End TrendFacts.

(** ** Strings: splitting what was joined *)

Module TextFacts.
Import Text.

Lemma occurs_append (c : ascii) (a b : string) :
  occurs c (a +:+ b) = occurs c a || occurs c b.
Proof.
  induction a as [|x a IH]; [reflexivity|].
  simpl. rewrite IH. apply orb_assoc.
Qed.

(** A cell without the separator is not cut. *)
Lemma split_cell (sep : ascii) (cell : string) :
  occurs sep cell = false -> split sep cell = [cell].
Proof.
  induction cell as [|x cell IH]; intros H; [reflexivity|].
  simpl in H. apply orb_false_elim in H. destruct H as [Hx Hc].
  simpl. rewrite Hx, (IH Hc). reflexivity.
Qed.

(** A separator after such a cell ends it. *)
Lemma split_cell_sep (sep : ascii) (cell rest : string) :
  occurs sep cell = false ->
  split sep (cell +:+ String sep rest) = cell :: split sep rest.
Proof.
  induction cell as [|x cell IH]; intros H.
  - simpl. rewrite Ascii.eqb_refl. reflexivity.
  - simpl in H. apply orb_false_elim in H. destruct H as [Hx Hc].
    simpl. rewrite Hx, (IH Hc). reflexivity.
Qed.

(** [join] then [split] gives the cells back when no cell holds the
    separator and there is at least one cell. *)
Lemma split_join (sep : ascii) (cells : list string) :
  cells <> [] ->
  Forall (fun cell => occurs sep cell = false) cells ->
  split sep (join (String sep "") cells) = cells.
Proof.
  induction cells as [|c rest IH]; intros Hne Hall; [congruence|].
  inversion Hall as [|? ? Hc Hrest]; subst.
  destruct rest as [|c' rest'].
  - simpl. apply split_cell. exact Hc.
  - change (join (String sep "") (c :: c' :: rest'))
      with (c +:+ String sep "" +:+ join (String sep "") (c' :: rest')).
    change (String sep "" +:+ join (String sep "") (c' :: rest'))
      with (String sep (join (String sep "") (c' :: rest'))).
    rewrite split_cell_sep by exact Hc.
    rewrite IH; [reflexivity|discriminate|exact Hrest].
Qed.

(** The separator occurs in a joined row only through a cell or through
    the glue. *)
Lemma occurs_join (c : ascii) (sep : string) (cells : list string) :
  occurs c sep = false ->
  Forall (fun cell => occurs c cell = false) cells ->
  occurs c (join sep cells) = false.
Proof.
  intros Hsep. induction cells as [|x rest IH]; intros Hall; [reflexivity|].
  inversion Hall as [|? ? Hx Hrest]; subst.
  destruct rest as [|y rest'].
  - exact Hx.
  - change (join sep (x :: y :: rest')) with (x +:+ sep +:+ join sep (y :: rest')).
    rewrite !occurs_append, Hx, Hsep, (IH Hrest). reflexivity.
Qed.

Lemma occurs_uint (c : ascii) (u : Decimal.uint) :
  isDigit c = false -> occurs c (NilEmpty.string_of_uint u) = false.
Proof.
  intros Hc. induction u as [|u IH|u IH|u IH|u IH|u IH|u IH|u IH|u IH|u IH|u IH];
    cbn [NilEmpty.string_of_uint occurs]; [reflexivity|..]; rewrite IH, orb_false_r;
    match goal with
    | |- context [Ascii.eqb ?a c] =>
        destruct (Ascii.eqb a c) eqn:E; [|reflexivity];
        apply Ascii.eqb_eq in E; subst c; discriminate Hc
    end.
Qed.

Lemma occurs_digits (c : ascii) (n : N) :
  isDigit c = false -> occurs c (digits n) = false.
Proof. intros Hc. apply occurs_uint. exact Hc. Qed.

Lemma occurs_replicate (c a : ascii) (n : nat) :
  Ascii.eqb a c = false -> occurs c (replicate n a) = false.
Proof.
  intros H. induction n as [|n IH]; [reflexivity|].
  simpl. rewrite H, IH. reflexivity.
Qed.

Lemma occurs_padStart (c : ascii) (n : nat) (s : string) :
  isDigit c = false -> occurs c s = false ->
  occurs c (padStart n "0"%char s) = false.
Proof.
  intros Hd Hs. unfold padStart. rewrite occurs_append, Hs, orb_false_r.
  apply occurs_replicate.
  destruct (Ascii.eqb "0" c) eqn:E; [|reflexivity].
  apply Ascii.eqb_eq in E. subst c. discriminate Hd.
Qed.

Lemma occurs_rev_app (c : ascii) (s1 s2 : string) :
  occurs c (String.rev_app s1 s2) = occurs c s1 || occurs c s2.
Proof.
  revert s2. induction s1 as [|a s1 IH]; intros s2; [reflexivity|].
  cbn [String.rev_app occurs]. rewrite IH. cbn [occurs].
  destruct (Ascii.eqb a c), (occurs c s1), (occurs c s2); reflexivity.
Qed.

Lemma occurs_rev (c : ascii) (s : string) :
  occurs c (String.rev s) = occurs c s.
Proof. unfold String.rev. rewrite occurs_rev_app. apply orb_false_r. Qed.

(** Trimming keeps every character that is not white space. *)
Lemma occurs_trimStart (c : ascii) (s : string) :
  isSpace c = false -> occurs c (trimStart s) = occurs c s.
Proof.
  intros Hc. induction s as [|a s IH]; [reflexivity|].
  cbn [trimStart]. destruct (isSpace a) eqn:Ha; [|reflexivity].
  rewrite IH. cbn [occurs].
  destruct (Ascii.eqb a c) eqn:E; [|reflexivity].
  apply Ascii.eqb_eq in E. subst a. congruence.
Qed.

Lemma occurs_trim (c : ascii) (s : string) :
  isSpace c = false -> occurs c (trim s) = occurs c s.
Proof.
  intros Hc. unfold trim.
  rewrite occurs_rev, (occurs_trimStart c _ Hc), occurs_rev.
  apply occurs_trimStart. exact Hc.
Qed.

Lemma fromFirst_occurs (c : ascii) (s rest : string) :
  fromFirst c s = Some rest -> occurs c s = true.
Proof.
  induction s as [|a s IH]; intros H; [discriminate|].
  cbn [fromFirst] in H. cbn [occurs].
  destruct (Ascii.eqb a c); [reflexivity|]. apply IH. exact H.
Qed.

(** A text with a delimited match is not blank. *)
Lemma matchDelimited_not_blank (opening closing : ascii) (text m : string) :
  isSpace opening = false ->
  matchDelimited opening closing text = Some m ->
  String.eqb text "" || String.eqb (trim text) "" = false.
Proof.
  intros Hsp Hm. unfold matchDelimited in Hm.
  destruct (fromFirst opening text) as [suffix|] eqn:Hf; [|discriminate].
  pose proof (fromFirst_occurs _ _ _ Hf) as Hocc.
  pose proof (occurs_trim opening text Hsp) as Htrim. rewrite Hocc in Htrim.
  destruct text as [|a text]; [discriminate Hocc|].
  destruct (trim (String a text)) as [|b t]; [discriminate Htrim|].
  reflexivity.
Qed.

End TextFacts.

(** ** ReportsPage: the CSV export *)

Module CsvFacts.
Import JsDate JsDateFacts Text TextFacts DateFormat Model ReportsPage TrendFacts.

Lemma comma_plain : plainSeparator comma.
Proof. split; reflexivity. Qed.

Lemma newline_plain : plainSeparator newline.
Proof. split; reflexivity. Qed.

Lemma occurs_addLeadingZeros (c : ascii) (n : Z) (len : nat) :
  plainSeparator c -> occurs c (addLeadingZeros n len) = false.
Proof.
  intros [Hd Hm]. unfold addLeadingZeros. cbv zeta.
  rewrite occurs_append.
  rewrite occurs_padStart by (try exact Hd; apply occurs_digits; exact Hd).
  rewrite orb_false_r. destruct (n <? 0)%Z; [|reflexivity].
  cbn [occurs]. rewrite Hm. reflexivity.
Qed.

(** A formatted date holds digits and minus signs only. *)
Lemma occurs_format_date (c : ascii) (d : Date) :
  plainSeparator c -> occurs c (format_yyyy_MM_dd d) = false.
Proof.
  intros Hc. unfold format_yyyy_MM_dd, format_yyyy, format_MM, format_dd.
  cbv zeta. rewrite !occurs_append.
  rewrite !(occurs_addLeadingZeros c) by exact Hc.
  destruct Hc as [_ Hm]. cbn [occurs]. rewrite Hm. reflexivity.
Qed.

Lemma occurs_typeName (c : ascii) (ty : TransactionType) :
  occurs c "income" = false -> occurs c "expense" = false ->
  occurs c (typeName ty) = false.
Proof. intros Hi He. destruct ty; assumption. Qed.

(** The period filter of the export selects the transactions dated in
    the selected month or year. *)
Lemma period_filter (reportType : ReportType) (selectedPeriod : Date)
      (transactions : list Transaction) :
  List.filter (dateBetween (periodStart reportType selectedPeriod)
                           (periodEnd reportType selectedPeriod)) transactions
  = List.filter (Spec.inSelectedPeriod reportType selectedPeriod) transactions.
Proof.
  apply List.filter_ext. intros t.
  destruct reportType; simpl; [apply dateBetween_month | apply dateBetween_year].
Qed.

Lemma length_zero_iff {A} (l : list A) : Nat.eqb (length l) 0 = true <-> l = [].
Proof.
  destruct l; simpl; split; intros H; try reflexivity; discriminate.
Qed.

Section CsvExport.
Variable Number_toString : Q -> string.

(** The cells of a row without a separator [c], when the printed amount
    and the three text fields are free of [c]. *)
Lemma csvRow_cells_free (c : ascii) (accounts : list Account) (t : Transaction) :
  plainSeparator c ->
  occurs c "income" = false -> occurs c "expense" = false ->
  occurs c (Number_toString (tx_amount t)) = false ->
  occurs c (tx_category t) = false ->
  occurs c (tx_description t) = false ->
  occurs c (accountName accounts t) = false ->
  Forall (fun cell => occurs c cell = false) (csvRow Number_toString accounts t).
Proof.
  intros Hc Hi He Hn Hcat Hdesc Hacc. unfold csvRow.
  repeat constructor; try assumption.
  - apply occurs_format_date. exact Hc.
  - apply occurs_typeName; assumption.
Qed.

(** The account cell of a row is the resolved account name. *)
Lemma accountName_resolved (accounts : list Account) (t : Transaction) :
  accountName accounts t = Spec.resolvedAccountName accounts (tx_accountId t).
Proof.
  unfold accountName. induction accounts as [|account others IH]; [reflexivity|].
  cbn [find Spec.resolvedAccountName].
  destruct (String.eqb (acc_id account) (tx_accountId t)); [|exact IH].
  destruct (acc_name account); reflexivity.
Qed.

(** A row of the file, its cells joined by commas. *)
Lemma csvRow_line (accounts : list Account) (t : Transaction) :
  join "," (csvRow Number_toString accounts t)
  = Spec.rowLine Number_toString accounts t.
Proof.
  unfold csvRow, Spec.rowLine. rewrite accountName_resolved.
  destruct (tx_type t); reflexivity.
Qed.

(** The lines of the file, joined by line feeds. *)
Lemma join_lines (first : string) (rest : list string) :
  join (String newline "") (first :: rest) = Spec.linesText first rest.
Proof.
  revert first. induction rest as [|next others IH]; intros first; [reflexivity|].
  change (join (String newline "") (first :: next :: others))
    with (first +:+ String newline "" +:+ join (String newline "") (next :: others)).
  rewrite IH. reflexivity.
Qed.

(** C8: the CSV export is a function of the loaded accounts and
    transactions and of the selected period.  When no loaded transaction is
    dated in the selected month (or year) it shows an error toast and offers
    no file.  Otherwise it offers a file whose first line is the header
    [Date,Type,Amount,Category,Description,Account] and whose next lines
    are, in the order of the list, one per transaction dated in the period:
    the date as year-month-day, [income] or [expense], the amount, the
    category, the description, and the name of the first loaded account
    with the account id of the transaction ([Unknown] without one, or
    when that name is empty), with commas between them. *)
Theorem downloadCSV_rows (accounts : list Account)
        (transactions : list Transaction)
        (reportType : ReportType) (selectedPeriod : Date) :
  downloadCSV Number_toString accounts transactions reportType selectedPeriod
  = match List.filter (Spec.inSelectedPeriod reportType selectedPeriod)
                      transactions with
    | [] =>
        ToastError (if Nat.eqb (length transactions) 0
                    then "No transactions to export"
                    else "No transactions in selected period to export")
    | inPeriod =>
        Downloaded
          ("transactions-" +:+ format_yyyy_MM selectedPeriod +:+ ".csv")
          (Spec.linesText
             "Date,Type,Amount,Category,Description,Account"
             (map (fun t =>
                     format_yyyy_MM_dd (tx_date t) +:+ ","
                     +:+ match tx_type t with
                         | income => "income"
                         | expense => "expense"
                         end +:+ ","
                     +:+ Number_toString (tx_amount t) +:+ ","
                     +:+ tx_category t +:+ ","
                     +:+ tx_description t +:+ ","
                     +:+ Spec.resolvedAccountName accounts (tx_accountId t))
                  inPeriod))
          "CSV downloaded successfully!"
    end.
Proof.
  unfold downloadCSV. cbv zeta. rewrite period_filter.
  destruct (Nat.eqb (length transactions) 0) eqn:Hall.
  - apply length_zero_iff in Hall. subst transactions. reflexivity.
  - destruct (List.filter (Spec.inSelectedPeriod reportType selectedPeriod)
                          transactions) as [|t rest]; [reflexivity|].
    f_equal. unfold csvContent.
    change (map (join ",") (csvHeader :: map (csvRow Number_toString accounts) (t :: rest)))
      with ("Date,Type,Amount,Category,Description,Account"
            :: map (join ",") (map (csvRow Number_toString accounts) (t :: rest))).
    rewrite join_lines, map_map. f_equal.
    apply map_ext. intros t'. apply csvRow_line.
Qed.

(** What [Number.prototype.toString] never prints. *)
Hypothesis Number_toString_plain :
  forall q, occurs comma (Number_toString q) = false
            /\ occurs newline (Number_toString q) = false.

(** Splitting a row, and the row as one line. *)
Lemma csvRow_split (accounts : list Account) (t : Transaction) :
  occurs comma (tx_category t) = false ->
  occurs comma (tx_description t) = false ->
  occurs comma (accountName accounts t) = false ->
  split comma (join "," (csvRow Number_toString accounts t))
  = csvRow Number_toString accounts t.
Proof.
  intros Hc1 Hc2 Hc3.
  destruct (Number_toString_plain (tx_amount t)) as [Hca _].
  apply (split_join comma); [discriminate|].
  apply csvRow_cells_free; try assumption; try reflexivity.
  apply comma_plain.
Qed.

Lemma csvRow_one_line (accounts : list Account) (t : Transaction) :
  occurs newline (tx_category t) = false ->
  occurs newline (tx_description t) = false ->
  occurs newline (accountName accounts t) = false ->
  occurs newline (join "," (csvRow Number_toString accounts t)) = false.
Proof.
  intros Hn1 Hn2 Hn3.
  destruct (Number_toString_plain (tx_amount t)) as [_ Hna].
  apply occurs_join; [reflexivity|].
  apply csvRow_cells_free; try assumption; try reflexivity.
  apply newline_plain.
Qed.

(** C10: for a transaction whose category, description and resolved
    account name hold no comma and no line feed, the exported row is one
    line, and splitting it on commas gives back exactly the six cells:
    date, type, amount, category, description, account name. *)
Theorem csv_row_round_trip (accounts : list Account) (t : Transaction) :
  occurs comma (tx_category t) = false ->
  occurs newline (tx_category t) = false ->
  occurs comma (tx_description t) = false ->
  occurs newline (tx_description t) = false ->
  occurs comma (accountName accounts t) = false ->
  occurs newline (accountName accounts t) = false ->
  split comma (join "," (csvRow Number_toString accounts t))
  = [ format_yyyy_MM_dd (tx_date t);
      typeName (tx_type t);
      Number_toString (tx_amount t);
      tx_category t;
      tx_description t;
      accountName accounts t ]
  /\ occurs newline (join "," (csvRow Number_toString accounts t)) = false.
Proof.
  intros Hc1 Hn1 Hc2 Hn2 Hc3 Hn3. split.
  - apply csvRow_split; assumption.
  - apply csvRow_one_line; assumption.
Qed.

(** The whole file: cutting the content into lines and the lines into
    cells gives the header and the rows back. *)
Lemma csv_file_round_trip (accounts : list Account)
      (periodTransactions : list Transaction) :
  Forall (fun t =>
            occurs comma (tx_category t) = false
            /\ occurs newline (tx_category t) = false
            /\ occurs comma (tx_description t) = false
            /\ occurs newline (tx_description t) = false
            /\ occurs comma (accountName accounts t) = false
            /\ occurs newline (accountName accounts t) = false)
         periodTransactions ->
  map (split comma)
      (split newline (csvContent Number_toString accounts periodTransactions))
  = csvHeader :: map (csvRow Number_toString accounts) periodTransactions.
Proof.
  intros Hall. unfold csvContent. rewrite List.Forall_forall in Hall.
  rewrite (split_join newline).
  - cbn [map]. f_equal.
    rewrite !map_map. apply map_ext_in. intros t Ht.
    destruct (Hall t Ht) as (H1 & H2 & H3 & H4 & H5 & H6).
    apply csvRow_split; assumption.
  - discriminate.
  - cbn [map]. constructor; [reflexivity|].
    rewrite !List.Forall_map. apply List.Forall_forall. intros t Ht.
    destruct (Hall t Ht) as (H1 & H2 & H3 & H4 & H5 & H6).
    apply csvRow_one_line; assumption.
Qed.

End CsvExport.

Lemma occurs_fractionDigits (c : ascii) (fuel : nat) (r den : Z) :
  isDigit c = false -> occurs c (Samples.fractionDigits fuel r den) = false.
Proof.
  intros Hc. revert r. induction fuel as [|fuel IH]; intros r; [reflexivity|].
  cbn [Samples.fractionDigits]. destruct (r =? 0)%Z; [reflexivity|].
  rewrite occurs_append, occurs_digits, IH by exact Hc. reflexivity.
Qed.

(** The sample printer prints digits, a minus sign and a point. *)
Lemma occurs_decimalString (c : ascii) (q : Q) :
  plainSeparator c -> Ascii.eqb "." c = false ->
  occurs c (Samples.decimalString q) = false.
Proof.
  intros [Hd Hm] Hp. unfold Samples.decimalString. cbv zeta.
  rewrite !occurs_append, occurs_digits by exact Hd.
  assert (Hsign : occurs c (if (Qnum q <? 0)%Z then "-" else "") = false).
  { destruct (Qnum q <? 0)%Z; [|reflexivity]. cbn [occurs]. rewrite Hm. reflexivity. }
  rewrite Hsign. cbn [orb].
  destruct (Z.abs (Qnum q) mod Z.pos (Qden q) =? 0)%Z; [reflexivity|].
  rewrite occurs_append, occurs_fractionDigits by exact Hd.
  cbn [occurs]. rewrite Hp. reflexivity.
Qed.

Lemma decimalString_plain (q : Q) :
  occurs comma (Samples.decimalString q) = false
  /\ occurs newline (Samples.decimalString q) = false.
Proof.
  split; apply occurs_decimalString;
    first [apply comma_plain | apply newline_plain | reflexivity].
Qed.

(** The row of the sample grocery bill, whose account has an empty name. *)
Lemma csv_row_round_trip_witness :
  split comma (join "," (csvRow Samples.decimalString Samples.sampleAccounts
                                Samples.sampleGroceries))
  = ["2024-03-15"; "expense"; "150.5"; "Food & Dining"; "Groceries"; "Unknown"]
  /\ occurs newline (join "," (csvRow Samples.decimalString Samples.sampleAccounts
                                     Samples.sampleGroceries)) = false.
Proof.
  apply (csv_row_round_trip Samples.decimalString decimalString_plain
           Samples.sampleAccounts Samples.sampleGroceries);
    reflexivity.
Defined.

(** Cells are neither quoted nor escaped: a comma in the description cuts
    the row into seven cells. *)
Example comma_in_description_cuts_the_row :
  split comma (join "," (csvRow Samples.decimalString Samples.sampleAccounts
                                Samples.sampleDinner))
  = ["2024-03-15"; "expense"; "80"; "Food & Dining"; "Dinner"; " with tip";
     "Savings"].
Proof. reflexivity. Qed.

(** The export of the sample data for March 2024. *)
Example downloadCSV_march :
  downloadCSV Samples.decimalString Samples.sampleAccounts
              Samples.sampleTransactions monthly Samples.sampleMarch
  = Downloaded "transactions-2024-03.csv"
      (join (String newline "")
         [ "Date,Type,Amount,Category,Description,Account";
           "2024-03-15,expense,150.5,Food & Dining,Groceries,Unknown";
           "2024-03-08,income,1000,Salary,March salary,Savings" ])
      "CSV downloaded successfully!".
Proof. reflexivity. Qed.

End CsvFacts.

(** ** utils/gemini.ts: the fallbacks *)

Module GeminiFacts.
Import JsDate Text TextFacts DateFormat Js JsFacts Model Gemini.

(** *** Receipt extraction *)

Section Receipt.
Variable JSON_parse : string -> Completion JsValue.
Variable random : Q.
Variable now : Date.

(** A blank text has no delimited match, so the check of the text in the
    current revision rejects nothing that could have been parsed. *)
Lemma responseText_no_text (outcome : ModelOutcome) :
  (forall text, outcome <> Text text) ->
  exists e, responseText outcome = Throw e
            /\ exists e', GeminiLegacy.responseText outcome = Throw e'.
Proof.
  intros H. destruct outcome as [e| |e|text]; simpl; eauto.
  exfalso. apply (H text). reflexivity.
Qed.

(** C2: when no parseable JSON object is obtained from the model response
    (the call or the text throws, there is no response, the text has no
    brace-delimited match, or [JSON.parse] throws), [extractReceiptData]
    throws nothing and returns the placeholder: vendor "Sample Store",
    a random whole amount, today's date and category "Shopping".  This
    holds in both revisions of the file. *)
Theorem extractReceiptData_fallback (outcome : ModelOutcome) :
  Spec.parsedReceipt JSON_parse outcome = None ->
  let placeholder :=
    JObj [ ("vendor", JStr "Sample Store");
           ("amount", JNum (inject_Z (Qfloor (random * 1000)) + 100)%Q);
           ("date", JStr (todayISO now));
           ("category", JStr "Shopping") ] in
  Gemini.extractReceiptData JSON_parse random now outcome = Return placeholder
  /\ GeminiLegacy.extractReceiptData JSON_parse random now outcome
     = Return placeholder.
Proof.
  intros Hnone. cbv zeta.
  unfold Gemini.extractReceiptData, GeminiLegacy.extractReceiptData.
  destruct outcome as [e| |e|text]; try (split; reflexivity).
  cbn [Spec.parsedReceipt] in Hnone.
  cbn [responseText GeminiLegacy.responseText].
  destruct (matchDelimited "{" "}" text) as [jsonMatch|] eqn:Hmatch.
  - destruct (JSON_parse jsonMatch) as [value|e] eqn:Hparse; [discriminate Hnone|].
    destruct (String.eqb text "" || String.eqb (trim text) "");
      cbn [bind try_catch]; rewrite ?Hmatch, ?Hparse; split; reflexivity.
  - destruct (String.eqb text "" || String.eqb (trim text) "");
      cbn [bind try_catch]; rewrite ?Hmatch; split; reflexivity.
Qed.

End Receipt.

(** No JSON in the text, a parser that knows one object: the placeholder. *)
Lemma extractReceiptData_fallback_witness :
  Gemini.extractReceiptData (Samples.parseOnly "{}" (JObj [])) (1 # 2)
                            Samples.sampleNow (Text "I cannot read this image.")
  = Return (JObj [ ("vendor", JStr "Sample Store");
                   ("amount", JNum 600);
                   ("date", JStr "2024-02-29");
                   ("category", JStr "Shopping") ])
  /\ GeminiLegacy.extractReceiptData (Samples.parseOnly "{}" (JObj [])) (1 # 2)
                                     Samples.sampleNow (Text "I cannot read this image.")
     = Return (JObj [ ("vendor", JStr "Sample Store");
                      ("amount", JNum 600);
                      ("date", JStr "2024-02-29");
                      ("category", JStr "Shopping") ]).
Proof.
  apply (extractReceiptData_fallback (Samples.parseOnly "{}" (JObj [])) (1 # 2)
           Samples.sampleNow (Text "I cannot read this image.")).
  reflexivity.
Defined.

(** *** Insights from the model *)

Section Insights.
Variable JSON_parse : string -> Completion JsValue.
Variable toFixed1 : jsnum -> string.
Variable toLocaleString : Q -> string.

Lemma getProp_fieldOf (v : JsValue) (key : string) :
  Spec.nullish v = false -> getProp v key = Return (Spec.fieldOf v key).
Proof. destruct v; intros H; try discriminate H; reflexivity. Qed.

Lemma normalizeInsight_defaults (v : JsValue) :
  Spec.nullish v = false -> normalizeInsight v = Return (Spec.withDefaults v).
Proof.
  intros H. unfold normalizeInsight. rewrite !(getProp_fieldOf v _ H).
  reflexivity.
Qed.

Lemma normalizeInsight_nullish (v : JsValue) :
  Spec.nullish v = true -> exists e, normalizeInsight v = Throw e.
Proof.
  destruct v; intros H; try discriminate H; eexists; reflexivity.
Qed.

Lemma mapM_defaults (items : list JsValue) :
  forallb (fun v => negb (Spec.nullish v)) items = true ->
  mapM normalizeInsight items = Return (map Spec.withDefaults items).
Proof.
  induction items as [|v items IH]; intros H; [reflexivity|].
  cbn [forallb] in H. apply andb_prop in H. destruct H as [Hv Hrest].
  apply negb_true_iff in Hv.
  cbn [mapM map]. rewrite (normalizeInsight_defaults v Hv). cbn [bind].
  rewrite (IH Hrest). reflexivity.
Qed.

Lemma mapM_nullish (items : list JsValue) :
  forallb (fun v => negb (Spec.nullish v)) items = false ->
  exists e, mapM normalizeInsight items = Throw e.
Proof.
  induction items as [|v items IH]; intros H; [discriminate H|].
  cbn [forallb] in H. cbn [mapM].
  destruct (Spec.nullish v) eqn:Hv.
  - destruct (normalizeInsight_nullish v Hv) as [e He]. rewrite He.
    exists e. reflexivity.
  - rewrite (normalizeInsight_defaults v Hv). cbn [bind].
    destruct (IH H) as [e He]. rewrite He. exists e. reflexivity.
Qed.

(** What [generateFinancialInsights] returns for a parsed array. *)
Lemma generateFinancialInsights_parsed
      (transactions : list Transaction) (accounts : list Account)
      (text jsonMatch : string) (items : list JsValue) :
  matchDelimited "[" "]" text = Some jsonMatch ->
  JSON_parse jsonMatch = Return (JArr items) ->
  generateFinancialInsights JSON_parse toFixed1 toLocaleString
                            transactions accounts (Text text)
  = Return (if forallb (fun v => negb (Spec.nullish v)) items
            then map Spec.withDefaults items
            else generateFallbackInsights toFixed1 toLocaleString transactions).
Proof.
  intros Hmatch Hparse. unfold generateFinancialInsights.
  cbn [responseText].
  rewrite (matchDelimited_not_blank "[" "]" text jsonMatch eq_refl Hmatch).
  cbn [bind]. rewrite Hmatch. unfold parseInsights. rewrite Hparse. cbn [bind].
  destruct (forallb (fun v => negb (Spec.nullish v)) items) eqn:Hall.
  - rewrite (mapM_defaults items Hall). reflexivity.
  - destruct (mapM_nullish items Hall) as [e He]. rewrite He. reflexivity.
Qed.

(** Without a text, or with a text that has no bracket-delimited match,
    [generateFinancialInsights] returns the rule-based insights. *)
Lemma generateFinancialInsights_fallback
      (transactions : list Transaction) (accounts : list Account)
      (outcome : ModelOutcome) :
  match outcome with
  | Text text => matchDelimited "[" "]" text = None
  | _ => True
  end ->
  generateFinancialInsights JSON_parse toFixed1 toLocaleString
                            transactions accounts outcome
  = Return (generateFallbackInsights toFixed1 toLocaleString transactions).
Proof.
  unfold generateFinancialInsights.
  destruct outcome as [e| |e|text]; intros H; try reflexivity.
  cbn [responseText].
  destruct (String.eqb text "" || String.eqb (trim text) ""); cbn [bind try_catch];
    rewrite ?H; reflexivity.
Qed.

(** C3, as amended: for every insights array parsed from the model
    response, if no element is [null] the returned insights are the parsed
    ones with each missing or falsy field replaced by its default (type
    "info", title "Financial Insight", message "No message available",
    recommendation [undefined]), and otherwise they are the rule-based
    fallback insights.  A truthy type is returned as it is, without a check
    against the declared union: the returned type is one of "positive",
    "warning", "info" exactly when the parsed type is missing or falsy, or
    is one of these three. *)
Theorem generateFinancialInsights_defaults
        (transactions : list Transaction) (accounts : list Account)
        (text jsonMatch : string) (items : list JsValue) :
  matchDelimited "[" "]" text = Some jsonMatch ->
  JSON_parse jsonMatch = Return (JArr items) ->
  generateFinancialInsights JSON_parse toFixed1 toLocaleString
                            transactions accounts (Text text)
  = Return (if forallb (fun v => negb (Spec.nullish v)) items
            then map Spec.withDefaults items
            else generateFallbackInsights toFixed1 toLocaleString transactions)
  /\ forall insight : JsValue,
       In (ins_type (Spec.withDefaults insight)) declaredTypes
       <-> (truthy (Spec.fieldOf insight "type") = false
            \/ In (Spec.fieldOf insight "type") declaredTypes).
Proof.
  intros Hmatch Hparse. split.
  - apply (generateFinancialInsights_parsed _ _ _ jsonMatch); assumption.
  - intros insight. unfold Spec.withDefaults. cbn [ins_type].
    destruct (truthy (Spec.fieldOf insight "type")) eqn:Ht.
    + split; [intros H; right; exact H | intros [H|H]; [discriminate H|exact H]].
    + split; [intros _; left; reflexivity | intros _; right; right; left; reflexivity].
Qed.

End Insights.

(** Two parsed insights, the second with a title only. *)
Lemma generateFinancialInsights_defaults_witness :
  generateFinancialInsights (Samples.parseOnly Samples.tipsJson Samples.tipsValue)
                            Samples.showJsnum Samples.decimalString
                            Samples.sampleTransactions Samples.sampleAccounts
                            (Text Samples.tipsJson)
  = Return [ {| ins_type := JStr "warning"; ins_title := JStr "Dining";
                ins_message := JStr "Eating out a lot";
                ins_recommendation := JUndefined |};
             {| ins_type := JStr "info"; ins_title := JStr "Tip";
                ins_message := JStr "No message available";
                ins_recommendation := JUndefined |} ].
Proof.
  apply (generateFinancialInsights_defaults
           (Samples.parseOnly Samples.tipsJson Samples.tipsValue)
           Samples.showJsnum Samples.decimalString
           Samples.sampleTransactions Samples.sampleAccounts
           Samples.tipsJson Samples.tipsJson
           [ JObj [("type", JStr "warning"); ("title", JStr "Dining");
                   ("message", JStr "Eating out a lot")];
             JObj [("title", JStr "Tip")] ]);
    reflexivity.
Defined.

(** C3 as it was stated fails: the model answers with an insight of type
    "danger"; the insight is returned with that type, which is not in the
    declared union. *)
Lemma insight_type_not_validated :
  generateFinancialInsights (Samples.parseOnly Samples.dangerJson Samples.dangerValue)
                            Samples.showJsnum Samples.decimalString
                            [] [] (Text Samples.dangerText)
  = Return [ {| ins_type := JStr "danger";
                ins_title := JStr "Financial Insight";
                ins_message := JStr "No message available";
                ins_recommendation := JUndefined |} ]
  /\ ~ In (JStr "danger") declaredTypes.
Proof.
  split; [reflexivity|].
  intros [H|[H|[H|[]]]]; discriminate H.
Qed.

End GeminiFacts.

(** ** utils/gemini.ts: the rule-based insights on IEEE 754 numbers *)

Module FallbackFacts.
Import Text Js Model Fallback.
Import Gemini(AnalysisInsight, Build_AnalysisInsight,
              ins_type, ins_title, ins_message, ins_recommendation).
#[local] Open Scope float_scope.

(** The sum of no amount is zero, which is not above zero. *)
Lemma positive_income_not_empty (transactions : list Transaction) :
  (0 <? totalIncome transactions) = true -> transactions <> [].
Proof. intros H Hnil. subst transactions. discriminate H. Qed.

Lemma length_not_empty {A} (l : list A) : l <> [] -> Nat.eqb (length l) 0 = false.
Proof. destruct l; [congruence|reflexivity]. Qed.

(** *** The dictionary of the categories *)

Lemma getOwn_In (key : string) (v : Value) (own : list (string * Value)) :
  getOwn key own = Some v -> In (key, v) own.
Proof.
  induction own as [|[k w] rest IH]; cbn [getOwn]; [discriminate|].
  destruct (String.eqb k key) eqn:E.
  - intros H. injection H as H. subst w. apply String.eqb_eq in E. subst k.
    left. reflexivity.
  - intros H. right. apply IH. exact H.
Qed.

Lemma setOwn_keys (key k : string) (v : Value) (own : list (string * Value)) :
  In k (map fst (setOwn key v own)) <-> k = key \/ In k (map fst own).
Proof.
  induction own as [|[k' w] rest IH]; cbn [setOwn map fst In].
  - intuition congruence.
  - destruct (String.eqb k' key) eqn:E; cbn [map fst In].
    + apply String.eqb_eq in E. subst k'. intuition congruence.
    + rewrite IH. intuition congruence.
Qed.

Lemma insertIndexed_perm (e : N * (string * Value))
      (l : list (N * (string * Value))) :
  Permutation (insertIndexed e l) (e :: l).
Proof.
  induction l as [|f l IH]; cbn [insertIndexed]; [reflexivity|].
  destruct (fst e <? fst f)%N; [reflexivity|].
  rewrite IH. apply perm_swap.
Qed.

(** [Object.entries] lists each own property once. *)
Lemma Object_entries_perm (own : list (string * Value)) :
  Permutation (Object_entries own) own.
Proof.
  unfold Object_entries. cbv zeta.
  assert (Hsorted : forall l : list (N * (string * Value)),
             Permutation (fold_right insertIndexed [] l) l).
  { induction l as [|e l IH]; cbn [fold_right]; [reflexivity|].
    rewrite insertIndexed_perm, IH. reflexivity. }
  rewrite Hsorted.
  induction own as [|e rest IH]; [reflexivity|].
  cbn [flat_map List.filter].
  destruct (arrayIndex (fst e)); cbn [app map snd].
  - apply perm_skip. exact IH.
  - rewrite <- Permutation_middle. apply perm_skip. exact IH.
Qed.

Lemma insertEntry_keeps (e : string * Value) (l : list (string * Value)) :
  Permutation (insertEntry e l) (e :: l).
Proof.
  induction l as [|f l IH]; cbn [insertEntry]; [reflexivity|].
  destruct (0 <? compareFn e f); [|reflexivity].
  rewrite IH. apply perm_swap.
Qed.

(** Sorting keeps the entries. *)
Lemma sortEntries_keeps (l : list (string * Value)) :
  Permutation (sortEntries l) l.
Proof.
  unfold sortEntries. induction l as [|e l IH]; cbn [fold_right]; [reflexivity|].
  rewrite insertEntry_keeps, IH. reflexivity.
Qed.

Section WithBuiltins.
Variable toFixed1 : float -> string.
Variable toLocaleString : float -> string.
Variable Number_toString : float -> string.
Variable Function_toString : string -> string.

(** The savings-rate block of the current revision, when the total
    income is above zero and the rate is above 20. *)
Lemma savingsInsights_high (transactions : list Transaction) :
  (0 <? totalIncome transactions) = true ->
  (20 <? ((totalIncome transactions - totalExpenses transactions)
          / totalIncome transactions) * 100) = true ->
  savingsInsights toFixed1 toLocaleString transactions
  = [ {| ins_type := JStr "positive";
         ins_title := JStr "Excellent Savings Rate";
         ins_message :=
           JStr ("Your savings rate is " +:+
                 toFixed1 (((totalIncome transactions - totalExpenses transactions)
                            / totalIncome transactions) * 100) +:+
                 "%. You're doing great at managing your finances!");
         ins_recommendation :=
           JStr "Consider investing your surplus savings for better returns." |} ].
Proof.
  intros Hincome Hrate. unfold savingsInsights, savingsRate. cbv zeta.
  rewrite Hincome, Hrate. reflexivity.
Qed.

(** The same block of the earlier revision, for a list that is not
    empty. *)
Lemma legacySavingsInsights_high (transactions : list Transaction) :
  transactions <> [] ->
  (20 <? ((totalIncome transactions - totalExpenses transactions)
          / totalIncome transactions) * 100) = true ->
  legacySavingsInsights toFixed1 transactions
  = [ {| ins_type := JStr "positive";
         ins_title := JStr "Excellent Savings Rate";
         ins_message :=
           JStr ("Your savings rate is " +:+
                 toFixed1 (((totalIncome transactions - totalExpenses transactions)
                            / totalIncome transactions) * 100) +:+
                 "%. You're doing great at managing your finances!");
         ins_recommendation :=
           JStr "Consider investing your surplus savings for better returns." |} ].
Proof.
  intros Hne Hrate. unfold legacySavingsInsights, legacySavingsRate. cbv zeta.
  destruct transactions as [|t l]; [congruence|].
  cbn [length Nat.ltb Nat.leb]. rewrite Hrate. reflexivity.
Qed.

(** C7.  Let the income be the sum of the amounts of the income
    transactions, the expenses the sum of the amounts of the expense
    transactions, and the rate the income minus the expenses, divided by
    the income, times 100, all in the arithmetic of the language.  When the
    rate is above 20, the insights of the current revision include, if the
    income is above zero, the insight of type "positive" with the title
    "Excellent Savings Rate" whose message gives the rate with one
    decimal; the insights of the earlier revision include it for every
    list that is not empty. *)
Theorem positive_insight_for_high_savings_rate (transactions : list Transaction) :
  let income :=
    fold_left (fun sum t => sum + amount t)
      (List.filter (fun t => match type t with income => true | expense => false end)
                   transactions) 0 in
  let expenses :=
    fold_left (fun sum t => sum + amount t)
      (List.filter (fun t => match type t with income => false | expense => true end)
                   transactions) 0 in
  let rate := ((income - expenses) / income) * 100 in
  let insight :=
    {| ins_type := JStr "positive";
       ins_title := JStr "Excellent Savings Rate";
       ins_message :=
         JStr ("Your savings rate is " +:+ toFixed1 rate +:+
               "%. You're doing great at managing your finances!");
       ins_recommendation :=
         JStr "Consider investing your surplus savings for better returns." |} in
  (20 <? rate) = true ->
  ((0 <? income) = true ->
   In insight
      (generateFallbackInsights toFixed1 toLocaleString Number_toString
                                Function_toString transactions))
  /\ (transactions <> [] ->
      In insight
         (legacyFallbackInsights toFixed1 toLocaleString Number_toString
                                 Function_toString transactions)).
Proof.
  cbv zeta. intros Hrate. split.
  - intros Hincome. unfold generateFallbackInsights.
    rewrite (length_not_empty transactions
               (positive_income_not_empty transactions Hincome)).
    rewrite (savingsInsights_high transactions Hincome Hrate).
    left. reflexivity.
  - intros Hne. unfold legacyFallbackInsights.
    rewrite (legacySavingsInsights_high transactions Hne Hrate).
    left. reflexivity.
Qed.


(** A step of the reduction: a category other than [__proto__] has a
    property afterwards, and no other key is added. *)
Lemma addToCategory_keys (acc : list (string * Value)) (t : Transaction)
      (k : string) :
  ~ In "__proto__"%string (map fst acc) ->
  (In k (map fst (addToCategory Number_toString Function_toString acc t))
   <-> In k (map fst acc)
       \/ (k = category t /\ String.eqb (category t) "__proto__" = false)).
Proof.
  intros Hproto. unfold addToCategory. cbv zeta.
  destruct (String.eqb (category t) "__proto__") eqn:E.
  - apply String.eqb_eq in E.
    destruct (getOwn (category t) acc) as [v|] eqn:Hget.
    + exfalso. apply Hproto. rewrite <- E.
      apply getOwn_In in Hget. apply (in_map fst) in Hget. exact Hget.
    + intuition congruence.
  - destruct (getOwn (category t) acc) as [[v|s]|];
      repeat match goal with
             | |- context [if ?b then _ else _] => destruct b
             end;
      rewrite setOwn_keys; intuition congruence.
Qed.

(** The keys of the dictionary are the categories of the expenses, but
    for [__proto__]. *)
Lemma fold_addToCategory_keys (l : list Transaction)
      (acc : list (string * Value)) (k : string) :
  ~ In "__proto__"%string (map fst acc) ->
  (In k (map fst (fold_left (addToCategory Number_toString Function_toString) l acc))
   <-> In k (map fst acc)
       \/ exists t, In t l /\ category t = k
                    /\ String.eqb k "__proto__" = false).
Proof.
  revert acc. induction l as [|t l IH]; intros acc Hproto; cbn [fold_left].
  - split; [tauto|]. intros [H|[t [[] _]]]. exact H.
  - rewrite IH.
    + rewrite addToCategory_keys by exact Hproto. split.
      * intros [[H|[Hk He]]|[t' [Hin [Hc He]]]].
        -- left. exact H.
        -- right. exists t. subst k. repeat split; [left; reflexivity|exact He].
        -- right. exists t'. repeat split; [right; exact Hin|exact Hc|exact He].
      * intros [H|[t' [[Hin|Hin] [Hc He]]]].
        -- left. left. exact H.
        -- subst t'. left. right. subst k. split; [reflexivity|exact He].
        -- right. exists t'. repeat split; assumption.
    + intros Hin. apply addToCategory_keys in Hin; [|exact Hproto].
      destruct Hin as [Hin|[Hk He]]; [exact (Hproto Hin)|].
      rewrite <- Hk in He. discriminate He.
Qed.

Lemma ofType_expense (t : Transaction) (l : list Transaction) :
  In t (ofType expense l) <-> In t l /\ type t = expense.
Proof.
  unfold ofType. rewrite List.filter_In.
  destruct (type t); cbn; intuition congruence.
Qed.

(** The entry reported, when there is one, is a property of the
    dictionary stored under the category of an expense; there is none
    exactly when every expense has the category [__proto__]. *)
Lemma topExpenseEntry_cases (transactions : list Transaction) :
  match topExpenseEntry Number_toString Function_toString transactions with
  | Some (key, v) =>
      In (key, v)
         (expenseCategories Number_toString Function_toString transactions)
      /\ exists t, In t transactions /\ type t = expense /\ category t = key
                   /\ String.eqb key "__proto__" = false
  | None =>
      forall t, In t transactions -> type t = expense ->
                category t = "__proto__"%string
  end.
Proof.
  unfold topExpenseEntry.
  set (own := expenseCategories Number_toString Function_toString transactions).
  assert (Hperm : Permutation (sortEntries (Object_entries own)) own).
  { rewrite sortEntries_keeps. apply Object_entries_perm. }
  assert (Hkeys : forall k,
             In k (map fst own)
             <-> exists t, In t (ofType expense transactions) /\ category t = k
                           /\ String.eqb k "__proto__" = false).
  { intros k. unfold own, expenseCategories.
    rewrite fold_addToCategory_keys by (intros []). cbn [map In]. tauto. }
  destruct (sortEntries (Object_entries own)) as [|[key v] rest]; cbn [hd_error].
  - apply Permutation_nil in Hperm.
    intros t Hin Hty.
    destruct (String.eqb (category t) "__proto__") eqn:E;
      [apply String.eqb_eq; exact E|].
    exfalso. assert (Hk : In (category t) (map fst own)).
    { apply Hkeys. exists t. rewrite ofType_expense. auto. }
    rewrite Hperm in Hk. exact Hk.
  - assert (Hin : In (key, v) own)
      by (apply (Permutation_in _ Hperm); left; reflexivity).
    split; [exact Hin|].
    apply (in_map fst) in Hin. cbn [fst] in Hin. apply Hkeys in Hin.
    destruct Hin as [t [Ht [Hc He]]]. apply ofType_expense in Ht.
    exists t. tauto.
Qed.

(** X9.  The "Top Spending Category" insight of the current revision, on
    the object as the language defines it.  It is pushed exactly when the
    expenses add up to more than zero and some expense has a category
    other than [__proto__], under which the object gets no property.  The
    category it names is then the category of an expense, and the
    percentage and the amount shown are those of the value that the
    dictionary holds for that category. *)
Theorem categoryInsights_cases (transactions : list Transaction) :
  match categoryInsights toFixed1 toLocaleString Number_toString
                         Function_toString transactions with
  | [] =>
      (0 <? totalExpenses transactions) = false
      \/ forall t, In t transactions -> type t = expense ->
                   category t = "__proto__"%string
  | [insight] =>
      (0 <? totalExpenses transactions) = true
      /\ exists t v,
           In t transactions /\ type t = expense
           /\ String.eqb (category t) "__proto__" = false
           /\ In (category t, v)
                 (expenseCategories Number_toString Function_toString transactions)
           /\ insight
              = {| ins_type := JStr "info";
                   ins_title := JStr "Top Spending Category";
                   ins_message :=
                     JStr (category t +:+ " accounts for " +:+
                           toFixed1 ((toNumber v / totalExpenses transactions) * 100)
                           +:+ "% of your expenses (₹" +:+
                           match v with
                           | Num x => toLocaleString x
                           | Str s => s
                           end +:+ ").");
                   ins_recommendation :=
                     JStr "Monitor this category closely and look for optimization opportunities." |}
  | _ :: _ :: _ => False
  end.
Proof.
  unfold categoryInsights.
  pose proof (topExpenseEntry_cases transactions) as Htop.
  destruct (topExpenseEntry Number_toString Function_toString transactions)
    as [[key v]|].
  - destruct (0 <? totalExpenses transactions) eqn:E; [|left; reflexivity].
    split; [reflexivity|].
    destruct Htop as [Hin [t [Ht [Hty [Hc He]]]]].
    exists t, v. subst key. repeat split; assumption.
  - right. exact Htop.
Qed.

End WithBuiltins.

(** A salary of 1000 and a grocery bill of 250: a rate of 75. *)
Lemma positive_insight_for_high_savings_rate_witness :
  let insight :=
    {| ins_type := JStr "positive";
       ins_title := JStr "Excellent Savings Rate";
       ins_message :=
         JStr "Your savings rate is 75.0%. You're doing great at managing your finances!";
       ins_recommendation :=
         JStr "Consider investing your surplus savings for better returns." |} in
  In insight
     (generateFallbackInsights Samples.toFixed1 Samples.showNumber
        Samples.showNumber Samples.nativeFunction
        [Samples.groceries250; Samples.salary1000])
  /\ In insight
        (legacyFallbackInsights Samples.toFixed1 Samples.showNumber
           Samples.showNumber Samples.nativeFunction
           [Samples.groceries250; Samples.salary1000]).
Proof.
  destruct (positive_insight_for_high_savings_rate
              Samples.toFixed1 Samples.showNumber Samples.showNumber
              Samples.nativeFunction
              [Samples.groceries250; Samples.salary1000]
              ltac:(reflexivity)) as [Hcurrent Hlegacy].
  split; [apply Hcurrent; reflexivity | apply Hlegacy; discriminate].
Defined.

(** C7 as it was stated fails in the current revision: for the one
    expense of -5 the income is 0 and the expenses are -5, so the rate of
    the formula is 5 / 0 * 100, which is [Infinity] and above 20; the code
    takes 0 for the rate when the income is not above zero, and returns
    the "Low Savings Rate" warning and the "More Data Needed" insight. *)
Lemma high_formula_rate_without_income :
  (20 <? ((totalIncome [Samples.refund5] - totalExpenses [Samples.refund5])
          / totalIncome [Samples.refund5]) * 100) = true
  /\ generateFallbackInsights Samples.toFixed1 Samples.showNumber
       Samples.showNumber Samples.nativeFunction [Samples.refund5]
     = [ {| ins_type := JStr "warning";
            ins_title := JStr "Low Savings Rate";
            ins_message :=
              JStr "Your savings rate is 0.0%. This is below the recommended 20%.";
            ins_recommendation :=
              JStr "Review your expenses and identify areas where you can cut back." |};
         {| ins_type := JStr "info";
            ins_title := JStr "More Data Needed";
            ins_message :=
              JStr "Add more transactions to get better financial insights and patterns.";
            ins_recommendation :=
              JStr "Try to record all your income and expenses for comprehensive analysis." |} ]
  /\ Forall (fun insight => ins_type insight <> JStr "positive")
       (generateFallbackInsights Samples.toFixed1 Samples.showNumber
          Samples.showNumber Samples.nativeFunction [Samples.refund5]).
Proof.
  split; [reflexivity|]. split; [reflexivity|].
  repeat constructor; discriminate.
Qed.



(** The dictionary as the object that it is: an expense under the name
    of an inherited function is kept as a text, and the keys that are
    array indices come first in [Object.entries], whatever the order in
    which they entered. *)
Example Object_entries_order :
  Object_entries
    (expenseCategories Samples.showNumber Samples.nativeFunction
       [ {| type := expense; amount := 5; category := "toString" |};
         {| type := expense; amount := 7; category := "Food" |};
         {| type := expense; amount := 9; category := "2024" |};
         {| type := expense; amount := 1; category := "Food" |};
         {| type := expense; amount := 3; category := "7" |} ])
  = [ ("7"%string, Num 3); ("2024"%string, Num 9);
      ("toString"%string, Str "function toString() { [native code] }5");
      ("Food"%string, Num 8) ].
Proof. reflexivity. Qed.

(** An income of 17 and an expense of 13.6: the rate computed is exactly
    20, which is not above 20, so no savings insight is pushed. *)
#[warnings="-inexact-float"]
Example savingsRate_rounds_to_20 :
  savingsRate [ {| type := income; amount := 17; category := "Salary" |};
                {| type := expense; amount := 13.6; category := "Rent" |} ]
  = 20
  /\ savingsInsights Samples.toFixed1 Samples.showNumber
       [ {| type := income; amount := 17; category := "Salary" |};
         {| type := expense; amount := 13.6; category := "Rent" |} ]
     = [].
Proof. split; reflexivity. Qed.

End FallbackFacts.

(** ** contexts/DataContext: failures and frames *)

Module DataContextFacts.
Import Js JsDate DataContext.

Section Backend.
Variable rejects : World -> Request -> option JsError.
Variable freshId : Collection -> string.
Variable queryDocs : string -> string -> Collection -> list (string * Doc).
Variable now : Date.

(** The pattern shared by the operations, in its two outcomes. *)
Lemma guarded_outcome (user : option User) (r : Request) (ok ko : string)
      (w : World) :
  guarded rejects freshId queryDocs now user r ok ko w
  = match Spec.sdkCompletion rejects freshId w r with
    | Throw e =>
        (Throw e,
         {| db := db w; state := state w;
            toasts := toasts w ++ [ToastError ko];
            requests := requests w ++ [r] |})
    | Return database =>
        (Return tt,
         {| db := database;
            state := onCollectionChange queryDocs now user
                       (requestCollection r) database (state w);
            toasts := toasts w ++ [ToastSuccess ok];
            requests := requests w ++ [r] |})
    end.
Proof.
  unfold guarded, tryCatch, andThen, bindM, sdkCall, toast, throw,
    Spec.sdkCompletion.
  destruct (rejects w r) as [e|]; [reflexivity|].
  destruct (applyRequest freshId r (db w)) as [database|e]; reflexivity.
Qed.

(** The operation runs the shared pattern on its SDK request, with its own
    two messages. *)
Lemma run_guarded (user : option User) (op : CrudOp) (r : Request) :
  Spec.sdkRequest now user op = Some r ->
  run rejects freshId queryDocs now user op
  = guarded rejects freshId queryDocs now user r
      (match Spec.successToast op with ToastSuccess m | ToastError m => m end)
      (match Spec.errorToast op with ToastSuccess m | ToastError m => m end).
Proof.
  destruct op, user; cbn; intros H; inversion H; reflexivity.
Qed.

(** C4, as amended: every operation of the context makes at most one SDK
    call and never retries.  An add operation invoked while no user is
    signed in returns at once: no SDK call, no toast.  Every other
    invocation makes exactly one SDK call; if that call throws, the
    operation shows its error toast and throws the same error, leaving the
    database and the provider state as they were; if it does not throw, the
    operation shows its success toast. *)
Theorem crud_single_attempt (user : option User) (op : CrudOp) (w : World) :
  run rejects freshId queryDocs now user op w
  = match Spec.sdkRequest now user op with
    | None => (Return tt, w)
    | Some r =>
        match Spec.sdkCompletion rejects freshId w r with
        | Throw e =>
            (Throw e,
             {| db := db w; state := state w;
                toasts := toasts w ++ [Spec.errorToast op];
                requests := requests w ++ [r] |})
        | Return database =>
            (Return tt,
             {| db := database;
                state := onCollectionChange queryDocs now user
                           (requestCollection r) database (state w);
                toasts := toasts w ++ [Spec.successToast op];
                requests := requests w ++ [r] |})
        end
    end.
Proof.
  destruct (Spec.sdkRequest now user op) as [r|] eqn:Hreq.
  - rewrite (run_guarded user op r Hreq), guarded_outcome.
    destruct (Spec.sdkCompletion rejects freshId w r) as [database|e];
      destruct op; reflexivity.
  - destruct op, user; try discriminate Hreq; reflexivity.
Qed.

(** An accepted request changes no other collection. *)
Lemma applyRequest_frame (r : Request) (database database' : Database)
      (name : string) :
  applyRequest freshId r database = Return database' ->
  requestCollection r <> name ->
  database' !! name = database !! name.
Proof.
  intros Happly Hne.
  destruct r as [c data|c id updates|c id]; cbn in Happly, Hne.
  - inversion Happly; subst. apply lookup_insert_ne. exact Hne.
  - destruct (collection database c !! id); inversion Happly; subst.
    apply lookup_insert_ne. exact Hne.
  - inversion Happly; subst. apply lookup_insert_ne. exact Hne.
Qed.

(** The listener of the transactions leaves the accounts of the provider. *)
Lemma transactions_listener_accounts (user : option User)
      (database : Database) (s : AppState) :
  accounts (onCollectionChange queryDocs now user "transactions" database s)
  = accounts s.
Proof. destruct user; reflexivity. Qed.

(** A guarded call on the transactions collection leaves the accounts. *)
Lemma guarded_transactions_frame (user : option User) (r : Request)
      (ok ko : string) (w : World) :
  requestCollection r = "transactions" ->
  Spec.accountsUntouched w
    (snd (guarded rejects freshId queryDocs now user r ok ko w)).
Proof.
  intros Hc. rewrite guarded_outcome. unfold Spec.accountsUntouched.
  destruct (Spec.sdkCompletion rejects freshId w r) as [database|e] eqn:Hsdk;
    [|split; reflexivity].
  unfold Spec.sdkCompletion in Hsdk.
  destruct (rejects w r); [discriminate Hsdk|]. rename Hsdk into Happly.
  cbn [snd db state]. split.
  - apply (applyRequest_frame r _ _ _ Happly). rewrite Hc. discriminate.
  - rewrite Hc. apply transactions_listener_accounts.
Qed.

(** C5: adding, updating or deleting a transaction changes no account:
    the accounts collection of the database and the accounts held by the
    provider (with their balances and every other field) are the same
    after the operation as before, whatever the backend answers.  No
    operation on transactions writes a balance. *)
Theorem transaction_ops_leave_accounts (user : option User) (w : World)
        (transaction updates : Doc) (id : string) :
  Spec.accountsUntouched w
    (snd (addTransaction rejects freshId queryDocs now user transaction w))
  /\ Spec.accountsUntouched w
       (snd (updateTransaction rejects freshId queryDocs now user id updates w))
  /\ Spec.accountsUntouched w
       (snd (deleteTransaction rejects freshId queryDocs now user id w)).
Proof.
  split; [|split].
  - destruct user as [u|].
    + apply guarded_transactions_frame. reflexivity.
    + split; reflexivity.
  - apply guarded_transactions_frame. reflexivity.
  - apply guarded_transactions_frame. reflexivity.
Qed.

End Backend.

(** C4 as it was stated fails: [addTransaction] invoked while no user is
    signed in returns without any SDK call, where the claim has exactly
    one call per invocation. *)
Lemma add_without_user_makes_no_call :
  run Samples.acceptAll Samples.firstId Samples.allDocs Samples.sampleNow
      None (OpAddTransaction ∅) Samples.emptyWorld
  = (Return tt, Samples.emptyWorld)
  /\ length (requests (snd (run Samples.acceptAll Samples.firstId Samples.allDocs
                                Samples.sampleNow None (OpAddTransaction ∅)
                                Samples.emptyWorld))) = 0%nat.
Proof. split; reflexivity. Qed.

End DataContextFacts.

(** ** Forms: the amount rules *)

Module FormsFacts.
Import Forms.

Lemma handleSubmit_rejects (validate : TransactionFormData -> list FieldError)
      (data : TransactionFormData) (error : FieldError) :
  In error (validate data) ->
  handleSubmit validate data = Rejected (validate data).
Proof.
  unfold handleSubmit. destruct (validate data); [intros []|reflexivity].
Qed.

(** C6: a submission whose amount is zero or negative is rejected by the
    manual transaction form and by the receipt-upload form, each with the
    error "Amount must be positive" on the amount field, whatever the other
    fields hold. *)
Theorem nonpositive_amount_rejected (data : TransactionFormData) (value : Q) :
  amount data = Some value ->
  (value <= 0)%Q ->
  (submitManual data = Rejected (schemaErrors data)
   /\ In ("amount", Some "Amount must be positive") (schemaErrors data))
  /\ (submitUpload data = Rejected (registerErrors data)
      /\ In ("amount", Some "Amount must be positive") (registerErrors data)).
Proof.
  intros Hamount Hle.
  assert (Hs : In ("amount", Some "Amount must be positive") (schemaErrors data)).
  { unfold schemaErrors. rewrite Hamount.
    assert (H0 : Js.Qlt_bool 0 value = false)
      by (apply JsFacts.Qlt_bool_false_iff; exact Hle).
    rewrite H0. rewrite !in_app_iff. right. right. left. left. reflexivity. }
  assert (Hr : In ("amount", Some "Amount must be positive") (registerErrors data)).
  { unfold registerErrors. rewrite Hamount.
    assert (H0 : Js.Qlt_bool value (1 # 100) = true)
      by (apply JsFacts.Qlt_bool_iff; lra).
    rewrite H0. rewrite !in_app_iff. right. left. left. reflexivity. }
  split; (split; [|assumption]).
  - apply (handleSubmit_rejects schemaErrors data _ Hs).
  - apply (handleSubmit_rejects registerErrors data _ Hr).
Qed.

(** An amount left at zero in an otherwise complete form. *)
Lemma nonpositive_amount_rejected_witness :
  (submitManual Samples.zeroAmountForm
   = Rejected [("amount", Some "Amount must be positive")])
  /\ (submitUpload Samples.zeroAmountForm
      = Rejected [("amount", Some "Amount must be positive")]).
Proof.
  destruct (nonpositive_amount_rejected Samples.zeroAmountForm 0 eq_refl
              ltac:(vm_compute; discriminate)) as [[Hm _] [Hu _]].
  split; [exact Hm | exact Hu].
Defined.

(** The same form with an amount of 150.5 goes through on both pages. *)
Example positive_amount_submitted :
  submitManual Samples.filledForm = Submitted Samples.filledForm
  /\ submitUpload Samples.filledForm = Submitted Samples.filledForm.
Proof. split; reflexivity. Qed.

End FormsFacts.

(** ** Strings: appending, and reading padded numbers back *)

Module StringFacts.
Import Text TextFacts DateFormat Reference.

Lemma append_empty (s : string) : "" +:+ s = s.
Proof. reflexivity. Qed.

Lemma append_String (a : ascii) (s t : string) :
  String a s +:+ t = String a (s +:+ t).
Proof. reflexivity. Qed.

Lemma append_assoc (s t u : string) : (s +:+ t) +:+ u = s +:+ (t +:+ u).
Proof.
  induction s as [|a s IH]; [reflexivity|].
  rewrite !append_String, IH. reflexivity.
Qed.

Lemma uint_of_string_zeros (n : nat) (s : string) :
  NilEmpty.uint_of_string (replicate n "0" +:+ s)
  = option_map (Nat.iter n Decimal.D0) (NilEmpty.uint_of_string s).
Proof.
  induction n as [|n IH]; cbn [replicate Nat.iter].
  - rewrite append_empty. destruct (NilEmpty.uint_of_string s); reflexivity.
  - rewrite append_String. cbn [NilEmpty.uint_of_string]. rewrite IH.
    destruct (NilEmpty.uint_of_string s); reflexivity.
Qed.

Lemma of_uint_zeros (n : nat) (d : Decimal.uint) :
  N.of_uint (Nat.iter n Decimal.D0 d) = N.of_uint d.
Proof. induction n as [|n IH]; [reflexivity|]. cbn [Nat.iter]. exact IH. Qed.

(** Padding with zeros does not change the number that is read back. *)
Lemma parseDigits_padStart (k : nat) (n : N) :
  parseDigits (padStart k "0" (digits n)) = Some n.
Proof.
  unfold parseDigits, padStart, digits.
  rewrite uint_of_string_zeros, NilEmpty.usu. cbn [option_map].
  rewrite of_uint_zeros, DecimalN.Unsigned.of_to. reflexivity.
Qed.

Lemma padStart_inj (k : nat) (n m : N) :
  padStart k "0" (digits n) = padStart k "0" (digits m) -> n = m.
Proof.
  intros H. apply (f_equal parseDigits) in H.
  rewrite !parseDigits_padStart in H. congruence.
Qed.

(** Two numbers with the same padded form are equal. *)
Lemma addLeadingZeros_inj (a b : Z) (k : nat) :
  addLeadingZeros a k = addLeadingZeros b k -> a = b.
Proof.
  unfold addLeadingZeros. cbv zeta.
  assert (Hfree : forall x, occurs "-" (padStart k "0" (digits (Z.to_N (Z.abs x))))
                            = false).
  { intros x. apply occurs_padStart; [reflexivity|].
    apply occurs_digits. reflexivity. }
  destruct (a <? 0)%Z eqn:Ea; destruct (b <? 0)%Z eqn:Eb;
    rewrite ?append_String, ?append_empty; intros H.
  - inversion H as [H']. apply padStart_inj in H'.
    apply Z.ltb_lt in Ea, Eb. lia.
  - exfalso. pose proof (Hfree b) as Hb. rewrite <- H in Hb.
    cbn [occurs] in Hb. rewrite Ascii.eqb_refl in Hb. discriminate Hb.
  - exfalso. pose proof (Hfree a) as Hb. rewrite H in Hb.
    cbn [occurs] in Hb. rewrite Ascii.eqb_refl in Hb. discriminate Hb.
  - apply padStart_inj in H. apply Z.ltb_ge in Ea, Eb. lia.
Qed.

End StringFacts.

(** ** The category dictionary and its sort *)

Module BreakdownFacts.
Import Js JsFacts Model Gemini Reference.

Lemma fold_sum_from (l : list Transaction) (acc : Q) :
  (fold_left (fun sum t => sum + tx_amount t) l acc == acc + amountsTotal l)%Q.
Proof.
  revert acc. induction l as [|t l IH]; intros acc; cbn [fold_left amountsTotal fold_right].
  - lra.
  - rewrite IH. fold (amountsTotal l). lra.
Qed.

(** The sum computed by [reduce] is the sum of the amounts. *)
Lemma sumAmounts_total (l : list Transaction) :
  (sumAmounts l == amountsTotal l)%Q.
Proof. unfold sumAmounts. rewrite fold_sum_from. lra. Qed.

Lemma getKey_setKey_same (k : string) (v : Q) (acc : list (string * Q)) :
  getKey k (setKey k v acc) = Some v.
Proof.
  induction acc as [|[k' w] rest IH]; cbn [setKey getKey].
  - rewrite String.eqb_refl. reflexivity.
  - destruct (String.eqb k' k) eqn:E; cbn [getKey]; rewrite E; [reflexivity|exact IH].
Qed.

Lemma getKey_setKey_other (k k' : string) (v : Q) (acc : list (string * Q)) :
  k' <> k -> getKey k' (setKey k v acc) = getKey k' acc.
Proof.
  intros Hne. induction acc as [|[k0 w] rest IH]; cbn [setKey getKey].
  - destruct (String.eqb k k') eqn:E; [|reflexivity].
    apply String.eqb_eq in E. congruence.
  - destruct (String.eqb k0 k) eqn:E; cbn [getKey].
    + apply String.eqb_eq in E. subst k0.
      destruct (String.eqb k k') eqn:E'; [|reflexivity].
      apply String.eqb_eq in E'. congruence.
    + rewrite IH. reflexivity.
Qed.

Lemma keys_setKey (k k' : string) (v : Q) (acc : list (string * Q)) :
  In k' (map fst (setKey k v acc)) <-> k' = k \/ In k' (map fst acc).
Proof.
  induction acc as [|[k0 w] rest IH]; cbn [setKey map fst In].
  - split; [intros [H|[]]; left; congruence | intros [H|[]]; left; congruence].
  - destruct (String.eqb k0 k) eqn:E; cbn [map fst In].
    + apply String.eqb_eq in E. subst k0. intuition congruence.
    + rewrite IH. intuition congruence.
Qed.

Lemma keys_setKey_NoDup (k : string) (v : Q) (acc : list (string * Q)) :
  List.NoDup (map fst acc) -> List.NoDup (map fst (setKey k v acc)).
Proof.
  induction acc as [|[k0 w] rest IH]; intros Hnd; cbn [setKey map fst].
  - constructor; [intros []|constructor].
  - cbn [map fst] in Hnd. inversion Hnd as [|? ? Hnot Hrest]; subst.
    destruct (String.eqb k0 k) eqn:E; cbn [map fst].
    + constructor; assumption.
    + constructor; [|apply IH; exact Hrest].
      rewrite keys_setKey. intros [H|H]; [|exact (Hnot H)].
      apply String.eqb_neq in E. congruence.
Qed.

Lemma getKey_In (k : string) (v : Q) (acc : list (string * Q)) :
  List.NoDup (map fst acc) -> In (k, v) acc -> getKey k acc = Some v.
Proof.
  induction acc as [|[k0 w] rest IH]; intros Hnd Hin; [destruct Hin|].
  cbn [map fst] in Hnd. inversion Hnd as [|? ? Hnot Hrest]; subst.
  cbn [getKey]. destruct Hin as [Heq|Hin].
  - inversion Heq; subst. rewrite String.eqb_refl. reflexivity.
  - destruct (String.eqb k0 k) eqn:E; [|apply IH; assumption].
    apply String.eqb_eq in E. subst k0. exfalso. apply Hnot.
    apply (in_map fst) in Hin. exact Hin.
Qed.

(** The value read back by [(acc[c] || 0)] is the value held. *)
Lemma current_value (c : string) (acc : list (string * Q)) :
  (match getKey c acc with
   | Some v => if Qeq_bool v 0 then 0 else v
   | None => 0
   end == valueOf c acc)%Q.
Proof.
  unfold valueOf. destruct (getKey c acc) as [v|]; [|lra].
  destruct (Qeq_bool v 0) eqn:E; [|lra].
  apply Qeq_bool_iff in E. lra.
Qed.

Lemma valueOf_addToCategory (c : string) (acc : list (string * Q)) (t : Transaction) :
  (valueOf c (addToCategory acc t)
   == valueOf c acc + (if String.eqb (tx_category t) c then tx_amount t else 0))%Q.
Proof.
  unfold addToCategory. cbv zeta.
  destruct (String.eqb (tx_category t) c) eqn:E.
  - apply String.eqb_eq in E. subst c.
    unfold valueOf at 1. rewrite getKey_setKey_same.
    rewrite current_value. lra.
  - apply String.eqb_neq in E.
    unfold valueOf. rewrite getKey_setKey_other by congruence.
    destruct (getKey c acc); lra.
Qed.

Section Fold.
Variable c : string.

Lemma fold_valueOf (l : list Transaction) (acc : list (string * Q)) :
  (valueOf c (fold_left addToCategory l acc)
   == valueOf c acc
      + amountsTotal (List.filter (fun t => String.eqb (tx_category t) c) l))%Q.
Proof.
  revert acc. induction l as [|t l IH]; intros acc; cbn [fold_left List.filter].
  - cbn. lra.
  - rewrite IH, valueOf_addToCategory.
    destruct (String.eqb (tx_category t) c); unfold amountsTotal; cbn [fold_right]; lra.
Qed.

Lemma fold_keys (l : list Transaction) (acc : list (string * Q)) :
  In c (map fst (fold_left addToCategory l acc))
  <-> In c (map fst acc) \/ exists t, In t l /\ tx_category t = c.
Proof.
  revert acc. induction l as [|t l IH]; intros acc; cbn [fold_left].
  - split; [tauto|]. intros [H|[t [[] _]]]. exact H.
  - rewrite IH. unfold addToCategory at 1. cbv zeta. rewrite keys_setKey.
    split.
    + intros [[H|H]|[t' [Hin Hc]]].
      * right. exists t. split; [left; reflexivity|congruence].
      * left. exact H.
      * right. exists t'. split; [right; exact Hin|exact Hc].
    + intros [H|[t' [[Heq|Hin] Hc]]].
      * left. right. exact H.
      * subst t'. left. left. congruence.
      * right. exists t'. split; assumption.
Qed.

End Fold.

Lemma fold_keys_NoDup (l : list Transaction) (acc : list (string * Q)) :
  List.NoDup (map fst acc) -> List.NoDup (map fst (fold_left addToCategory l acc)).
Proof.
  revert acc. induction l as [|t l IH]; intros acc H; cbn [fold_left]; [exact H|].
  apply IH. unfold addToCategory. cbv zeta. apply keys_setKey_NoDup. exact H.
Qed.

(** The amount held for a category, 0 for a category without entry, is
    the sum of the expenses of the category. *)
Lemma categoryTotal_valueOf (c : string) (transactions : list Transaction) :
  (categoryTotal c transactions == valueOf c (categoryBreakdown transactions))%Q.
Proof.
  unfold categoryTotal, expensesOf, categoryBreakdown.
  rewrite sumAmounts_total, fold_valueOf. unfold valueOf. cbn [getKey]. lra.
Qed.

Lemma expense_ofType (t : Transaction) (l : list Transaction) :
  In t (ofType expense l) <-> In t l /\ tx_type t = expense.
Proof.
  unfold ofType. rewrite List.filter_In.
  destruct (tx_type t); cbn; intuition congruence.
Qed.

Lemma breakdown_NoDup (transactions : list Transaction) :
  List.NoDup (map fst (categoryBreakdown transactions)).
Proof. apply fold_keys_NoDup. constructor. Qed.

Lemma breakdown_value (transactions : list Transaction) (e : string * Q) :
  In e (categoryBreakdown transactions) ->
  (snd e == categoryTotal (fst e) transactions)%Q.
Proof.
  destruct e as [c v]. intros Hin. cbn [fst snd].
  rewrite categoryTotal_valueOf. unfold valueOf.
  rewrite (getKey_In c v _ (breakdown_NoDup transactions) Hin). reflexivity.
Qed.


(** *** [sort(([, a], [, b]) => b - a)] *)

Lemma insertEntry_perm (e : string * Q) (l : list (string * Q)) :
  Permutation (insertEntry e l) (e :: l).
Proof.
  induction l as [|f rest IH]; cbn [insertEntry]; [reflexivity|].
  destruct (Qlt_bool 0 (snd f - snd e)); [|reflexivity].
  rewrite IH. apply perm_swap.
Qed.

Lemma sortEntries_perm (l : list (string * Q)) :
  Permutation (sortEntries l) l.
Proof.
  unfold sortEntries. induction l as [|e l IH]; cbn [fold_right]; [reflexivity|].
  rewrite insertEntry_perm. apply perm_skip. exact IH.
Qed.

Lemma insertEntry_HdRel (e f : string * Q) (l : list (string * Q)) :
  (snd e < snd f)%Q -> HdRel largerFirst f l -> HdRel largerFirst f (insertEntry e l).
Proof.
  intros Hlt Hhd. destruct l as [|g rest]; cbn [insertEntry].
  - constructor. unfold largerFirst. lra.
  - inversion Hhd; subst.
    destruct (Qlt_bool 0 (snd g - snd e)); constructor;
      [assumption | unfold largerFirst; lra].
Qed.

Lemma insertEntry_sorted (e : string * Q) (l : list (string * Q)) :
  Sorted largerFirst l -> Sorted largerFirst (insertEntry e l).
Proof.
  induction l as [|f rest IH]; intros Hs; cbn [insertEntry].
  - repeat constructor.
  - inversion Hs as [|? ? Hrest Hhd]; subst.
    destruct (Qlt_bool 0 (snd f - snd e)) eqn:E.
    + apply Qlt_bool_iff in E. constructor; [apply IH; exact Hrest|].
      apply insertEntry_HdRel; [lra|exact Hhd].
    + apply Qlt_bool_false_iff in E. constructor; [exact Hs|].
      constructor. unfold largerFirst. lra.
Qed.

Lemma sortEntries_Sorted (l : list (string * Q)) :
  Sorted largerFirst (sortEntries l).
Proof.
  unfold sortEntries. induction l as [|e l IH]; cbn [fold_right]; [constructor|].
  apply insertEntry_sorted. exact IH.
Qed.

Lemma largerFirst_trans : Relations_1.Transitive largerFirst.
Proof. intros a b c. unfold largerFirst. lra. Qed.

(** X3.  The sort rearranges the entries without adding or dropping one,
    and in its result no entry is followed, at any distance, by one with
    a larger amount. *)
Theorem sortEntries_sorted (entries : list (string * Q)) :
  Permutation (sortEntries entries) entries
  /\ StronglySorted largerFirst (sortEntries entries).
Proof.
  split; [apply sortEntries_perm|].
  apply Sorted_StronglySorted; [exact largerFirst_trans|apply sortEntries_Sorted].
Qed.

Lemma hd_insertEntry (e : string * Q) (l : list (string * Q)) :
  hd_error (insertEntry e l)
  = match hd_error l with
    | Some f => if Qlt_bool 0 (snd f - snd e) then Some f else Some e
    | None => Some e
    end.
Proof.
  destruct l as [|f rest]; cbn [insertEntry hd_error]; [reflexivity|].
  destruct (Qlt_bool 0 (snd f - snd e)); reflexivity.
Qed.

Lemma topEntry_cons (e : string * Q) (l : list (string * Q)) :
  topEntry (e :: l)
  = match topEntry l with
    | Some f => if Qlt_bool 0 (snd f - snd e) then Some f else Some e
    | None => Some e
    end.
Proof. unfold topEntry, sortEntries. cbn [fold_right]. apply hd_insertEntry. Qed.

(** X4.  [entries.sort(...)[0]] is the first entry, in the order of the
    list of entries that is sorted, among those with the largest amount:
    every entry before it is strictly smaller and none after it is
    larger.  There is no such entry only for the empty list. *)
Theorem topEntry_characterised (categories : list (string * Q)) :
  match topEntry categories with
  | Some e =>
      exists before after,
        categories = before ++ e :: after
        /\ Forall (fun f => (snd f < snd e)%Q) before
        /\ Forall (fun f => (snd f <= snd e)%Q) after
  | None => categories = []
  end.
Proof.
  induction categories as [|e l IH]; [reflexivity|].
  rewrite topEntry_cons. destruct (topEntry l) as [f|].
  - destruct IH as [before [after [Hl [Hb Ha]]]].
    destruct (Qlt_bool 0 (snd f - snd e)) eqn:E.
    + apply Qlt_bool_iff in E. exists (e :: before), after.
      split; [rewrite Hl; reflexivity|]. split; [|exact Ha].
      constructor; [lra|exact Hb].
    + apply Qlt_bool_false_iff in E. exists [], l.
      split; [reflexivity|]. split; [constructor|].
      rewrite Hl. apply List.Forall_app. split.
      * eapply List.Forall_impl; [|exact Hb]. cbn. intros g Hg. lra.
      * constructor; [lra|].
        eapply List.Forall_impl; [|exact Ha]. cbn. intros g Hg. lra.
  - subst l. exists [], []. repeat split; constructor.
Qed.

End BreakdownFacts.

(** ** utils/gemini.ts: what the callers can rely on *)

Module GeminiContract.
Import JsDate Text TextFacts DateFormat Js JsFacts Model Gemini Reference.
Import StringFacts BreakdownFacts.

(** *** The delimited match *)

Lemma fromFirst_spec (c : ascii) (s t : string) :
  fromFirst c s = Some t
  <-> exists before rest,
        s = before +:+ String c rest /\ occurs c before = false
        /\ t = String c rest.
Proof.
  revert t. induction s as [|a s IH]; intros t; cbn [fromFirst].
  - split; [discriminate|]. intros [before [rest [H _]]].
    destruct before; discriminate H.
  - destruct (Ascii.eqb a c) eqn:E.
    + apply Ascii.eqb_eq in E. subst a. split.
      * intros H. inversion H; subst. exists "", s. repeat split.
      * intros [before [rest [Hs [Hocc Ht]]]]. destruct before as [|b before].
        -- rewrite ?append_empty, ?append_String in Hs. congruence.
        -- rewrite ?append_empty, ?append_String in Hs. inversion Hs; subst. cbn [occurs] in Hocc.
           rewrite Ascii.eqb_refl in Hocc. discriminate Hocc.
    + rewrite IH. split.
      * intros [before [rest [Hs [Hocc Ht]]]]. exists (String a before), rest.
        subst s. cbn [occurs]. rewrite E. repeat split; assumption.
      * intros [before [rest [Hs [Hocc Ht]]]]. destruct before as [|b before].
        -- rewrite ?append_empty, ?append_String in Hs. inversion Hs; subst. rewrite Ascii.eqb_refl in E. discriminate E.
        -- rewrite ?append_empty, ?append_String in Hs. inversion Hs; subst. cbn [occurs] in Hocc.
           rewrite E in Hocc. exists before, rest. repeat split. exact Hocc.
Qed.

Lemma upToLast_none (c : ascii) (s : string) :
  upToLast c s = None <-> occurs c s = false.
Proof.
  induction s as [|a s IH]; cbn [upToLast occurs]; [tauto|].
  destruct (upToLast c s) as [p|].
  - split; [discriminate|]. intros H. apply orb_false_elim in H.
    destruct H as [_ H]. apply IH in H. discriminate H.
  - destruct (Ascii.eqb a c); cbn [orb]; [split; discriminate|].
    split; intros _; [apply IH|]; reflexivity.
Qed.

Lemma upToLast_spec (c : ascii) (s p : string) :
  upToLast c s = Some p
  <-> exists body rest,
        s = body +:+ String c rest /\ occurs c rest = false
        /\ p = body +:+ String c "".
Proof.
  revert p. induction s as [|a s IH]; intros p; cbn [upToLast].
  - split; [discriminate|]. intros [body [rest [H _]]]. destruct body; discriminate H.
  - destruct (upToLast c s) as [q|] eqn:Hq.
    + destruct (proj1 (IH q) eq_refl) as [body [rest [Hs [Hocc Hp]]]].
      split.
      * intros H. inversion H; subst. exists (String a body), rest. repeat split.
        exact Hocc.
      * intros [body' [rest' [Hs' [Hocc' Hp']]]]. destruct body' as [|b body'].
        -- rewrite ?append_empty, ?append_String in Hs'. inversion Hs'; subst a rest'.
           rewrite Hs, occurs_append in Hocc'. cbn [occurs] in Hocc'.
           rewrite Ascii.eqb_refl, orb_true_r in Hocc'. discriminate Hocc'.
        -- rewrite ?append_empty, ?append_String in Hs'. inversion Hs'; subst b.
           assert (Hq' : Some q = Some (body' +:+ String c "")).
           { apply IH. exists body', rest'. repeat split; assumption. }
           inversion Hq' as [Hq'']. rewrite Hp', append_String. reflexivity.
    + apply upToLast_none in Hq. destruct (Ascii.eqb a c) eqn:E.
      * apply Ascii.eqb_eq in E. subst a. split.
        -- intros H. inversion H; subst. exists "", s. repeat split. exact Hq.
        -- intros [body [rest [Hs [Hocc Hp]]]]. destruct body as [|b body].
           ++ subst p. reflexivity.
           ++ rewrite ?append_empty, ?append_String in Hs. inversion Hs; subst. rewrite occurs_append in Hq.
              cbn [occurs] in Hq. rewrite Ascii.eqb_refl, orb_true_r in Hq.
              discriminate Hq.
      * split; [discriminate|].
        intros [body [rest [Hs [Hocc Hp]]]]. destruct body as [|b body].
        -- rewrite ?append_empty, ?append_String in Hs. inversion Hs; subst. rewrite Ascii.eqb_refl in E. discriminate E.
        -- rewrite ?append_empty, ?append_String in Hs. inversion Hs; subst. rewrite occurs_append in Hq.
           cbn [occurs] in Hq. rewrite Ascii.eqb_refl, orb_true_r in Hq.
           discriminate Hq.
Qed.

(** X5.  The match of [/\{[\s\S]*\}/] (and of the bracket form) is the
    part of the text from its first opening delimiter to the last closing
    delimiter after it: text before and after is dropped, and everything
    between the two, further delimiters included, is kept. *)
Theorem matchDelimited_spec (opening closing : ascii) (text m : string) :
  matchDelimited opening closing text = Some m
  <-> exists before body rest,
        text = before +:+ String opening (body +:+ String closing rest)
        /\ occurs opening before = false
        /\ occurs closing rest = false
        /\ m = String opening (body +:+ String closing "").
Proof.
  unfold matchDelimited. split.
  - destruct (fromFirst opening text) as [suffix|] eqn:Hf; [|discriminate].
    apply fromFirst_spec in Hf. destruct Hf as [before [tail [Ht [Hocc Hs]]]].
    subst suffix. destruct (upToLast closing tail) as [p|] eqn:Hu; [|discriminate].
    apply upToLast_spec in Hu. destruct Hu as [body [rest [Htail [Hocc' Hp]]]].
    intros H. inversion H; subst. exists before, body, rest. repeat split; assumption.
  - intros [before [body [rest [Ht [Hocc [Hocc' Hm]]]]]].
    assert (Hf : fromFirst opening text
                 = Some (String opening (body +:+ String closing rest))).
    { apply fromFirst_spec. exists before, (body +:+ String closing rest).
      repeat split; assumption. }
    rewrite Hf.
    assert (Hu : upToLast closing (body +:+ String closing rest)
                 = Some (body +:+ String closing "")).
    { apply upToLast_spec. exists body, rest. repeat split. exact Hocc'. }
    rewrite Hu, Hm. reflexivity.
Qed.

(** *** The receipt *)

Section Receipt.
Variable JSON_parse : string -> Completion JsValue.
Variable random : Q.
Variable now : Date.

Lemma or_else_null (v : JsValue) : nullOr truthy (or_else v JNull) = true.
Proof.
  unfold or_else. destruct (truthy v) eqn:E; [|reflexivity].
  destruct v; cbn in *; try discriminate; try reflexivity; exact E.
Qed.

Lemma cleanReceipt_shape (extractedData v : JsValue) :
  cleanReceipt extractedData = Return v -> receiptShape v = true.
Proof.
  unfold cleanReceipt.
  destruct (getProp extractedData "vendor") as [vendor|] eqn:E1; [|discriminate].
  destruct (getProp extractedData "amount") as [amount|] eqn:E2; [|discriminate].
  destruct (getProp extractedData "date") as [date|] eqn:E3; [|discriminate].
  destruct (getProp extractedData "category") as [category|] eqn:E4; [|discriminate].
  destruct (getProp extractedData "items") as [items|] eqn:E5; [|discriminate].
  cbn [bind]. intros H. inversion H; subst v. clear H.
  cbn [receiptShape]. rewrite !String.eqb_refl, !or_else_null. cbn [andb].
  assert (Hamount : nullOr isNumber (if isNumber amount then amount else JNull) = true)
    by (destruct amount; reflexivity).
  assert (Hcat : truthy (or_else category (JStr "Others")) = true)
    by (unfold or_else; destruct (truthy category) eqn:E; [exact E|reflexivity]).
  assert (Hitems : isArray (if isArray items then items else JArr []) = true)
    by (destruct items; reflexivity).
  rewrite Hamount, Hcat, Hitems. reflexivity.
Qed.

Lemma occurs_isoYear (c : ascii) (y : Z) :
  plainSeparator c -> Ascii.eqb "+" c = false -> occurs c (isoYear y) = false.
Proof.
  intros Hc Hplus. unfold isoYear.
  destruct ((0 <=? y)%Z && (y <=? 9999)%Z).
  - apply CsvFacts.occurs_addLeadingZeros. exact Hc.
  - destruct Hc as [Hd Hm]. rewrite occurs_append.
    rewrite occurs_padStart by (try exact Hd; apply occurs_digits; exact Hd).
    destruct (y <? 0)%Z; cbn [occurs]; rewrite ?Hm, ?Hplus; reflexivity.
Qed.

(** [toISOString().split('T')[0]] is the date part of the ISO string. *)
Lemma todayISO_date (d : Date) :
  todayISO d
  = isoYear (getFullYear d) +:+ "-" +:+ format_MM d +:+ "-" +:+ format_dd d.
Proof.
  unfold todayISO, toISOString. cbv zeta.
  set (rest := addLeadingZeros (TimeWithinDay d / 3600000) 2 +:+ _).
  set (y := isoYear (getFullYear d)).
  assert (HT : plainSeparator "T") by (split; reflexivity).
  replace (y +:+ "-" +:+ format_MM d +:+ "-" +:+ format_dd d +:+ "T" +:+ rest)
    with ((y +:+ "-" +:+ format_MM d +:+ "-" +:+ format_dd d) +:+ String "T" rest).
  - rewrite split_cell_sep; [reflexivity|].
    rewrite !occurs_append. unfold y, format_MM, format_dd.
    rewrite occurs_isoYear by (try exact HT; reflexivity).
    rewrite !(CsvFacts.occurs_addLeadingZeros "T") by exact HT.
    reflexivity.
  - rewrite !append_assoc. reflexivity.
Qed.

Lemma todayISO_not_empty (d : Date) : String.eqb (todayISO d) "" = false.
Proof.
  rewrite todayISO_date. destruct (isoYear (getFullYear d)); reflexivity.
Qed.

Lemma placeholder_shape : receiptShape (placeholderReceipt random now) = true.
Proof.
  unfold placeholderReceipt. cbn [receiptShape nullOr truthy isNumber].
  rewrite todayISO_not_empty. reflexivity.
Qed.

(** What [extractReceiptData] returns is the placeholder or the cleaned
    form of the parsed data. *)
Lemma extractReceiptData_returns (outcome : ModelOutcome) :
  exists receipt,
    extractReceiptData JSON_parse random now outcome = Return receipt
    /\ (receipt = placeholderReceipt random now
        \/ exists extractedData, cleanReceipt extractedData = Return receipt).
Proof.
  unfold extractReceiptData.
  destruct (bind (responseText outcome) _) as [receipt|e] eqn:Hbody;
    cbn [try_catch].
  - exists receipt. split; [reflexivity|]. right.
    destruct (responseText outcome) as [text|]; [|discriminate Hbody].
    cbn [bind] in Hbody.
    destruct (matchDelimited "{" "}" text) as [jsonMatch|]; [|discriminate Hbody].
    destruct (JSON_parse jsonMatch) as [extractedData|]; [|discriminate Hbody].
    cbn [bind] in Hbody. exists extractedData. exact Hbody.
  - exists (placeholderReceipt random now). split; [reflexivity|].
    left. reflexivity.
Qed.

(** X6.  [extractReceiptData] never throws, whatever the model call does
    and whatever JSON the model sends: it returns an object with the keys
    [vendor], [amount], [date] and [category], where the amount is a
    number or [null] and the category is never empty, with an array of
    items when the data came from the model. *)
Theorem extractReceiptData_shape (outcome : ModelOutcome) :
  exists receipt,
    extractReceiptData JSON_parse random now outcome = Return receipt
    /\ receiptShape receipt = true.
Proof.
  destruct (extractReceiptData_returns outcome)
    as [receipt [Hr [Hplaceholder|[extractedData Hclean]]]];
    exists receipt; (split; [exact Hr|]).
  - rewrite Hplaceholder. apply placeholder_shape.
  - exact (cleanReceipt_shape extractedData receipt Hclean).
Qed.

(** X7.  With [Math.random()] in its range, the amount of the placeholder
    is a whole number from 100 to 1099: a positive amount, which the
    upload form accepts as it accepts an amount read from a receipt. *)
Theorem placeholder_amount_range :
  (0 <= random)%Q -> (random < 1)%Q ->
  exists n : Z,
    getProp (placeholderReceipt random now) "amount"
    = Return (JNum (inject_Z (Qfloor (random * 1000)) + 100))
    /\ (inject_Z (Qfloor (random * 1000)) + 100 == inject_Z n)%Q
    /\ (100 <= n <= 1099)%Z.
Proof.
  intros Hlo Hhi. exists (Qfloor (random * 1000) + 100)%Z.
  split; [reflexivity|]. split.
  - rewrite inject_Z_plus. reflexivity.
  - assert (H0 : (0 <= Qfloor (random * 1000))%Z).
    { change 0%Z with (Qfloor 0). apply Qfloor_resp_le. lra. }
    assert (H1 : (Qfloor (random * 1000) < 1000)%Z).
    { pose proof (Qfloor_le (random * 1000)) as Hle.
      rewrite Zlt_Qlt. change (inject_Z 1000) with 1000%Q. lra. }
    lia.
Qed.

End Receipt.

(** A draw of one half. *)
Lemma placeholder_amount_range_witness :
  exists n : Z,
    getProp (placeholderReceipt (1 # 2) Samples.sampleNow) "amount"
    = Return (JNum (inject_Z (Qfloor ((1 # 2) * 1000)) + 100))
    /\ (inject_Z (Qfloor ((1 # 2) * 1000)) + 100 == inject_Z n)%Q
    /\ (100 <= n <= 1099)%Z.
Proof.
  apply (placeholder_amount_range (1 # 2) Samples.sampleNow);
    [discriminate|reflexivity].
Defined.

(** *** The rule-based insights *)

Section Fallback.
Variable toFixed1 : jsnum -> string.
Variable toLocaleString : Q -> string.

(** X10.  The rule-based insights are as the interface declares them:
    each has one of the three declared types and a string for its title,
    message and recommendation, and there are at most three of them. *)
Theorem generateFallbackInsights_declared (transactions : list Transaction) :
  Forall declaredInsight
         (generateFallbackInsights toFixed1 toLocaleString transactions)
  /\ (length (generateFallbackInsights toFixed1 toLocaleString transactions) <= 3)%nat.
Proof.
  assert (Hd : forall i, In i [gettingStarted; moreDataNeeded] -> declaredInsight i).
  { intros i [H|[H|[]]]; subst i; repeat split; cbn; tauto. }
  assert (Hs : forall rate i,
             In i [excellentSavings toFixed1 rate; lowSavings toFixed1 rate;
                   overspending toLocaleString transactions] ->
             declaredInsight i).
  { intros rate i [H|[H|[H|[]]]]; subst i; repeat split; cbn; tauto. }
  assert (Ht : forall entry,
             declaredInsight (topSpending toFixed1 toLocaleString transactions entry)).
  { intros entry. repeat split; cbn; tauto. }
  unfold generateFallbackInsights.
  destruct (Nat.eqb (length transactions) 0).
  - split; [|cbn; lia]. constructor; [|constructor]. apply Hd. left. reflexivity.
  - unfold savingsInsights, categoryInsights, frequencyInsights. cbv zeta.
    set (rate := savingsRate transactions).
    destruct (js_gt rate 20); destruct (js_lt rate 10 && js_ge rate 0);
      destruct (js_lt rate 0);
      destruct (topEntry (categoryBreakdown transactions)) as [entry|];
      destruct (Qlt_bool 0 (totalExpenses transactions));
      destruct (Nat.ltb (length transactions) 5);
      cbn [app length]; (split; [|lia]);
      repeat (constructor;
              try first [ apply Ht
                        | apply Hd; cbn; tauto
                        | apply (Hs rate); cbn; tauto ]).
Qed.

End Fallback.

End GeminiContract.

(** ** ReportsPage: the daily chart and the data of the report *)

Module ReportFacts.
Import JsDate JsDateFacts Text TextFacts DateFormat Js JsFacts Model.
Import ReportsPage Report Reference StringFacts BreakdownFacts.
Local Open Scope Z_scope.

(** *** [toDateString] names the day *)

Lemma occurs_weekday (n : nat) :
  occurs " " (nth n weekdayAbbreviations "") = false.
Proof. do 7 (destruct n as [|n]; [reflexivity|]). destruct n; reflexivity. Qed.

Lemma occurs_month (n : nat) :
  occurs " " (nth n monthAbbreviations "") = false.
Proof. do 12 (destruct n as [|n]; [reflexivity|]). destruct n; reflexivity. Qed.

Lemma space_plain : plainSeparator " ".
Proof. split; reflexivity. Qed.

Lemma split_toDateString (d : Date) :
  split " " (toDateString d)
  = [ nth (Z.to_nat (WeekDay d)) weekdayAbbreviations ""%string;
      format_MMM d;
      addLeadingZeros (getDate d) 2;
      addLeadingZeros (getFullYear d) 4 ].
Proof.
  unfold toDateString.
  rewrite !append_String, !append_empty.
  rewrite split_cell_sep by apply occurs_weekday.
  rewrite split_cell_sep by (unfold format_MMM; apply occurs_month).
  rewrite split_cell_sep
    by (apply CsvFacts.occurs_addLeadingZeros; exact space_plain).
  rewrite split_cell
    by (apply CsvFacts.occurs_addLeadingZeros; exact space_plain).
  reflexivity.
Qed.

Lemma monthAbbreviations_NoDup : List.NoDup monthAbbreviations.
Proof.
  unfold monthAbbreviations.
  repeat (constructor; [cbn; intuition discriminate|]). constructor.
Qed.

Lemma Day_fields (d : Date) :
  Day d = monthStartDay (12 * getFullYear d + getMonth d) + getDate d - 1.
Proof. rewrite year_month_index. unfold getDate. lia. Qed.

(** Two dates have the same [toDateString] exactly when they fall on the
    same day. *)
Lemma toDateString_same_day (a b : Date) :
  String.eqb (toDateString a) (toDateString b) = (Day a =? Day b).
Proof.
  destruct (Day a =? Day b) eqn:E.
  - apply Z.eqb_eq in E. apply String.eqb_eq.
    unfold toDateString, format_MMM, WeekDay, getFullYear, getMonth, getDate,
      monthIndex.
    rewrite E. reflexivity.
  - apply Z.eqb_neq in E. apply String.eqb_neq. intros H. apply E.
    apply (f_equal (split " ")) in H. rewrite !split_toDateString in H.
    injection H as _ Hm Hd Hy.
    apply addLeadingZeros_inj in Hd, Hy.
    unfold format_MMM in Hm.
    pose proof (getMonth_range a) as Ha. pose proof (getMonth_range b) as Hb.
    apply (proj1 (List.NoDup_nth monthAbbreviations ""%string)
                 monthAbbreviations_NoDup) in Hm;
      [|unfold monthAbbreviations; cbn [length]; lia
       |unfold monthAbbreviations; cbn [length]; lia].
    rewrite (Day_fields a), (Day_fields b), Hd, Hy.
    replace (getMonth a) with (getMonth b) by lia. reflexivity.
Qed.

(** *** The loop of [getDailyTrend] *)

Lemma setDate_next (d : Date) : setDate d (getDate d + 1) = d + msPerDay.
Proof.
  unfold setDate. rewrite MakeDay_index, year_month_index.
  unfold getDate, MakeDate, TimeWithinDay, Day.
  pose proof (Z.div_mod d msPerDay) as H. unfold msPerDay in *. lia.
Qed.

Lemma Day_add (d : Date) (i : Z) : Day (d + i * msPerDay) = Day d + i.
Proof. unfold Day. apply Z.div_add. unfold msPerDay. lia. Qed.

Lemma getDate_add (k i : Z) (time : Z) :
  0 <= time < msPerDay ->
  0 <= i < monthStartDay (k + 1) - monthStartDay k ->
  getDate (monthStartDay k * msPerDay + time + i * msPerDay) = i + 1.
Proof.
  intros Ht Hi.
  replace (monthStartDay k * msPerDay + time + i * msPerDay)
    with (MakeDate (monthStartDay k + i) time)
    by (unfold MakeDate, msPerDay; lia).
  unfold getDate.
  rewrite (monthIndex_MakeDate k) by (try exact Ht; lia).
  rewrite Day_MakeDate by exact Ht. lia.
Qed.

(** The day point counts the transactions of the day of [current]. *)
Lemma dayPoint_totals (transactions : list Transaction) (current : Date) :
  dayPoint transactions current
  = {| dp_date := format_dd current;
       dp_income := dayTotal income (Day current) transactions;
       dp_expenses := dayTotal expense (Day current) transactions;
       dp_net := (dayTotal income (Day current) transactions
                  - dayTotal expense (Day current) transactions)%Q |}.
Proof.
  unfold dayPoint, dayTotal, ofType. cbv zeta.
  rewrite !TrendFacts.filter_twice.
  assert (Hext : forall ty,
            List.filter (fun t => String.eqb (toDateString (tx_date t))
                                             (toDateString current)
                                  && TransactionType_eqb (tx_type t) ty)
                        transactions
            = List.filter (fun t => datedOnDay (Day current) t
                                    && TransactionType_eqb (tx_type t) ty)
                          transactions).
  { intros ty. apply List.filter_ext. intros t.
    rewrite toDateString_same_day. reflexivity. }
  rewrite !Hext. reflexivity.
Qed.

(** The loop visits [current], [current] plus one day, and so on, as long
    as the date is not after [stop]; fuel beyond that count changes
    nothing. *)
Lemma dailyLoop_days (transactions : list Transaction) (stop : Date)
      (fuel : nat) (current : Date) :
  (stop - current) / msPerDay + 1 <= Z.of_nat fuel ->
  dailyLoop fuel transactions current stop
  = map (fun i : nat => dayPoint transactions (current + Z.of_nat i * msPerDay))
        (seq 0 (Z.to_nat ((stop - current) / msPerDay + 1))).
Proof.
  revert current. induction fuel as [|fuel IH]; intros current Hfuel.
  - replace (Z.to_nat ((stop - current) / msPerDay + 1)) with 0%nat by lia.
    reflexivity.
  - cbn [dailyLoop]. unfold getTime.
    assert (Hstep : (stop - (current + msPerDay)) / msPerDay
                    = (stop - current) / msPerDay - 1).
    { replace (stop - (current + msPerDay))
        with (stop - current + (-1) * msPerDay) by lia.
      rewrite Z.div_add by (unfold msPerDay; lia). lia. }
    destruct (current <=? stop) eqn:E.
    + apply Z.leb_le in E.
      assert (Hq : 0 <= (stop - current) / msPerDay)
        by (apply Z.div_pos; unfold msPerDay; lia).
      replace (Z.to_nat ((stop - current) / msPerDay + 1))
        with (S (Z.to_nat ((stop - current) / msPerDay))) by lia.
      cbn [seq map]. rewrite <- seq_shift, map_map.
      rewrite setDate_next, IH by lia. rewrite Hstep.
      replace (current + Z.of_nat 0 * msPerDay) with current by lia.
      f_equal.
      replace ((stop - current) / msPerDay - 1 + 1)
        with ((stop - current) / msPerDay) by lia.
      apply map_ext. intros i. f_equal. lia.
    + apply Z.leb_gt in E.
      assert (Hq : (stop - current) / msPerDay < 0)
        by (apply Z.div_lt_upper_bound; unfold msPerDay; lia).
      replace (Z.to_nat ((stop - current) / msPerDay + 1)) with 0%nat by lia.
      reflexivity.
Qed.

Lemma month_days (k : Z) :
  (monthStartDay (k + 1) * msPerDay - 1 - monthStartDay k * msPerDay) / msPerDay + 1
  = monthStartDay (k + 1) - monthStartDay k.
Proof.
  replace (monthStartDay (k + 1) * msPerDay - 1 - monthStartDay k * msPerDay)
    with (msPerDay - 1 + (monthStartDay (k + 1) - monthStartDay k - 1) * msPerDay)
    by lia.
  rewrite Z.div_add by (unfold msPerDay; lia).
  rewrite Z.div_small by (unfold msPerDay; lia). lia.
Qed.

Lemma month_points (transactions : list Transaction) (selected : Date)
      (fuel : nat) :
  let k := monthIndex selected in
  monthStartDay (k + 1) - monthStartDay k <= Z.of_nat fuel ->
  dailyLoop fuel transactions (startOfMonth selected) (endOfMonth selected)
  = map (fun i : nat =>
           let day := monthStartDay k + Z.of_nat i in
           {| dp_date := addLeadingZeros (Z.of_nat i + 1) 2;
              dp_income := dayTotal income day transactions;
              dp_expenses := dayTotal expense day transactions;
              dp_net := (dayTotal income day transactions
                         - dayTotal expense day transactions)%Q |})
        (seq 0 (Z.to_nat (monthStartDay (k + 1) - monthStartDay k))).
Proof.
  cbv zeta. intros Hfuel.
  rewrite startOfMonth_eq, endOfMonth_eq.
  rewrite dailyLoop_days by (rewrite month_days; exact Hfuel).
  rewrite month_days. apply map_ext_in. intros i Hi. apply in_seq in Hi.
  rewrite dayPoint_totals, Day_add.
  replace (Day (monthStartDay (monthIndex selected) * msPerDay))
    with (monthStartDay (monthIndex selected))
    by (unfold Day; rewrite Z.div_mul by (unfold msPerDay; lia); reflexivity).
  unfold format_dd.
  replace (monthStartDay (monthIndex selected) * msPerDay + Z.of_nat i * msPerDay)
    with (monthStartDay (monthIndex selected) * msPerDay + 0 + Z.of_nat i * msPerDay)
    by lia.
  rewrite getDate_add by (unfold msPerDay; lia). reflexivity.
Qed.

Lemma month_fuel (selected : Date) :
  Z.of_nat (Z.to_nat (Day (endOfMonth selected) - Day (startOfMonth selected) + 1))
  = monthStartDay (monthIndex selected + 1) - monthStartDay (monthIndex selected).
Proof.
  rewrite startOfMonth_eq, endOfMonth_eq.
  pose proof (monthStartDay_step (monthIndex selected)) as Hstep.
  replace (Day (monthStartDay (monthIndex selected) * msPerDay))
    with (monthStartDay (monthIndex selected))
    by (unfold Day; rewrite Z.div_mul by (unfold msPerDay; lia); reflexivity).
  replace (Day (monthStartDay (monthIndex selected + 1) * msPerDay - 1))
    with (monthStartDay (monthIndex selected + 1) - 1).
  - lia.
  - unfold Day.
    replace (monthStartDay (monthIndex selected + 1) * msPerDay - 1)
      with (msPerDay - 1 + (monthStartDay (monthIndex selected + 1) - 1) * msPerDay)
      by lia.
    rewrite Z.div_add by (unfold msPerDay; lia).
    rewrite Z.div_small by (unfold msPerDay; lia). lia.
Qed.

(** X11.  For the month of the selected date, [getDailyTrend] returns
    one point per day of the month, in order and labelled 01, 02, ...:
    the point of a day holds the sums of the income and of the expense
    transactions dated on that day, whatever their time of day, and their
    difference.  The loop ends on its own condition: running it longer
    gives the same points. *)
Theorem getDailyTrend_month (transactions : list Transaction) (selected : Date) :
  let k := monthIndex selected in
  let points :=
    map (fun i : nat =>
           let day := monthStartDay k + Z.of_nat i in
           {| dp_date := addLeadingZeros (Z.of_nat i + 1) 2;
              dp_income := dayTotal income day transactions;
              dp_expenses := dayTotal expense day transactions;
              dp_net := (dayTotal income day transactions
                         - dayTotal expense day transactions)%Q |})
        (seq 0 (Z.to_nat (monthStartDay (k + 1) - monthStartDay k))) in
  getDailyTrend transactions (startOfMonth selected) (endOfMonth selected) = points
  /\ forall extra : nat,
       dailyLoop (Z.to_nat (Day (endOfMonth selected)
                            - Day (startOfMonth selected) + 1) + extra)
                 transactions (startOfMonth selected) (endOfMonth selected)
       = points.
Proof.
  cbv zeta. split.
  - unfold getDailyTrend. apply month_points. rewrite month_fuel. lia.
  - intros extra. apply month_points.
    rewrite Nat2Z.inj_add, month_fuel. lia.
Qed.

(** *** The report of the page *)

Section WithBuiltins.
Variable toFixed1 : jsnum -> string.
Variable now : Date.

(** Without an account or without a transaction the callback returns
    its defaults, and reads neither helper. *)
Lemma reportData_defaults (accounts : list Account)
      (transactions : list Transaction)
      (reportType : ReportType) (selectedPeriod : Date) :
  accounts = [] \/ transactions = [] ->
  reportData toFixed1 now accounts transactions reportType selectedPeriod
  = Return {| rd_totalIncome := 0;
              rd_totalExpenses := 0;
              rd_netSavings := 0;
              rd_transactionCount := 0;
              rd_categoryData := [];
              rd_accountBreakdown := [];
              rd_trendData := [];
              rd_periodStart := now;
              rd_periodEnd := now |}.
Proof.
  intros [H|H]; subst; unfold reportData, reportDataCallback.
  - reflexivity.
  - cbn [length Nat.eqb]. rewrite orb_true_r. reflexivity.
Qed.

(** Had the two helpers been declared before [reportData], the yearly
    report would hold the twelve points of [getMonthlyTrend]. *)
Lemma reportDataCallback_initialised (account : Account) (accounts : list Account)
      (t : Transaction) (transactions : list Transaction) (selectedPeriod : Date) :
  exists data,
    reportDataCallback toFixed1 now
      {| b_getDailyTrend := Some getDailyTrend;
         b_getMonthlyTrend := Some getMonthlyTrend |}
      (account :: accounts) (t :: transactions) yearly selectedPeriod
    = Return data
    /\ rd_trendData data
       = map MonthRow (getMonthlyTrend (t :: transactions) selectedPeriod).
Proof. eexists. split; reflexivity. Qed.


End WithBuiltins.

(** The yearly report of 2024 for the sample data. *)
Example reportData_sample_year :
  reportData Samples.showJsnum Samples.sampleNow Samples.sampleAccounts
             Samples.sampleTransactions yearly Samples.sampleMarch
  = Throw (MkError "Cannot access 'getMonthlyTrend' before initialization").
Proof. reflexivity. Qed.

End ReportFacts.

(** ** Dashboard and AnalysisPage: the figures agree with each other *)

Module FiguresFacts.
Import JsDate JsDateFacts Text DateFormat Js JsFacts Model Gemini.
Import Reference BreakdownFacts.
Local Open Scope Z_scope.

(** The trend of the dashboard ends with the current month. *)
Lemma dashboard_last_point (transactions : list Transaction) (now : Date) :
  exists trend,
    Dashboard.monthlyTrend transactions now = Some trend
    /\ length trend = 6%nat
    /\ nth_error trend 5
       = Some (Dashboard.monthPoint transactions now).
Proof.
  unfold Dashboard.monthlyTrend. rewrite dashboard_months.
  eexists. split; [reflexivity|]. split.
  - rewrite length_map. unfold Spec.monthsFrom. rewrite length_map, length_seq.
    reflexivity.
  - unfold Spec.monthsFrom. cbn [seq map nth_error]. f_equal.
    unfold Dashboard.monthPoint. cbv zeta.
    replace (monthIndex now - 5 + Z.of_nat 5) with (monthIndex now) by lia.
    rewrite !TrendFacts.month_total, monthIndex_month_start.
    rewrite TrendFacts.format_MMM_month_start. reflexivity.
Qed.

(** X15.  The dashboard is always computed ([eachMonthOfInterval] never
    throws there); its chart has six points and the last one is the
    current month with the income, expenses and savings of the cards. *)
Theorem dashboard_consistent (accounts : list Account)
        (transactions : list Transaction) (investments : list Investment)
        (now : Date) :
  exists summary,
    DashboardData.dashboardData accounts transactions investments now
    = Some summary
    /\ length (DashboardData.monthlyTrend summary) = 6%nat
    /\ nth_error (DashboardData.monthlyTrend summary) 5
       = Some {| Dashboard.tp_month := format_MMM now;
                 Dashboard.tp_income := DashboardData.monthlyIncome summary;
                 Dashboard.tp_expenses := DashboardData.monthlyExpenses summary;
                 Dashboard.tp_savings := DashboardData.monthlySavings summary |}.
Proof.
  unfold DashboardData.dashboardData. cbv zeta.
  destruct (dashboard_last_point transactions now) as [trend [Ht [Hlen Hlast]]].
  rewrite Ht. eexists. split; [reflexivity|].
  cbn [DashboardData.monthlyTrend DashboardData.monthlyIncome
       DashboardData.monthlyExpenses DashboardData.monthlySavings].
  split; [exact Hlen|exact Hlast].
Qed.

(** *** AnalysisPage *)

Lemma monthsFrom_length (k : Z) (n : nat) : length (Spec.monthsFrom k n) = n.
Proof. unfold Spec.monthsFrom. rewrite length_map, length_seq. reflexivity. Qed.

(** X28.  The figures of AnalysisPage agree with its chart: [monthlyData]
    has six points, the last one is the current month with the income and
    the expenses of the cards, and the two changes shown are computed
    from the last two points, the one before last being the calendar
    month before the current one, also when today is a day (the 29th to
    the 31st) that the previous month does not have. *)
Theorem analysis_changes_from_chart (transactions : list Transaction) (now : Date) :
  exists a previous current,
    AnalysisPage.analysisData transactions now = Some a
    /\ length (AnalysisPage.monthlyData a) = 6%nat
    /\ nth_error (AnalysisPage.monthlyData a) 4 = Some previous
    /\ nth_error (AnalysisPage.monthlyData a) 5 = Some current
    /\ AnalysisPage.ms_month current = format_MMM now
    /\ AnalysisPage.ms_income current = AnalysisPage.currentIncome a
    /\ AnalysisPage.ms_expenses current = AnalysisPage.currentExpenses a
    /\ AnalysisPage.ms_income previous
       = Spec.monthTotal income (monthIndex now - 1) transactions
    /\ AnalysisPage.ms_expenses previous
       = Spec.monthTotal expense (monthIndex now - 1) transactions
    /\ AnalysisPage.incomeChange a
       = percentOf (AnalysisPage.ms_income current
                    - AnalysisPage.ms_income previous)
                   (AnalysisPage.ms_income previous)
    /\ AnalysisPage.expenseChange a
       = percentOf (AnalysisPage.ms_expenses current
                    - AnalysisPage.ms_expenses previous)
                   (AnalysisPage.ms_expenses previous).
Proof.
  unfold AnalysisPage.analysisData. cbv zeta. rewrite dashboard_months.
  eexists. eexists. eexists. split; [reflexivity|].
  cbn [AnalysisPage.monthlyData AnalysisPage.currentIncome
       AnalysisPage.currentExpenses AnalysisPage.incomeChange
       AnalysisPage.expenseChange].
  split; [rewrite length_map; apply monthsFrom_length|].
  unfold Spec.monthsFrom. cbn [seq map nth_error].
  split; [reflexivity|]. split; [reflexivity|].
  unfold AnalysisPage.monthSummary. cbv zeta.
  cbn [AnalysisPage.ms_month AnalysisPage.ms_income AnalysisPage.ms_expenses].
  rewrite !TrendFacts.month_total, !monthIndex_month_start.
  assert (Hlast : monthIndex (subMonths now 1) = monthIndex now - 1).
  { unfold subMonths. rewrite monthIndex_addMonths. lia. }
  rewrite Hlast.
  replace (monthIndex now - 5 + Z.of_nat 5) with (monthIndex now) by lia.
  replace (monthIndex now - 5 + Z.of_nat 4) with (monthIndex now - 1) by lia.
  rewrite TrendFacts.format_MMM_month_start.
  repeat split; reflexivity.
Qed.

Lemma StronglySorted_app {A} (R : A -> A -> Prop) (l1 l2 : list A) :
  StronglySorted R (l1 ++ l2) ->
  StronglySorted R l1 /\ forall x y, In x l1 -> In y l2 -> R x y.
Proof.
  induction l1 as [|a l1 IH]; cbn [app]; intros Hs.
  - split; [constructor|]. intros x y [].
  - inversion Hs as [|? ? Hrest Hall]; subst. destruct (IH Hrest) as [Hl1 Hcross].
    rewrite List.Forall_forall in Hall. split.
    + constructor; [exact Hl1|]. apply List.Forall_forall. intros x Hx.
      apply Hall. apply in_or_app. left. exact Hx.
    + intros x y [Hx|Hx] Hy.
      * subst x. apply Hall. apply in_or_app. right. exact Hy.
      * apply Hcross; assumption.
Qed.

Lemma descending_amounts (l : list (string * Q)) :
  StronglySorted largerFirst l -> descending (map snd l).
Proof.
  unfold descending. induction 1 as [|e l Hs IH Hall]; cbn [map]; constructor.
  - exact IH.
  - apply List.Forall_forall. intros y Hy. apply in_map_iff in Hy.
    destruct Hy as [f [Hf Hin]]. subst y.
    rewrite List.Forall_forall in Hall. apply (Hall f Hin).
Qed.

(** X17.  For category names that are ordinary keys of the dictionary
    (none of the names that an object inherits) and amounts that are
    numbers other than [NaN]: [topCategories] lists at most five
    categories of the expenses of the current month, largest first, each
    with the sum of its expenses; a category with an expense this month
    that is not listed has a sum that is not larger than any listed one. *)
Theorem topCategories_largest (transactions : list Transaction) (now : Date) :
  let current := List.filter (dateBetween (startOfMonth now) (endOfMonth now))
                             transactions in
  Forall (fun t => ordinaryKey (tx_category t) = true) transactions ->
  exists a,
    AnalysisPage.analysisData transactions now = Some a
    /\ (length (AnalysisPage.topCategories a) <= 5)%nat
    /\ descending (map AnalysisPage.sh_amount (AnalysisPage.topCategories a))
    /\ Forall (fun row =>
                 (AnalysisPage.sh_amount row
                  == categoryTotal (AnalysisPage.sh_category row) current)%Q)
              (AnalysisPage.topCategories a)
    /\ forall t, In t current -> tx_type t = expense ->
         In (tx_category t)
            (map AnalysisPage.sh_category (AnalysisPage.topCategories a))
         \/ Forall (fun row =>
                      (categoryTotal (tx_category t) current
                       <= AnalysisPage.sh_amount row)%Q)
                   (AnalysisPage.topCategories a).
Proof.
  cbv zeta. intros _. unfold AnalysisPage.analysisData. cbv zeta.
  rewrite dashboard_months.
  eexists. split; [reflexivity|].
  cbn [AnalysisPage.topCategories].
  set (current := List.filter (dateBetween (startOfMonth now) (endOfMonth now))
                              transactions).
  set (sorted := sortEntries (categoryBreakdown current)).
  assert (Hperm : Permutation sorted (categoryBreakdown current))
    by apply sortEntries_perm.
  assert (Hsorted : StronglySorted largerFirst sorted).
  { apply Sorted_StronglySorted; [exact largerFirst_trans|apply sortEntries_Sorted]. }
  rewrite <- (firstn_skipn 5 sorted) in Hsorted.
  apply StronglySorted_app in Hsorted. destruct Hsorted as [Htop Hcross].
  assert (Hin : forall e, In e (firstn 5 sorted) -> In e (categoryBreakdown current)).
  { intros e He. apply (Permutation_in _ Hperm).
    rewrite <- (firstn_skipn 5 sorted). apply in_or_app. left. exact He. }
  split; [rewrite length_map; apply firstn_le_length|].
  split.
  { rewrite map_map. cbn [AnalysisPage.sh_amount].
    apply descending_amounts. exact Htop. }
  split.
  { apply List.Forall_forall. intros row Hrow. apply in_map_iff in Hrow.
    destruct Hrow as [e [He Hrow]]. subst row.
    cbn [AnalysisPage.sh_amount AnalysisPage.sh_category].
    apply breakdown_value. apply Hin. exact Hrow. }
  intros t Ht Hty.
  assert (Hkey : In (tx_category t) (map fst (categoryBreakdown current))).
  { unfold categoryBreakdown. apply fold_keys. right. exists t.
    split; [|reflexivity]. apply expense_ofType. split; assumption. }
  apply in_map_iff in Hkey. destruct Hkey as [e [Hfst He]].
  apply (Permutation_in _ (Permutation_sym Hperm)) in He.
  pose proof (breakdown_value current e
                (Permutation_in _ Hperm He)) as Hval.
  rewrite <- (firstn_skipn 5 sorted) in He. apply in_app_or in He.
  destruct He as [He|He].
  - left. rewrite map_map. cbn [AnalysisPage.sh_category].
    rewrite <- Hfst. apply in_map. exact He.
  - right. apply List.Forall_forall. intros row Hrow. apply in_map_iff in Hrow.
    destruct Hrow as [f [Hf Hrow]]. subst row. cbn [AnalysisPage.sh_amount].
    specialize (Hcross f e Hrow He). unfold largerFirst in Hcross.
    rewrite <- Hfst, <- Hval. exact Hcross.
Qed.

(** The sample data in March 2024: one category, the groceries. *)
Lemma topCategories_largest_witness :
  let current :=
    List.filter (dateBetween (startOfMonth Samples.sampleMarch)
                             (endOfMonth Samples.sampleMarch))
                Samples.sampleTransactions in
  exists a,
    AnalysisPage.analysisData Samples.sampleTransactions Samples.sampleMarch
    = Some a
    /\ (length (AnalysisPage.topCategories a) <= 5)%nat
    /\ descending (map AnalysisPage.sh_amount (AnalysisPage.topCategories a))
    /\ Forall (fun row =>
                 (AnalysisPage.sh_amount row
                  == categoryTotal (AnalysisPage.sh_category row) current)%Q)
              (AnalysisPage.topCategories a)
    /\ forall t, In t current -> tx_type t = expense ->
         In (tx_category t)
            (map AnalysisPage.sh_category (AnalysisPage.topCategories a))
         \/ Forall (fun row =>
                      (categoryTotal (tx_category t) current
                       <= AnalysisPage.sh_amount row)%Q)
                   (AnalysisPage.topCategories a).
Proof.
  apply (topCategories_largest Samples.sampleTransactions Samples.sampleMarch).
  repeat constructor.
Defined.

End FiguresFacts.

(** ** The pages that write *)

Module HandlerFacts.
Import Js JsDate DataContext PageHandlers Reference.

Section Backend.
Variable rejects : World -> Request -> option JsError.
Variable freshId : Collection -> string.
Variable queryDocs : string -> string -> Collection -> list (string * Doc).
Variable now : Date.

Section Form.
Variable F : Type.
Variable defaults : F.
Variable toDoc : F -> Doc.

(** The handler of each kind of entity. *)
Lemma submit_run (entity : Entity) (user : option User) (data : F)
      (page : FormPage F) (w : World) :
  match entity with
  | AccountEntity =>
      onSubmitAccount rejects freshId queryDocs now F defaults toDoc user
  | TransactionEntity =>
      onSubmitTransaction rejects freshId queryDocs now F defaults toDoc user
  | InvestmentEntity =>
      onSubmitInvestment rejects freshId queryDocs now F defaults toDoc user
  end data page w
  = match run rejects freshId queryDocs now user
              (submitOp entity toDoc data page) w with
    | (Return _, w') => (Return (closedForm defaults), w')
    | (Throw e, w') => (Return page, w')
    end.
Proof.
  unfold submitOp, closedForm.
  destruct entity; destruct page as [shown [id|] values];
    unfold onSubmitAccount, onSubmitTransaction, onSubmitInvestment, submit,
      tryCatch, andThen, bindM, ret;
    cbn [editing showForm formValues run updateOp addOp];
    match goal with
    | |- context [run _ _ _ _ _ _ w] => cbn [run]
    | |- _ => idtac
    end;
    match goal with
    | |- _ = match ?m with _ => _ end =>
        destruct m as [[[]|e] w']; reflexivity
    end.
Qed.

(** X18.  Submitting the form of TransactionsPage, of SettingsPage
    (accounts) or of InvestmentsPage never throws, and ends in one of
    three ways.  A new entity submitted while no user is signed in is
    dropped: no SDK call and no toast, yet the form is closed and reset
    as after a success.  Otherwise one SDK call is made; when it throws,
    the page is left as it was (form open, values kept, still editing)
    with the error toast of the operation; when it goes through, the
    form is closed and reset and nothing is being edited any more. *)
Theorem submit_outcome (entity : Entity) (user : option User) (data : F)
        (page : FormPage F) (w : World) :
  let op := submitOp entity toDoc data page in
  match entity with
  | AccountEntity =>
      onSubmitAccount rejects freshId queryDocs now F defaults toDoc user
  | TransactionEntity =>
      onSubmitTransaction rejects freshId queryDocs now F defaults toDoc user
  | InvestmentEntity =>
      onSubmitInvestment rejects freshId queryDocs now F defaults toDoc user
  end data page w
  = match Spec.sdkRequest now user op with
    | None => (Return (closedForm defaults), w)
    | Some r =>
        match Spec.sdkCompletion rejects freshId w r with
        | Throw e =>
            (Return page,
             {| db := db w; state := state w;
                toasts := toasts w ++ [Spec.errorToast op];
                requests := requests w ++ [r] |})
        | Return database =>
            (Return (closedForm defaults),
             {| db := database;
                state := onCollectionChange queryDocs now user
                           (requestCollection r) database (state w);
                toasts := toasts w ++ [Spec.successToast op];
                requests := requests w ++ [r] |})
        end
    end.
Proof.
  cbv zeta. rewrite submit_run.
  set (op := submitOp entity toDoc data page).
  destruct (Spec.sdkRequest now user op) as [r|] eqn:Hreq.
  - rewrite (DataContextFacts.run_guarded rejects freshId queryDocs now
               user op r Hreq).
    rewrite DataContextFacts.guarded_outcome.
    destruct (Spec.sdkCompletion rejects freshId w r) as [database|e];
      destruct op; reflexivity.
  - destruct op, user; try discriminate Hreq; reflexivity.
Qed.

(** X19.  [onSubmit] of UploadBillPage never throws.  When the
    transaction is saved the success message is shown twice, once by the
    context and once by the page.  While no user is signed in nothing is
    saved and no SDK call is made, yet the page is cleared and the
    success message is shown.  When the SDK call throws, the page is left
    as it was with the error toast of the context. *)
Theorem onSubmitUpload_outcome (user : option User) (data : F)
        (page : UploadPage F) (w : World) :
  let cleared := {| selectedFile := None; preview := None;
                    extractedData := None; extractionError := None;
                    uploadValues := defaults |} in
  let added := ToastSuccess "Transaction added successfully!" in
  onSubmitUpload rejects freshId queryDocs now F defaults toDoc user data page w
  = match user with
    | None =>
        (Return cleared,
         {| db := db w; state := state w;
            toasts := toasts w ++ [added];
            requests := requests w |})
    | Some u =>
        let r := AddDoc "transactions" (withOwner now u (toDoc data)) in
        match Spec.sdkCompletion rejects freshId w r with
        | Throw e =>
            (Return page,
             {| db := db w; state := state w;
                toasts := toasts w ++ [ToastError "Failed to add transaction"];
                requests := requests w ++ [r] |})
        | Return database =>
            (Return cleared,
             {| db := database;
                state := onCollectionChange queryDocs now user "transactions"
                                            database (state w);
                toasts := (toasts w ++ [added]) ++ [added];
                requests := requests w ++ [r] |})
        end
    end.
Proof.
  cbv zeta. unfold onSubmitUpload, addTransaction.
  destruct user as [u|].
  - unfold tryCatch, andThen, bindM. rewrite DataContextFacts.guarded_outcome.
    destruct (Spec.sdkCompletion rejects freshId w _) as [database|e];
      reflexivity.
  - reflexivity.
Qed.

End Form.

Lemma accounts_listener_others (user : option User) (database : Database)
      (s : AppState) :
  transactions (onCollectionChange queryDocs now user "accounts" database s)
  = transactions s
  /\ investments (onCollectionChange queryDocs now user "accounts" database s)
     = investments s.
Proof. destruct user; split; reflexivity. Qed.

(** X20.  Deleting an account from SettingsPage never throws and deletes
    nothing but the account: at most one SDK call is made, the deletion
    of the account document, and the transactions of the database and of
    the provider are the same after it as before, whether the user
    confirmed or not and whatever the backend answers, although the
    question asked says that the associated transactions will be deleted
    too. *)
Theorem handleDeleteAccount_keeps_transactions (user : option User)
        (confirmed : bool) (id : string) (w : World) :
  let result := handleDeleteAccount rejects freshId queryDocs now user
                                    confirmed id w in
  fst result = Return tt
  /\ db (snd result) !! "transactions" = db w !! "transactions"
  /\ transactions (state (snd result)) = transactions (state w)
  /\ (requests (snd result) = requests w
      \/ requests (snd result) = requests w ++ [DeleteDoc "accounts" id]).
Proof.
  cbv zeta. unfold handleDeleteAccount, confirmThenDelete, deleteAccount.
  destruct confirmed; [|repeat split; left; reflexivity].
  unfold tryCatch. rewrite DataContextFacts.guarded_outcome.
  destruct (Spec.sdkCompletion rejects freshId w (DeleteDoc "accounts" id))
    as [database|e] eqn:Hsdk; cbn [fst snd db state requests ret].
  - unfold Spec.sdkCompletion in Hsdk.
    destruct (rejects w (DeleteDoc "accounts" id)); [discriminate Hsdk|].
    split; [reflexivity|]. split; [|split].
    + apply (DataContextFacts.applyRequest_frame freshId _ _ _ _ Hsdk).
      cbn. discriminate.
    + apply accounts_listener_others.
    + right. reflexivity.
  - repeat split. right. reflexivity.
Qed.

End Backend.

End HandlerFacts.

(** ** AnalysisPage: asking for insights *)

Module InsightFacts.
Import JsDate Text DateFormat Js Model Gemini DataContext AnalysisPage.

Section WithBuiltins.
Variable JSON_parse : string -> Completion JsValue.
Variable toFixed1 : jsnum -> string.
Variable toLocaleString : Q -> string.

(** [generateFinancialInsights] catches whatever its body throws. *)
Lemma generateFinancialInsights_returns (transactions : list Transaction)
      (accounts : list Account) (outcome : ModelOutcome) :
  exists aiInsights,
    generateFinancialInsights JSON_parse toFixed1 toLocaleString
                              transactions accounts outcome
    = Return aiInsights.
Proof.
  unfold generateFinancialInsights.
  destruct (bind (responseText outcome) _) as [aiInsights|e]; cbn [try_catch];
    eexists; reflexivity.
Qed.

(** X21.  [generateInsights] of AnalysisPage has two outcomes only.
    Without transactions it asks for some and changes nothing.  With
    transactions it always ends with the toast "AI insights generated
    successfully!" and the loading flag off, also when the model call
    failed: the toast "Failed to generate insights" is never shown.  When
    the model gave no text or a text without a bracketed part, the
    insights shown under that toast are the rule-based ones, and the
    "Getting Started" insight is not among them. *)
Theorem generateInsights_outcome (transactions : list Transaction)
        (accounts : list Account) (outcome : ModelOutcome) (page : PageState) :
  (transactions = []
   /\ generateInsights JSON_parse toFixed1 toLocaleString transactions accounts
                       outcome page
      = (page, [ToastError "Add some transactions first to get AI insights"]))
  \/ exists aiInsights,
       generateFinancialInsights JSON_parse toFixed1 toLocaleString
                                 transactions accounts outcome
       = Return aiInsights
       /\ generateInsights JSON_parse toFixed1 toLocaleString transactions
                           accounts outcome page
          = ({| insights := aiInsights; loadingInsights := false |},
             [ToastSuccess "AI insights generated successfully!"])
       /\ (match outcome with
           | Text text => matchDelimited "[" "]" text = None
           | _ => True
           end ->
           aiInsights
           = savingsInsights toFixed1 toLocaleString transactions
             ++ categoryInsights toFixed1 toLocaleString transactions
             ++ frequencyInsights transactions).
Proof.
  unfold generateInsights.
  destruct transactions as [|t rest] eqn:Htx; [left; split; reflexivity|].
  right. rewrite <- Htx.
  destruct (generateFinancialInsights_returns transactions accounts outcome)
    as [aiInsights Hai].
  exists aiInsights. split; [exact Hai|]. split.
  - rewrite Hai. subst transactions. reflexivity.
  - intros Hfallback.
    rewrite (GeminiFacts.generateFinancialInsights_fallback
               JSON_parse toFixed1 toLocaleString transactions accounts outcome
               Hfallback) in Hai.
    inversion Hai as [Heq]. unfold generateFallbackInsights.
    subst transactions. reflexivity.
Qed.

End WithBuiltins.

End InsightFacts.

(** ** ReportsPage: the downloaded file as a whole *)

Module CsvFileFacts.
Import JsDate JsDateFacts Text TextFacts DateFormat Model ReportsPage.
Import StringFacts CsvFacts.
Local Open Scope Z_scope.

Lemma occurs_minus_nonneg (n : Z) (k : nat) :
  0 <= n -> occurs "-" (addLeadingZeros n k) = false.
Proof.
  intros Hn. unfold addLeadingZeros. cbv zeta.
  replace (n <? 0) with false by (symmetry; apply Z.ltb_ge; exact Hn).
  rewrite append_empty. apply occurs_padStart; [reflexivity|].
  apply occurs_digits. reflexivity.
Qed.

Lemma split_format_date (d : Date) :
  0 < getFullYear d ->
  split "-" (format_yyyy_MM_dd d)
  = [addLeadingZeros (getFullYear d) 4; format_MM d; format_dd d].
Proof.
  intros Hy. unfold format_yyyy_MM_dd, format_yyyy. cbv zeta.
  replace (getFullYear d >? 0) with true by (symmetry; apply Z.gtb_lt; exact Hy).
  rewrite !append_String, !append_empty.
  pose proof (getMonth_range d) as Hm. pose proof (getDate_range d) as Hd.
  rewrite split_cell_sep by (apply occurs_minus_nonneg; lia).
  rewrite split_cell_sep by (apply occurs_minus_nonneg; lia).
  rewrite split_cell by (apply occurs_minus_nonneg; lia).
  reflexivity.
Qed.

(** X22.  From the year 1 on, [format(date, "yyyy-MM-dd")], the date
    cell of the exported rows, names the calendar day and nothing else:
    two dates get the same text exactly when they fall on the same day,
    whatever their time of day. *)
Theorem format_date_names_day (a b : Date) :
  0 < getFullYear a -> 0 < getFullYear b ->
  (format_yyyy_MM_dd a = format_yyyy_MM_dd b <-> Day a = Day b).
Proof.
  intros Ha Hb. split.
  - intros H. apply (f_equal (split "-")) in H.
    rewrite !split_format_date in H by assumption.
    injection H as Hy Hm Hd.
    apply addLeadingZeros_inj in Hy, Hm, Hd.
    unfold getDate in *.
    assert (Hk : monthIndex a = monthIndex b).
    { rewrite <- (year_month_index a), <- (year_month_index b). lia. }
    rewrite Hk in Hd. lia.
  - intros H.
    unfold format_yyyy_MM_dd, format_yyyy, format_MM, format_dd, getFullYear,
      getMonth, getDate, monthIndex.
    rewrite H. reflexivity.
Qed.

(** Two instants of 29 February 2024. *)
Lemma format_date_names_day_witness :
  format_yyyy_MM_dd Samples.sampleNow = format_yyyy_MM_dd (Samples.sampleNow + 1000)
  <-> Day Samples.sampleNow = Day (Samples.sampleNow + 1000).
Proof.
  apply (format_date_names_day Samples.sampleNow (Samples.sampleNow + 1000));
    reflexivity.
Defined.

Section Download.
Variable Number_toString : Q -> string.
Hypothesis Number_toString_plain :
  forall q, occurs comma (Number_toString q) = false
            /\ occurs newline (Number_toString q) = false.

(** X23.  When no category, description or account name of the loaded
    transactions holds a comma or a line feed, the file offered by
    [downloadCSV] can be read back: cutting its content into lines and
    each line at its commas gives the header and then, for each
    transaction of the selected period and in their order, exactly its
    six cells. *)
Theorem downloaded_file_round_trip (accounts : list Account)
        (transactions : list Transaction) (reportType : ReportType)
        (selectedPeriod : Date) (filename content message : string) :
  Forall (fun t =>
            occurs comma (tx_category t) = false
            /\ occurs newline (tx_category t) = false
            /\ occurs comma (tx_description t) = false
            /\ occurs newline (tx_description t) = false
            /\ occurs comma (accountName accounts t) = false
            /\ occurs newline (accountName accounts t) = false)
         transactions ->
  downloadCSV Number_toString accounts transactions reportType selectedPeriod
  = Downloaded filename content message ->
  map (split comma) (split newline content)
  = csvHeader
    :: map (fun t => [ format_yyyy_MM_dd (tx_date t);
                       typeName (tx_type t);
                       Number_toString (tx_amount t);
                       tx_category t;
                       tx_description t;
                       accountName accounts t ])
           (List.filter (Spec.inSelectedPeriod reportType selectedPeriod)
                        transactions).
Proof.
  intros Hall Hdown. unfold downloadCSV in Hdown. cbv zeta in Hdown.
  destruct (Nat.eqb (length transactions) 0); [discriminate Hdown|].
  rewrite period_filter in Hdown.
  destruct (Nat.eqb (length (List.filter
                               (Spec.inSelectedPeriod reportType selectedPeriod)
                               transactions)) 0); [discriminate Hdown|].
  inversion Hdown; subst.
  apply (csv_file_round_trip Number_toString Number_toString_plain accounts).
  apply List.Forall_forall. intros t Ht. apply List.filter_In in Ht.
  rewrite List.Forall_forall in Hall. apply Hall. apply Ht.
Qed.

End Download.

(** The export of the sample data for March 2024. *)
Lemma downloaded_file_round_trip_witness :
  map (split comma)
      (split newline
         (join (String newline "")
            [ "Date,Type,Amount,Category,Description,Account";
              "2024-03-15,expense,150.5,Food & Dining,Groceries,Unknown";
              "2024-03-08,income,1000,Salary,March salary,Savings" ]))
  = csvHeader
    :: map (fun t => [ format_yyyy_MM_dd (tx_date t);
                       typeName (tx_type t);
                       Samples.decimalString (tx_amount t);
                       tx_category t;
                       tx_description t;
                       accountName Samples.sampleAccounts t ])
           (List.filter (Spec.inSelectedPeriod monthly Samples.sampleMarch)
                        Samples.sampleTransactions).
Proof.
  apply (downloaded_file_round_trip Samples.decimalString decimalString_plain
           Samples.sampleAccounts Samples.sampleTransactions monthly
           Samples.sampleMarch "transactions-2024-03.csv" _
           "CSV downloaded successfully!").
  - repeat constructor.
  - reflexivity.
Defined.

End CsvFileFacts.

(** ** UploadBillPage: what the scan puts into the form *)

Module UploadFacts.
Import JsDate Text TextFacts DateFormat Js JsFacts Gemini DataContext.
Import UploadBillPage Reference GeminiContract.

Section WithBuiltins.
Variable JSON_parse : string -> Completion JsValue.
Variable random : Q.
Variable now : Date.
Variable Array_join : list JsValue -> string.
Variable Date_of : JsValue -> option Date.

(** The placeholder is returned whenever no JSON object is parsed. *)
Lemma extractReceiptData_placeholder (outcome : ModelOutcome) :
  Spec.parsedReceipt JSON_parse outcome = None ->
  extractReceiptData JSON_parse random now outcome
  = Return (placeholderReceipt random now).
Proof.
  intros Hnone. unfold extractReceiptData.
  destruct outcome as [e| |e|text]; try reflexivity.
  cbn [Spec.parsedReceipt] in Hnone. cbn [responseText].
  destruct (String.eqb text "" || String.eqb (trim text) ""); [reflexivity|].
  cbn [bind].
  destruct (matchDelimited "{" "}" text) as [jsonMatch|]; [|reflexivity].
  destruct (JSON_parse jsonMatch) as [value|e]; [discriminate Hnone|reflexivity].
Qed.

(** X25.  When no JSON object could be obtained from the model, whatever
    the reason, [handleExtractData] still announces "Receipt data
    extracted successfully!", records no error, and fills the form with
    the placeholder: the random amount, the category "Shopping" and the
    description "Sample Store" (and today's date when [new Date] reads
    it back). *)
Theorem handleExtractData_placeholder (file : string) (outcome : ModelOutcome)
        (page : PageState) :
  Spec.parsedReceipt JSON_parse outcome = None ->
  (0 <= random)%Q ->
  let drawn := JNum (inject_Z (Qfloor (random * 1000)) + 100) in
  let data := {| merchantName := JStr "Sample Store";
                 amount := drawn;
                 date := JStr (todayISO now);
                 category := JStr "Shopping";
                 description := JStr "Sample Store" |} in
  handleExtractData JSON_parse random now Array_join Date_of (Some file)
                    outcome page
  = ({| uploading := false;
        extractedData := Some data;
        extractionError := None;
        form := {| amountField := drawn;
                   dateField := match Date_of (JStr (todayISO now)) with
                                | Some dateObj => JStr (todayISO dateObj)
                                | None => dateField (form page)
                                end;
                   categoryField := JStr "Shopping";
                   descriptionField := JStr "Sample Store" |} |},
     [ToastSuccess "Receipt data extracted successfully!"]).
Proof.
  intros Hnone Hrandom. cbv zeta.
  unfold handleExtractData, scanReceiptWithGemini. cbv zeta.
  rewrite (extractReceiptData_placeholder outcome Hnone).
  unfold placeholderReceipt.
  cbn [bind getProp lookupField String.eqb Ascii.eqb Bool.eqb joinedItems
       try_catch].
  set (a := (inject_Z (Qfloor (random * 1000)) + 100)%Q).
  assert (Ha : (100 <= a)%Q).
  { unfold a. assert (H0 : (0 <= Qfloor (random * 1000))%Z).
    { change 0%Z with (Qfloor 0). apply Qfloor_resp_le. lra. }
    rewrite Zle_Qle in H0. change (inject_Z 0) with 0%Q in H0. lra. }
  assert (Hnz : Qeq_bool a 0 = false).
  { destruct (Qeq_bool a 0) eqn:E; [|reflexivity].
    apply Qeq_bool_iff in E. lra. }
  assert (Hpos : Qlt_bool 0 a = true) by (apply Qlt_bool_iff; lra).
  unfold or_else. cbn [truthy]. rewrite Hnz, todayISO_not_empty.
  cbn [negb String.eqb Ascii.eqb Bool.eqb].
  unfold setCategory, setDateValue, setAmount, setDescription.
  cbn [amount date category description merchantName form truthy positive
       andb orb negb String.eqb Ascii.eqb Bool.eqb
       amountField dateField categoryField descriptionField].
  rewrite Hnz, Hpos, todayISO_not_empty. cbn [negb andb].
  destruct (Date_of (JStr (todayISO now))); reflexivity.
Qed.

End WithBuiltins.

(** A reply without JSON, a draw of one half. *)
Lemma handleExtractData_placeholder_witness :
  handleExtractData (Samples.parseOnly "{}" (JObj [])) (1 # 2) Samples.sampleNow
                    (fun _ => "") (fun _ => None) (Some "receipt.jpg")
                    (Text "I cannot read this image.")
                    {| uploading := false; extractedData := None;
                       extractionError := None;
                       form := {| amountField := JUndefined;
                                  dateField := JStr "2024-01-01";
                                  categoryField := JUndefined;
                                  descriptionField := JUndefined |} |}
  = ({| uploading := false;
        extractedData :=
          Some {| merchantName := JStr "Sample Store";
                  amount := JNum (inject_Z (Qfloor ((1 # 2) * 1000)) + 100);
                  date := JStr (todayISO Samples.sampleNow);
                  category := JStr "Shopping";
                  description := JStr "Sample Store" |};
        extractionError := None;
        form := {| amountField := JNum (inject_Z (Qfloor ((1 # 2) * 1000)) + 100);
                   dateField := JStr "2024-01-01";
                   categoryField := JStr "Shopping";
                   descriptionField := JStr "Sample Store" |} |},
     [ToastSuccess "Receipt data extracted successfully!"]).
Proof.
  apply (handleExtractData_placeholder (Samples.parseOnly "{}" (JObj [])) (1 # 2)
           Samples.sampleNow (fun _ => ""%string) (fun _ => None) "receipt.jpg"
           (Text "I cannot read this image.")
           {| uploading := false; extractedData := None;
              extractionError := None;
              form := {| amountField := JUndefined;
                         dateField := JStr "2024-01-01";
                         categoryField := JUndefined;
                         descriptionField := JUndefined |} |}).
  - reflexivity.
  - discriminate.
Defined.

End UploadFacts.

(** ** The two transaction forms below one hundredth *)

Module FormRuleFacts.
Import Forms.

Lemma requiredString_field (field message value : string) (e : FieldError) :
  In e (requiredString field message value) -> fst e = field.
Proof.
  unfold requiredString. destruct (String.eqb value ""); [|intros []].
  intros [H|[]]. subst e. reflexivity.
Qed.

(** X27.  The two forms disagree on a positive amount below 0.01.  The
    receipt-upload form rejects it, with the message "Amount must be
    positive" although the amount is positive; the manual form raises no
    error on the amount. *)
Theorem small_amount_rules (data : TransactionFormData) (value : Q) :
  amount data = Some value ->
  (0 < value)%Q -> (value < 1 # 100)%Q ->
  submitUpload data = Rejected (registerErrors data)
  /\ In ("amount", Some "Amount must be positive") (registerErrors data)
  /\ forall e, In e (schemaErrors data) -> fst e = "amount" -> False.
Proof.
  intros Hamount Hpos Hsmall.
  assert (Hr : In ("amount", Some "Amount must be positive") (registerErrors data)).
  { unfold registerErrors. rewrite Hamount.
    assert (H0 : Js.Qlt_bool value (1 # 100) = true)
      by (apply JsFacts.Qlt_bool_iff; exact Hsmall).
    rewrite H0. rewrite !in_app_iff. right. left. left. reflexivity. }
  split; [apply (FormsFacts.handleSubmit_rejects registerErrors data _ Hr)|].
  split; [exact Hr|].
  intros e He Hfield. unfold schemaErrors in He. rewrite Hamount in He.
  assert (H0 : Js.Qlt_bool 0 value = true)
    by (apply JsFacts.Qlt_bool_iff; exact Hpos).
  rewrite H0 in He. rewrite !in_app_iff in He.
  destruct He as [He|[He|[[]|[He|[He|He]]]]];
    try (apply requiredString_field in He; rewrite He in Hfield;
         discriminate Hfield).
  destruct (String.eqb (type data) "income" || String.eqb (type data) "expense");
    [destruct He|destruct He as [He|[]]; subst e; discriminate Hfield].
Qed.

(** Half a hundredth in the form that is otherwise complete. *)
Lemma small_amount_rules_witness :
  let data := {| accountId := accountId Samples.filledForm;
                 type := type Samples.filledForm;
                 amount := Some (1 # 200);
                 category := category Samples.filledForm;
                 description := description Samples.filledForm;
                 date := date Samples.filledForm;
                 notes := notes Samples.filledForm |} in
  submitUpload data = Rejected (registerErrors data)
  /\ In ("amount", Some "Amount must be positive") (registerErrors data)
  /\ forall e, In e (schemaErrors data) -> fst e = "amount" -> False.
Proof.
  apply (small_amount_rules _ (1 # 200)); reflexivity.
Defined.

End FormRuleFacts.
